(** * School administration: attendance and result reconciliation

    A shallow embedding of [main_app/models.py], the staff views
    ([get_students], [save_attendance], [get_student_attendance],
    [update_attendance], [staff_add_result], [fetch_student_result]) and
    [EditResultView.post].

    The database is a record of tables; a table is the list of its rows in
    insertion order.  A view is a computation in a state-and-exception
    monad over the database: a write that happened before an exception is
    raised stays in the state, since no view opens a transaction.

    Out of the model: the audit columns [created_at] / [updated_at], the
    template layer, and the decoding of the HTTP payload (a view receives
    the values of the [request.POST.get] calls already decoded). *)

From Stdlib Require Import ZArith List String Bool Lia PrimFloat.
Import ListNotations.
Local Open Scope string_scope.
Local Open Scope list_scope.
Local Open Scope Z_scope.

(** ** Values *)

(** [datetime.date], the value of a [DateField]. *)
Record date := mkdate { year : Z; month : Z; day : Z }.

Definition date_eqb (a b : date) : bool :=
  (year a =? year b) && (month a =? month b) && (day a =? day b).

(** The exceptions the ORM calls of the views can raise. *)
Inductive Exception :=
| DoesNotExist
| MultipleObjectsReturned
| Http404
| ValidationError
| IntegrityError
| ValueError
| AssertionError.

Inductive Outcome (A : Type) :=
| Return (a : A)
| Raise (e : Exception).
Arguments Return {A} a.
Arguments Raise {A} e.

(** ** Models *)

(** [django.db.models.Model]: every row has an integer primary key. *)
Class Model (R : Type) := {
  pk : R -> Z;
  with_pk : Z -> R -> R;
  pk_with_pk : forall i r, pk (with_pk i r) = i
}.

(** [user_type] is the value the caller gave at construction (1 when left
    out); the [post_save] receivers compare it with the integers 1, 2, 3. *)
Module CustomUser.
Record t := make {
  id : Z;
  email : string;
  password : string;
  user_type : Z;
  first_name : string;
  last_name : string;
  is_staff : bool;
  is_superuser : bool
}.
Definition set_id (i : Z) (u : t) : t :=
  make i (email u) (password u) (user_type u) (first_name u) (last_name u)
       (is_staff u) (is_superuser u).
End CustomUser.

Module Session.
Record t := make { id : Z; start_year : date; end_year : date }.
Definition set_id (i : Z) (s : t) : t := make i (start_year s) (end_year s).
End Session.

Module Admin.
Record t := make { id : Z; admin_id : Z }.
Definition set_id (i : Z) (a : t) : t := make i (admin_id a).
End Admin.

Module Course.
Record t := make { id : Z; name : string }.
Definition set_id (i : Z) (c : t) : t := make i (name c).
End Course.

Module Student.
Record t := make {
  id : Z;
  admin_id : Z;
  course_id : option Z;
  session_id : option Z
}.
Definition set_id (i : Z) (s : t) : t :=
  make i (admin_id s) (course_id s) (session_id s).
End Student.

Module Staff.
Record t := make { id : Z; course_id : option Z; admin_id : Z }.
Definition set_id (i : Z) (s : t) : t := make i (course_id s) (admin_id s).
End Staff.

Module Subject.
Record t := make { id : Z; name : string; staff_id : Z; course_id : Z }.
Definition set_id (i : Z) (s : t) : t :=
  make i (name s) (staff_id s) (course_id s).
End Subject.

Module Attendance.
Record t := make { id : Z; session_id : Z; subject_id : Z; date : date }.
Definition set_id (i : Z) (a : t) : t :=
  make i (session_id a) (subject_id a) (date a).
End Attendance.

Module AttendanceReport.
Record t := make {
  id : Z;
  student_id : Z;
  attendance_id : Z;
  status : bool
}.
Definition set_id (i : Z) (r : t) : t :=
  make i (student_id r) (attendance_id r) (status r).
Definition set_status (b : bool) (r : t) : t :=
  make (id r) (student_id r) (attendance_id r) b.
End AttendanceReport.

Module StudentResult.
Record t := make {
  id : Z;
  student_id : Z;
  subject_id : Z;
  test : float;
  exam : float
}.
Definition set_id (i : Z) (r : t) : t :=
  make i (student_id r) (subject_id r) (test r) (exam r).
End StudentResult.

#[export] Instance CustomUser_Model : Model CustomUser.t :=
  {| pk := CustomUser.id; with_pk := CustomUser.set_id;
     pk_with_pk := fun _ _ => eq_refl |}.
#[export] Instance Session_Model : Model Session.t :=
  {| pk := Session.id; with_pk := Session.set_id;
     pk_with_pk := fun _ _ => eq_refl |}.
#[export] Instance Admin_Model : Model Admin.t :=
  {| pk := Admin.id; with_pk := Admin.set_id;
     pk_with_pk := fun _ _ => eq_refl |}.
#[export] Instance Course_Model : Model Course.t :=
  {| pk := Course.id; with_pk := Course.set_id;
     pk_with_pk := fun _ _ => eq_refl |}.
#[export] Instance Student_Model : Model Student.t :=
  {| pk := Student.id; with_pk := Student.set_id;
     pk_with_pk := fun _ _ => eq_refl |}.
#[export] Instance Staff_Model : Model Staff.t :=
  {| pk := Staff.id; with_pk := Staff.set_id;
     pk_with_pk := fun _ _ => eq_refl |}.
#[export] Instance Subject_Model : Model Subject.t :=
  {| pk := Subject.id; with_pk := Subject.set_id;
     pk_with_pk := fun _ _ => eq_refl |}.
#[export] Instance Attendance_Model : Model Attendance.t :=
  {| pk := Attendance.id; with_pk := Attendance.set_id;
     pk_with_pk := fun _ _ => eq_refl |}.
#[export] Instance AttendanceReport_Model : Model AttendanceReport.t :=
  {| pk := AttendanceReport.id; with_pk := AttendanceReport.set_id;
     pk_with_pk := fun _ _ => eq_refl |}.
#[export] Instance StudentResult_Model : Model StudentResult.t :=
  {| pk := StudentResult.id; with_pk := StudentResult.set_id;
     pk_with_pk := fun _ _ => eq_refl |}.

(** ** The manager operations, on one table *)

Section Manager.
Context {R : Type} `{Model R}.

(** The key an auto-increment column gives the next row. *)
Definition next_pk (rows : list R) : Z :=
  1 + fold_right (fun r m => Z.max (pk r) m) 0 rows.

(** [Model.objects.get(...)]: the only row that passes the lookup. *)
Definition objects_get (lookup : R -> bool) (rows : list R) : Outcome R :=
  match filter lookup rows with
  | [] => Raise DoesNotExist
  | [r] => Return r
  | _ :: _ :: _ => Raise MultipleObjectsReturned
  end.

(** [get_object_or_404(Model, ...)] turns [DoesNotExist], and only
    it, into [Http404]. *)
Definition get_object_or_404 (lookup : R -> bool) (rows : list R)
  : Outcome R :=
  match objects_get lookup rows with
  | Raise DoesNotExist => Raise Http404
  | o => o
  end.

(** [Model.objects.create(...)]: the row as stored, and the table. *)
Definition objects_create (r : R) (rows : list R) : R * list R :=
  let r' := with_pk (next_pk rows) r in (r', rows ++ [r']).

(** [instance.save()] of an instance that has a key: an UPDATE by key. *)
Definition instance_save (r : R) (rows : list R) : list R :=
  map (fun x => if pk x =? pk r then r else x) rows.
End Manager.
Arguments next_pk : simpl never.
Arguments instance_save : simpl never.

(** ** The database *)

Record DB := mkDB {
  users : list CustomUser.t;
  admins : list Admin.t;
  staffs : list Staff.t;
  students : list Student.t;
  courses : list Course.t;
  sessions : list Session.t;
  subjects : list Subject.t;
  attendances : list Attendance.t;
  reports : list AttendanceReport.t;
  results : list StudentResult.t
}.

Definition empty_db : DB := mkDB [] [] [] [] [] [] [] [] [] [].

Definition set_users (l : list CustomUser.t) (db : DB) : DB :=
  mkDB l (admins db) (staffs db) (students db) (courses db) (sessions db)
       (subjects db) (attendances db) (reports db) (results db).
Definition set_admins (l : list Admin.t) (db : DB) : DB :=
  mkDB (users db) l (staffs db) (students db) (courses db) (sessions db)
       (subjects db) (attendances db) (reports db) (results db).
Definition set_staffs (l : list Staff.t) (db : DB) : DB :=
  mkDB (users db) (admins db) l (students db) (courses db) (sessions db)
       (subjects db) (attendances db) (reports db) (results db).
Definition set_students (l : list Student.t) (db : DB) : DB :=
  mkDB (users db) (admins db) (staffs db) l (courses db) (sessions db)
       (subjects db) (attendances db) (reports db) (results db).
Definition set_attendances (l : list Attendance.t) (db : DB) : DB :=
  mkDB (users db) (admins db) (staffs db) (students db) (courses db)
       (sessions db) (subjects db) l (reports db) (results db).
Definition set_reports (l : list AttendanceReport.t) (db : DB) : DB :=
  mkDB (users db) (admins db) (staffs db) (students db) (courses db)
       (sessions db) (subjects db) (attendances db) l (results db).
Definition set_results (l : list StudentResult.t) (db : DB) : DB :=
  mkDB (users db) (admins db) (staffs db) (students db) (courses db)
       (sessions db) (subjects db) (attendances db) (reports db) l.

(** ** Computations over the database *)

Definition M (A : Type) : Type := DB -> Outcome A * DB.

Definition ret {A} (a : A) : M A := fun db => (Return a, db).

Definition raise {A} (e : Exception) : M A := fun db => (Raise e, db).

Definition bind {A B} (m : M A) (k : A -> M B) : M B :=
  fun db =>
    match m db with
    | (Return a, db') => k a db'
    | (Raise e, db') => (Raise e, db')
    end.

(** [try: body except Exception as e: handler].  The handler runs in the
    state the body left behind. *)
Definition try_except {A} (body : M A) (handler : Exception -> M A) : M A :=
  fun db =>
    match body db with
    | (Return a, db') => (Return a, db')
    | (Raise e, db') => handler e db'
    end.

Declare Scope db_scope.
Delimit Scope db_scope with db.
Notation "x <- m ;; k" := (bind m (fun x => k))
  (at level 61, m at next level, right associativity) : db_scope.
Notation "' p <- m ;; k" := (bind m (fun x => let p := x in k))
  (at level 61, p pattern, m at next level, right associativity) : db_scope.
Notation "m ;;; k" := (bind m (fun _ => k))
  (at level 61, right associativity) : db_scope.
Local Open Scope db_scope.

(** A read of one table. *)
Definition query {R A} (table : DB -> list R) (f : list R -> Outcome A)
  : M A :=
  fun db => (f (table db), db).

(** [for x in l: body]. *)
Fixpoint for_each {A} (l : list A) (body : A -> M unit) : M unit :=
  match l with
  | [] => ret tt
  | x :: l' => body x ;;; for_each l' body
  end.

(** [for x in l: data = f x; out.append(data)]. *)
Fixpoint collect {A B} (l : list A) (f : A -> M B) : M (list B) :=
  match l with
  | [] => ret []
  | x :: l' => y <- f x ;; ys <- collect l' f ;; ret (y :: ys)
  end.

(** The manager operations on a table of the database, given the table's
    projection and its update. *)
Section Tables.
Context {R : Type} `{Model R}.
Variable table : DB -> list R.
Variable set_table : list R -> DB -> DB.

Definition create (r : R) : M R :=
  fun db =>
    let (r', rows) := objects_create r (table db) in
    (Return r', set_table rows db).

(** [Model.objects.get_or_create(...)]: the row found, or else the row
    created from the same values; the flag tells which. *)
Definition get_or_create (lookup : R -> bool) (r : R) : M (R * bool) :=
  fun db =>
    match objects_get lookup (table db) with
    | Return found => (Return (found, false), db)
    | Raise DoesNotExist =>
        match create r db with
        | (Return r', db') => (Return (r', true), db')
        | (Raise e, db') => (Raise e, db')
        end
    | Raise e => (Raise e, db)
    end.

Definition save (r : R) : M unit :=
  fun db => (Return tt, set_table (instance_save r (table db)) db).
End Tables.

(** ** What a view returns *)

#[warnings="-register-all"] Inductive json :=
| JInt (z : Z)
| JFloat (f : float)
| JStr (s : string)
| JBool (b : bool)
| JList (l : list json)
| JDict (l : list (string * json)).

Inductive Content :=
| Text (s : string)
| json_dumps (j : json).

Inductive Level := success | warning.

Inductive ViewReturn :=
| HttpResponse (content : Content)
| JsonResponse (content : Content)
| ReturnNone
| ReturnException (e : Exception)
| render (template : string) (messages : list (Level * string))
| redirect (name : string) (messages : list (Level * string)).

(** ** The staff views *)

(** One element of the decoded [student_ids] payload:
    [student_dict.get('id')] and [student_dict.get('status')]. *)
Record student_dict := mk_student_dict { sd_id : Z; sd_status : bool }.

Definition name_of (u : CustomUser.t) : string :=
  (CustomUser.last_name u ++ " " ++ CustomUser.first_name u)%string.

Definition get_students (subject_id session_id : Z) : M ViewReturn :=
  try_except
    (subject <- query subjects
       (get_object_or_404 (fun s => Subject.id s =? subject_id)) ;;
     session <- query sessions
       (get_object_or_404 (fun s => Session.id s =? session_id)) ;;
     course <- query courses
       (objects_get (fun c => Course.id c =? Subject.course_id subject)) ;;
     selected <- query students (fun rows => Return (filter (fun s =>
       match Student.course_id s, Student.session_id s with
       | Some c, Some y => (c =? Course.id course) && (y =? Session.id session)
       | _, _ => false
       end) rows)) ;;
     student_data <- collect selected (fun student =>
       admin <- query users
         (objects_get (fun u => CustomUser.id u =? Student.admin_id student)) ;;
       ret (JDict [("id", JInt (Student.id student));
                   ("name", JStr (name_of admin))])) ;;
     ret (JsonResponse (json_dumps (JList student_data))))
    (fun e => ret (ReturnException e)).

Definition report_of (student : Student.t) (attendance : Attendance.t)
  (r : AttendanceReport.t) : bool :=
  (AttendanceReport.student_id r =? Student.id student)
  && (AttendanceReport.attendance_id r =? Attendance.id attendance).

(** The body of the loop of [save_attendance]. *)
Definition save_attendance_student (attendance : Attendance.t)
  (student_dict : student_dict) : M unit :=
  student <- query students
    (get_object_or_404 (fun s => Student.id s =? sd_id student_dict)) ;;
  ' (attendance_report, report_created) <-
    get_or_create reports set_reports (report_of student attendance)
      (AttendanceReport.make 0 (Student.id student) (Attendance.id attendance)
         false) ;;
  if (report_created : bool)
  then save reports set_reports
         (AttendanceReport.set_status (sd_status student_dict)
            attendance_report)
  else ret tt.

Definition event_of (session : Session.t) (subject : Subject.t) (d : date)
  (a : Attendance.t) : bool :=
  (Attendance.session_id a =? Session.id session)
  && (Attendance.subject_id a =? Subject.id subject)
  && date_eqb (Attendance.date a) d.

(** The statements of the [try] block of [save_attendance].  [date] is
    [None] when the posted value is missing or is not a date: the
    [DateField] rejects it before a row is read or written. *)
Definition save_attendance_try (student_data : list student_dict)
  (date : option date) (subject_id session_id : Z) : M unit :=
  session <- query sessions
    (get_object_or_404 (fun s => Session.id s =? session_id)) ;;
  subject <- query subjects
    (get_object_or_404 (fun s => Subject.id s =? subject_id)) ;;
  d <- match date with Some d => ret d | None => raise ValidationError end ;;
  ' (attendance, created) <-
    get_or_create attendances set_attendances (event_of session subject d)
      (Attendance.make 0 (Session.id session) (Subject.id subject) d) ;;
  for_each student_data (save_attendance_student attendance).

Definition save_attendance (student_data : list student_dict)
  (date : option date) (subject_id session_id : Z) : M ViewReturn :=
  try_except
    (save_attendance_try student_data date subject_id session_id ;;;
     ret (HttpResponse (Text "OK")))
    (fun e => ret ReturnNone).

Definition get_student_attendance (attendance_date_id : Z) : M ViewReturn :=
  try_except
    (date <- query attendances
       (get_object_or_404 (fun a => Attendance.id a =? attendance_date_id)) ;;
     attendance_data <- query reports (fun rows => Return (filter (fun r =>
       AttendanceReport.attendance_id r =? Attendance.id date) rows)) ;;
     student_data <- collect attendance_data (fun attendance =>
       student <- query students (objects_get (fun s =>
         Student.id s =? AttendanceReport.student_id attendance)) ;;
       admin <- query users
         (objects_get (fun u => CustomUser.id u =? Student.admin_id student)) ;;
       ret (JDict [("id", JInt (CustomUser.id admin));
                   ("name", JStr (name_of admin));
                   ("status", JBool (AttendanceReport.status attendance))])) ;;
     ret (JsonResponse (json_dumps (JList student_data))))
    (fun e => ret (ReturnException e)).

(** The body of the loop of [update_attendance]. *)
Definition update_attendance_student (attendance : Attendance.t)
  (student_dict : student_dict) : M unit :=
  student <- query students
    (get_object_or_404 (fun s => Student.admin_id s =? sd_id student_dict)) ;;
  attendance_report <- query reports
    (get_object_or_404 (report_of student attendance)) ;;
  save reports set_reports
    (AttendanceReport.set_status (sd_status student_dict) attendance_report).

(** The statements of the [try] block of [update_attendance]; the posted
    [date] is the key of the attendance row here. *)
Definition update_attendance_try (student_data : list student_dict)
  (date : Z) : M unit :=
  attendance <- query attendances
    (get_object_or_404 (fun a => Attendance.id a =? date)) ;;
  for_each student_data (update_attendance_student attendance).

Definition update_attendance (student_data : list student_dict) (date : Z)
  : M ViewReturn :=
  try_except
    (update_attendance_try student_data date ;;;
     ret (HttpResponse (Text "OK")))
    (fun e => ret ReturnNone).

(** ** Results *)

Inductive Method := GET | POST.

Definition result_of (student : Student.t) (subject : Subject.t)
  (r : StudentResult.t) : bool :=
  (StudentResult.student_id r =? Student.id student)
  && (StudentResult.subject_id r =? Subject.id subject).

(** What a [FloatField] stores for a posted value.  [None] is a value
    that is missing or does not parse as a float, which [save()] refuses.
    A NaN parses, but it reaches the database as NULL and the column is
    NOT NULL: [save()] raises [IntegrityError], and the row is neither
    written nor changed. *)
Definition to_float (v : option float) : M float :=
  match v with
  | Some f => if is_nan f then raise IntegrityError else ret f
  | None => raise ValueError
  end.

(** [staff_add_result]; the querysets put in the template context are
    never evaluated by the view and are left out.  The inner [except:] is
    bare, so it also takes over after a failed [data.save()]. *)
Definition staff_add_result (request_user : Z) (method : Method)
  (student_id subject_id : Z) (test exam : option float) : M ViewReturn :=
  staff <- query staffs
    (get_object_or_404 (fun s => Staff.admin_id s =? request_user)) ;;
  match method with
  | POST =>
      messages <- try_except
        (student <- query students
           (get_object_or_404 (fun s => Student.id s =? student_id)) ;;
         subject <- query subjects
           (get_object_or_404 (fun s => Subject.id s =? subject_id)) ;;
         try_except
           (data <- query results (objects_get (result_of student subject)) ;;
            exam' <- to_float exam ;;
            test' <- to_float test ;;
            save results set_results
              (StudentResult.make (StudentResult.id data)
                 (StudentResult.student_id data)
                 (StudentResult.subject_id data) test' exam') ;;;
            ret [(success, "Scores Updated")])
           (fun _ =>
            test' <- to_float test ;;
            exam' <- to_float exam ;;
            create results set_results
              (StudentResult.make 0 (Student.id student) (Subject.id subject)
                 test' exam') ;;;
            ret [(success, "Scores Saved")]))
        (fun e => ret [(warning, "Error Occured While Processing Form")]) ;;
      ret (render "staff_template/staff_add_result.html" messages)
  | GET => ret (render "staff_template/staff_add_result.html" [])
  end.

Definition fetch_student_result (subject_id student_id : Z) : M ViewReturn :=
  try_except
    (student <- query students
       (get_object_or_404 (fun s => Student.id s =? student_id)) ;;
     subject <- query subjects
       (get_object_or_404 (fun s => Subject.id s =? subject_id)) ;;
     result <- query results (objects_get (result_of student subject)) ;;
     ret (HttpResponse (json_dumps
            (JDict [("exam", JFloat (StudentResult.exam result));
                    ("test", JFloat (StudentResult.test result))]))))
    (fun e => ret (HttpResponse (Text "False"))).

(** [form.cleaned_data] of a valid [EditResultForm]. *)
Record EditResultForm := mk_EditResultForm {
  form_student : Student.t;
  form_subject : Subject.t;
  form_test : float;
  form_exam : float
}.

Module EditResultView.
(** [form] is [None] when [form.is_valid()] is false. *)
Definition post (form : option EditResultForm) : M ViewReturn :=
  match form with
  | Some cleaned_data =>
      try_except
        (result <- query results
           (objects_get (result_of (form_student cleaned_data)
                                   (form_subject cleaned_data))) ;;
         save results set_results
           (StudentResult.make (StudentResult.id result)
              (StudentResult.student_id result)
              (StudentResult.subject_id result)
              (form_test cleaned_data) (form_exam cleaned_data)) ;;;
         ret (redirect "edit_student_result" [(success, "Result Updated")]))
        (fun e => ret (render "staff_template/edit_student_result.html"
                         [(warning, "Result Could Not Be Updated")]))
  | None => ret (render "staff_template/edit_student_result.html"
                   [(warning, "Result Could Not Be Updated")])
  end.
End EditResultView.

(** ** Users and their profiles *)

(** The keyword arguments [_create_user] passes on to [CustomUser(...)];
    a field left out takes the default of the model. *)
Record extra_fields := mk_extra_fields {
  ef_user_type : option Z;
  ef_first_name : option string;
  ef_last_name : option string;
  ef_is_staff : option bool;
  ef_is_superuser : option bool
}.

Definition setdefault {A} (v : option A) (d : A) : option A :=
  match v with
  | Some a => Some a
  | None => Some d
  end.

Definition field_or {A} (v : option A) (d : A) : A :=
  match v with
  | Some a => a
  | None => d
  end.

(** [objects.create] under a [OneToOneField]: the column is unique. *)
Definition create_one_to_one {R} `{Model R} (table : DB -> list R)
  (set_table : list R -> DB -> DB) (column : R -> Z) (r : R) : M R :=
  fun db =>
    if existsb (fun x => column x =? column r) (table db)
    then (Raise IntegrityError, db)
    else create table set_table r db.

(** The first [post_save] receiver of [CustomUser]. *)
Definition create_user_profile (instance : CustomUser.t) (created : bool)
  : M unit :=
  if created then
    (if CustomUser.user_type instance =? 1
     then create_one_to_one admins set_admins Admin.admin_id
            (Admin.make 0 (CustomUser.id instance)) ;;; ret tt
     else ret tt) ;;;
    (if CustomUser.user_type instance =? 2
     then create_one_to_one staffs set_staffs Staff.admin_id
            (Staff.make 0 None (CustomUser.id instance)) ;;; ret tt
     else ret tt) ;;;
    (if CustomUser.user_type instance =? 3
     then create_one_to_one students set_students Student.admin_id
            (Student.make 0 (CustomUser.id instance) None None) ;;; ret tt
     else ret tt)
  else ret tt.

(** The second [post_save] receiver: [instance.admin] and its like are
    the reverse side of the one-to-one column. *)
Definition save_user_profile (instance : CustomUser.t) : M unit :=
  (if CustomUser.user_type instance =? 1
   then a <- query admins (objects_get (fun a =>
          Admin.admin_id a =? CustomUser.id instance)) ;;
        save admins set_admins a
   else ret tt) ;;;
  (if CustomUser.user_type instance =? 2
   then s <- query staffs (objects_get (fun s =>
          Staff.admin_id s =? CustomUser.id instance)) ;;
        save staffs set_staffs s
   else ret tt) ;;;
  (if CustomUser.user_type instance =? 3
   then s <- query students (objects_get (fun s =>
          Student.admin_id s =? CustomUser.id instance)) ;;
        save students set_students s
   else ret tt).

(** [user.save()] of an instance without a key: the INSERT, refused when
    the unique [email] is taken, then the receivers in the order of their
    registration. *)
Definition CustomUser_save (user : CustomUser.t) : M CustomUser.t :=
  fun db =>
    if existsb (fun u => String.eqb (CustomUser.email u) (CustomUser.email user))
         (users db)
    then (Raise IntegrityError, db)
    else
      (instance <- create users set_users user ;;
       create_user_profile instance true ;;;
       save_user_profile instance ;;;
       ret instance) db.

Module CustomUserManager.
Section Helpers.
(** The two helpers of [django.contrib.auth] the manager calls. *)
Variable normalize_email : string -> string.
Variable make_password : option string -> string.

Definition _create_user (email : string) (password : option string)
  (extra : extra_fields) : M CustomUser.t :=
  let email := normalize_email email in
  let user :=
    CustomUser.make 0 email ""
      (field_or (ef_user_type extra) 1)
      (field_or (ef_first_name extra) "")
      (field_or (ef_last_name extra) "")
      (field_or (ef_is_staff extra) false)
      (field_or (ef_is_superuser extra) false) in
  let user :=
    CustomUser.make (CustomUser.id user) (CustomUser.email user)
      (make_password password) (CustomUser.user_type user)
      (CustomUser.first_name user) (CustomUser.last_name user)
      (CustomUser.is_staff user) (CustomUser.is_superuser user) in
  CustomUser_save user.

Definition create_user (email : string) (password : option string)
  (extra : extra_fields) : M CustomUser.t :=
  let extra :=
    mk_extra_fields (ef_user_type extra) (ef_first_name extra)
      (ef_last_name extra) (setdefault (ef_is_staff extra) false)
      (setdefault (ef_is_superuser extra) false) in
  _create_user email password extra.

Definition create_superuser (email : string) (password : option string)
  (extra : extra_fields) : M CustomUser.t :=
  let extra :=
    mk_extra_fields (ef_user_type extra) (ef_first_name extra)
      (ef_last_name extra) (setdefault (ef_is_staff extra) true)
      (setdefault (ef_is_superuser extra) true) in
  if negb (field_or (ef_is_staff extra) false) then raise AssertionError
  else if negb (field_or (ef_is_superuser extra) false)
  then raise AssertionError
  else _create_user email password extra.
End Helpers.
End CustomUserManager.


(** The report [save_attendance] stores for a student it had no report of. *)
Definition new_report (db : DB) (student : Student.t)
  (attendance : Attendance.t) (status : bool) : AttendanceReport.t :=
  AttendanceReport.make (next_pk (reports db)) (Student.id student)
    (Attendance.id attendance) status.

(** ** Invariants and histories *)

Definition same_event (a b : Attendance.t) : bool :=
  (Attendance.session_id a =? Attendance.session_id b)
  && (Attendance.subject_id a =? Attendance.subject_id b)
  && date_eqb (Attendance.date a) (Attendance.date b).

(** No two rows of the list agree under [same]. *)
Fixpoint distinct_by {R} (same : R -> R -> bool) (rows : list R) : bool :=
  match rows with
  | [] => true
  | r :: rows' => negb (existsb (same r) rows') && distinct_by same rows'
  end.

(** At most one attendance row per subject, session and date. *)
Definition event_unique (db : DB) : bool :=
  distinct_by same_event (attendances db).

Definition event_key (session_id subject_id : Z) (d : date)
  (a : Attendance.t) : bool :=
  (Attendance.session_id a =? session_id)
  && (Attendance.subject_id a =? subject_id)
  && date_eqb (Attendance.date a) d.

(** A request to one of the views, or a call of the user manager. *)
Inductive Operation :=
| GetStudents (subject_id session_id : Z)
| SaveAttendance (student_data : list student_dict) (date : option date)
    (subject_id session_id : Z)
| GetStudentAttendance (attendance_date_id : Z)
| UpdateAttendance (student_data : list student_dict) (date : Z)
| StaffAddResult (request_user : Z) (method : Method)
    (student_id subject_id : Z) (test exam : option float)
| FetchStudentResult (subject_id student_id : Z)
| EditResult (form : option EditResultForm)
| CreateUser (email : string) (password : option string) (extra : extra_fields)
| CreateSuperuser (email : string) (password : option string)
    (extra : extra_fields).

Section History.
Variable normalize_email : string -> string.
Variable make_password : option string -> string.

(** The database after the operation, whatever it answered or raised. *)
Definition perform (op : Operation) (db : DB) : DB :=
  match op with
  | GetStudents subject_id session_id =>
      snd (get_students subject_id session_id db)
  | SaveAttendance student_data date subject_id session_id =>
      snd (save_attendance student_data date subject_id session_id db)
  | GetStudentAttendance attendance_date_id =>
      snd (get_student_attendance attendance_date_id db)
  | UpdateAttendance student_data date =>
      snd (update_attendance student_data date db)
  | StaffAddResult request_user method student_id subject_id test exam =>
      snd (staff_add_result request_user method student_id subject_id
             test exam db)
  | FetchStudentResult subject_id student_id =>
      snd (fetch_student_result subject_id student_id db)
  | EditResult form => snd (EditResultView.post form db)
  | CreateUser email password extra =>
      snd (CustomUserManager.create_user normalize_email make_password email
             password extra db)
  | CreateSuperuser email password extra =>
      snd (CustomUserManager.create_superuser normalize_email make_password
             email password extra db)
  end.

Definition perform_all (ops : list Operation) (db : DB) : DB :=
  fold_left (fun d op => perform op d) ops db.
End History.

(** ** A small school, for the worked examples *)

Module Demo.
Definition day : date := mkdate 2023 12 20.

(** One teacher (user 1), two students (users 2 and 3; the keys of their
    student rows are 1 and 2), one course, session and subject. *)
Definition school : DB :=
  mkDB [CustomUser.make 1 "t@school" "" 2 "Tess" "Teach" false false;
        CustomUser.make 2 "a@school" "" 3 "Ann" "Archer" false false;
        CustomUser.make 3 "b@school" "" 3 "Bob" "Baker" false false]
       []
       [Staff.make 1 (Some 1) 1]
       [Student.make 1 2 (Some 1) (Some 1);
        Student.make 2 3 (Some 1) (Some 1)]
       [Course.make 1 "Computing"]
       [Session.make 1 (mkdate 2023 9 1) (mkdate 2024 6 30)]
       [Subject.make 1 "Data structures" 1 1]
       [] [] [].

(** The school after attendance was taken once, both students present. *)
Definition school_attended : DB :=
  snd (save_attendance [mk_student_dict 1 true; mk_student_dict 2 true]
         (Some day) 1 1 school).

Definition plain (s : string) : string := s.
Definition hashed (p : option string) : string :=
  match p with
  | Some s => ("hash:" ++ s)%string
  | None => "!"
  end.
End Demo.

(** [m] never changes the part [part] of the database. *)
Definition preserves {T A} (part : DB -> T) (m : M A) : Prop :=
  forall db, part (snd (m db)) = part db.

(** ** Integrity of the report and result tables *)

(** The rows [a] and [b] agree on the two columns. *)
Definition same_on {R} (k1 k2 : R -> Z) (a b : R) : bool :=
  (k1 a =? k1 b) && (k2 a =? k2 b).

(** No two rows of the table have the same primary key. *)
Definition keys_distinct {R} `{Model R} (rows : list R) : bool :=
  distinct_by (fun a b => pk a =? pk b) rows.

(** Distinct keys, and at most one report per student and attendance. *)
Definition report_integrity (db : DB) : bool :=
  keys_distinct (reports db)
  && distinct_by
       (same_on AttendanceReport.student_id AttendanceReport.attendance_id)
       (reports db).

(** Distinct keys, and at most one result per student and subject. *)
Definition result_integrity (db : DB) : bool :=
  keys_distinct (results db)
  && distinct_by (same_on StudentResult.student_id StudentResult.subject_id)
       (results db).

(** [m] keeps the invariant [P] of the database, whatever it answers. *)
Definition keeps {A} (P : DB -> Prop) (m : M A) : Prop :=
  forall db, P db -> P (snd (m db)).

(** What identifies a report: its key, its student and its attendance
    row; the status is the rest. *)
Definition report_key (r : AttendanceReport.t) : Z * Z * Z :=
  (AttendanceReport.id r, AttendanceReport.student_id r,
   AttendanceReport.attendance_id r).

(** ** Reading a listing *)

(** The number under the first key of an entry, when that key is [id]. *)
Definition entry_id (j : json) : list Z :=
  match j with
  | JDict ((k, JInt z) :: _) => if String.eqb k "id" then [z] else []
  | _ => []
  end.

(** The identifiers a JSON listing offers; an answer that is no listing
    offers none. *)
Definition listed_ids (r : ViewReturn) : list Z :=
  match r with
  | JsonResponse (json_dumps (JList entries)) => flat_map entry_id entries
  | _ => []
  end.

(** The student is enrolled in the course and the session. *)
Definition enrolled (course_id session_id : Z) (s : Student.t) : bool :=
  match Student.course_id s, Student.session_id s with
  | Some c, Some y => (c =? course_id) && (y =? session_id)
  | _, _ => false
  end.

(** No two student rows belong to the same user account (the
    [OneToOneField] of [Student]). *)
Definition students_one_to_one (db : DB) : bool :=
  distinct_by (fun a b => Student.admin_id a =? Student.admin_id b)
    (students db).

(** ** Integrity of the users and their profiles *)

(** A profile table is sound: distinct keys, at most one row per user
    account, and every row refers to a user that exists. *)
Definition profile_table_ok {R} `{Model R} (column : R -> Z)
  (us : list CustomUser.t) (rows : list R) : bool :=
  keys_distinct rows
  && distinct_by (fun a b => column a =? column b) rows
  && forallb (fun r => existsb (fun u => CustomUser.id u =? column r) us) rows.

(** Users have distinct keys and distinct emails, and the three profile
    tables are sound. *)
Definition user_integrity (db : DB) : bool :=
  keys_distinct (users db)
  && distinct_by
       (fun a b => String.eqb (CustomUser.email a) (CustomUser.email b))
       (users db)
  && profile_table_ok Admin.admin_id (users db) (admins db)
  && profile_table_ok Staff.admin_id (users db) (staffs db)
  && profile_table_ok Student.admin_id (users db) (students db).

(** The tables of the users and their profiles. *)
Definition user_tables (db : DB)
  : list CustomUser.t * list Admin.t * list Staff.t * list Student.t :=
  (users db, admins db, staffs db, students db).

(** Every report is of a student row that exists. *)
Definition reports_have_students (db : DB) : bool :=
  forallb
    (fun r => existsb (fun s => Student.id s =? AttendanceReport.student_id r)
                (students db))
    (reports db).

(** ** The staff home page *)

Module LeaveReportStaff.
Record t := make {
  id : Z;
  staff_id : Z;
  date : string;
  message : string;
  status : Z
}.
End LeaveReportStaff.

(** The template context of [staff_home]. *)
Record home_context := mk_home_context {
  page_title : string;
  total_students : nat;
  total_attendance : nat;
  total_leave : nat;
  total_subject : nat;
  subject_list : list string;
  attendance_list : list nat
}.

(** [staff_home].  The table of leave reports is not one of the tables of
    [DB]; the view only counts in it, so it is passed in.  [staff.course]
    is [None] for a staff member without a course, and filtering the
    students on [None] selects those without a course.  Nothing is caught:
    an exception of a lookup leaves the view. *)
Definition staff_home (request_user : Z)
  (leave_reports : list LeaveReportStaff.t) : M home_context :=
  staff <- query staffs
    (get_object_or_404 (fun s => Staff.admin_id s =? request_user)) ;;
  course <- match Staff.course_id staff with
            | Some c =>
                found <- query courses
                  (objects_get (fun x => Course.id x =? c)) ;;
                ret (Some found)
            | None => ret None
            end ;;
  total_students <- query students (fun rows => Return (List.length (filter
    (fun s => match course, Student.course_id s with
              | Some co, Some c => c =? Course.id co
              | None, None => true
              | _, _ => false
              end) rows))) ;;
  let total_leave :=
    List.length (filter (fun l => LeaveReportStaff.staff_id l
                                  =? Staff.id staff) leave_reports) in
  taught <- query subjects (fun rows => Return (filter
    (fun s => Subject.staff_id s =? Staff.id staff) rows)) ;;
  let total_subject := List.length taught in
  total_attendance <- query attendances (fun rows => Return (List.length
    (filter (fun a => existsb (fun s => Subject.id s
                                        =? Attendance.subject_id a) taught)
       rows))) ;;
  chart <- collect taught (fun subject =>
    attendance_count <- query attendances (fun rows => Return (List.length
      (filter (fun a => Attendance.subject_id a =? Subject.id subject)
         rows))) ;;
    ret (Subject.name subject, attendance_count)) ;;
  admin <- query users
    (objects_get (fun u => CustomUser.id u =? Staff.admin_id staff)) ;;
  ret (mk_home_context
         ("Staff Panel - " ++ CustomUser.last_name admin ++ " ("
          ++ match course with
             | Some co => Course.name co
             | None => "None"
             end ++ ")")%string
         total_students total_attendance total_leave total_subject
         (map fst chart) (map snd chart)).

(** ** Listings and a home page of the demo school *)

Module DemoPages.
(** What [get_students] answers for the only subject and session. *)
Definition students_listing : Content :=
  json_dumps (JList
    [JDict [("id", JInt 1); ("name", JStr "Archer Ann")];
     JDict [("id", JInt 2); ("name", JStr "Baker Bob")]]).

(** What [get_student_attendance] answers once the register was taken. *)
Definition attendance_listing : Content :=
  json_dumps (JList
    [JDict [("id", JInt 2); ("name", JStr "Archer Ann");
            ("status", JBool true)];
     JDict [("id", JInt 3); ("name", JStr "Baker Bob");
            ("status", JBool true)]]).

Definition leave_reports : list LeaveReportStaff.t :=
  [LeaveReportStaff.make 1 1 "2023-12-22" "Conference" 0].

(** The context of the teacher's home page once the register was taken. *)
Definition home : home_context :=
  mk_home_context "Staff Panel - Teach (Computing)" 2 1 1 1
    ["Data structures"] [1%nat].

(** A history: the register taken, corrected, taken again; scores
    entered twice and edited; a new student account. *)
Definition history : list Operation :=
  [SaveAttendance [mk_student_dict 1 true; mk_student_dict 2 true]
     (Some Demo.day) 1 1;
   UpdateAttendance [mk_student_dict 2 false] 1;
   SaveAttendance [mk_student_dict 1 false] (Some Demo.day) 1 1;
   StaffAddResult 1 POST 1 1 (Some 70%float) (Some 80%float);
   StaffAddResult 1 POST 1 1 (Some 90%float) (Some 85%float);
   EditResult (Some (mk_EditResultForm (Student.make 1 2 (Some 1) (Some 1))
                       (Subject.make 1 "Data structures" 1 1)
                       55%float 65%float));
   CreateUser "c@school" (Some "secret")
     (mk_extra_fields (Some 3) (Some "Cy") (Some "Carter") None None)].
End DemoPages.

(** ** Two requests at once *)

(** Requests are served by several workers, and the database runs their
    statements one at a time, in the order they arrive.  [get_or_create]
    is two statements: the SELECT of [get] and, when that found nothing,
    the INSERT of [create].  [models.py] declares no unique constraint on
    the columns of [Attendance], so the INSERT is never refused, and the
    statements of another request can run between the two. *)
Section Statements.
Context {R : Type} `{Model R}.
Variable table : DB -> list R.
Variable set_table : list R -> DB -> DB.

(** The SELECT of [get_or_create]: the row found, if there is one. *)
Definition get_or_create_select (lookup : R -> bool) : M (option R) :=
  fun db =>
    match objects_get lookup (table db) with
    | Return found => (Return (Some found), db)
    | Raise DoesNotExist => (Return None, db)
    | Raise e => (Raise e, db)
    end.

(** The rest of [get_or_create], once the SELECT has answered. *)
Definition get_or_create_insert (r : R) (selected : option R)
  : M (R * bool) :=
  match selected with
  | Some found => ret (found, false)
  | None => r' <- create table set_table r ;; ret (r', true)
  end.
End Statements.

(** The local variables of [save_attendance] when the SELECT of the
    attendance row has answered. *)
Record save_attendance_locals := mk_locals {
  local_session : Session.t;
  local_subject : Subject.t;
  local_date : date;
  local_selected : option Attendance.t
}.

(** The [try] block of [save_attendance] up to that SELECT. *)
Definition save_attendance_select (date : option date)
  (subject_id session_id : Z) : M save_attendance_locals :=
  session <- query sessions
    (get_object_or_404 (fun s => Session.id s =? session_id)) ;;
  subject <- query subjects
    (get_object_or_404 (fun s => Subject.id s =? subject_id)) ;;
  d <- match date with Some d => ret d | None => raise ValidationError end ;;
  selected <- get_or_create_select attendances (event_of session subject d) ;;
  ret (mk_locals session subject d selected).

(** The [try] block from there on: the INSERT if the SELECT found no row,
    then the loop over the students. *)
Definition save_attendance_resume (student_data : list student_dict)
  (l : save_attendance_locals) : M unit :=
  ' (attendance, created) <-
    get_or_create_insert attendances set_attendances
      (Attendance.make 0 (Session.id (local_session l))
         (Subject.id (local_subject l)) (local_date l))
      (local_selected l) ;;
  for_each student_data (save_attendance_student attendance).

(** A computation picked up again with the outcome it had reached. *)
Definition resumed {A} (o : Outcome A) : M A := fun db => (o, db).

(** The rest of the view for a request that had reached [o], still
    inside its [try]. *)
Definition save_attendance_rest (student_data : list student_dict)
  (o : Outcome save_attendance_locals) : M ViewReturn :=
  try_except
    (l <- resumed o ;;
     save_attendance_resume student_data l ;;;
     ret (HttpResponse (Text "OK")))
    (fun e => ret ReturnNone).

(** Two requests for the same date, subject and session, served by two
    workers: both SELECTs are answered before either request goes on.
    The answers of the two requests, and the database they leave. *)
Definition save_attendance_race (data_a data_b : list student_dict)
  (date : option date) (subject_id session_id : Z) (db : DB)
  : (Outcome ViewReturn * Outcome ViewReturn) * DB :=
  let select := save_attendance_select date subject_id session_id in
  let (selected_a, db1) := select db in
  let (selected_b, db2) := select db1 in
  let (answer_a, db3) := save_attendance_rest data_a selected_a db2 in
  let (answer_b, db4) := save_attendance_rest data_b selected_b db3 in
  ((answer_a, answer_b), db4).

(** * Properties *)

(** ** Keys and tables *)

Section ManagerFacts.
Context {R : Type} `{Model R}.

Lemma next_pk_above (rows : list R) (r : R) :
  In r rows -> pk r < next_pk rows.
Proof.
  unfold next_pk. induction rows as [|x rows IH]; cbn [fold_right In]; [easy|].
  intros [->|Hin]; [lia|]. specialize (IH Hin). lia.
Qed.

Lemma instance_save_absent (r : R) (rows : list R) :
  (forall x, In x rows -> pk x <> pk r) -> instance_save r rows = rows.
Proof.
  unfold instance_save. induction rows as [|x rows IH]; simpl; intros Hne.
  - reflexivity.
  - destruct (Z.eqb_spec (pk x) (pk r)) as [E|_].
    + exfalso. apply (Hne x); auto.
    + f_equal. apply IH. intros y Hy. apply Hne. auto.
Qed.

(** Saving the row that was created last touches that row only. *)
Lemma instance_save_last (r r' : R) (rows : list R) :
  pk r = next_pk rows -> pk r' = next_pk rows ->
  instance_save r' (rows ++ [r]) = rows ++ [r'].
Proof.
  intros Hr Hr'.
  assert (Hrows : instance_save r' rows = rows).
  { apply instance_save_absent. intros x Hx. apply next_pk_above in Hx. lia. }
  unfold instance_save in *. rewrite map_app, Hrows. simpl.
  rewrite Hr, Hr', Z.eqb_refl. reflexivity.
Qed.

Lemma objects_get_cases (lookup : R -> bool) (rows : list R) :
  match filter lookup rows with
  | [] => objects_get lookup rows = Raise DoesNotExist
  | [r] => objects_get lookup rows = Return r
  | _ :: _ :: _ => objects_get lookup rows = Raise MultipleObjectsReturned
  end.
Proof.
  unfold objects_get. destruct (filter lookup rows) as [|r [|r' l]]; reflexivity.
Qed.

Lemma objects_get_Return (lookup : R -> bool) (rows : list R) (r : R) :
  objects_get lookup rows = Return r <-> filter lookup rows = [r].
Proof.
  unfold objects_get. destruct (filter lookup rows) as [|x [|y l]];
    split; intros E; try discriminate; congruence.
Qed.

Lemma get_object_or_404_Return (lookup : R -> bool) (rows : list R) (r : R) :
  get_object_or_404 lookup rows = Return r <-> filter lookup rows = [r].
Proof.
  unfold get_object_or_404. rewrite <- objects_get_Return.
  destruct (objects_get lookup rows) as [a|[]]; split; intros E;
    try discriminate; congruence.
Qed.

Lemma get_object_or_404_found (lookup : R -> bool) (rows : list R) (r : R) :
  get_object_or_404 lookup rows = Return r -> In r rows /\ lookup r = true.
Proof.
  rewrite get_object_or_404_Return. intros E.
  apply filter_In. rewrite E. left. reflexivity.
Qed.

Lemma filter_ext_eq (p q : R -> bool) (rows : list R) :
  (forall x, p x = q x) -> filter p rows = filter q rows.
Proof. intros E. apply filter_ext. exact E. Qed.

(** A key names one row of a table whose keys are distinct. *)
Lemma pk_injective (rows : list R) (x y : R) :
  NoDup (map pk rows) -> In x rows -> In y rows -> pk x = pk y -> x = y.
Proof.
  induction rows as [|z rows IH]; simpl; [easy|].
  intros Hnd Hx Hy E. inversion Hnd as [|? ? Hnotin Hnd']; subst.
  destruct Hx as [->|Hx], Hy as [->|Hy]; auto.
  - exfalso. apply Hnotin. rewrite E. apply in_map. exact Hy.
  - exfalso. apply Hnotin. rewrite <- E. apply in_map. exact Hx.
Qed.

Lemma instance_save_keys (r : R) (rows : list R) :
  map pk (instance_save r rows) = map pk rows.
Proof.
  unfold instance_save. rewrite map_map. apply map_ext_in. intros x _.
  destruct (Z.eqb_spec (pk x) (pk r)); congruence.
Qed.

(** Saving a new version [r'] of the only row [r] that passes a lookup,
    where [r'] keeps the key and still passes: [r'] is then the only one. *)
Lemma filter_instance_save (lookup : R -> bool) (r r' : R) (rows : list R) :
  NoDup (map pk rows) ->
  filter lookup rows = [r] -> pk r' = pk r -> lookup r' = true ->
  filter lookup (instance_save r' rows) = [r'].
Proof.
  intros Hnd Hf Hpk Hl.
  assert (Hr : In r rows /\ lookup r = true).
  { apply filter_In. rewrite Hf. left. reflexivity. }
  destruct Hr as [Hin Hlr].
  assert (Hsame : forall x, In x rows ->
            lookup (if pk x =? pk r' then r' else x) = lookup x).
  { intros x Hx. destruct (Z.eqb_spec (pk x) (pk r')) as [E|_]; [|reflexivity].
    rewrite Hpk in E. rewrite (pk_injective rows x r Hnd Hx Hin E). congruence. }
  unfold instance_save.
  assert (Hgen : forall l, (forall x, In x l -> In x rows) ->
            filter lookup (map (fun x => if pk x =? pk r' then r' else x) l)
            = map (fun x => if pk x =? pk r' then r' else x) (filter lookup l)).
  { induction l as [|x l IH]; simpl; intros Hsub; [reflexivity|].
    rewrite (Hsame x) by (apply Hsub; auto).
    destruct (lookup x); simpl; rewrite IH by (intros y Hy; apply Hsub; auto);
      reflexivity. }
  rewrite Hgen by auto. rewrite Hf. simpl.
  rewrite Hpk, Z.eqb_refl. reflexivity.
Qed.
End ManagerFacts.

(** ** The save flow of attendance *)

(** One turn of the loop, by what the two lookups find. *)
Lemma save_attendance_student_cases attendance sd db :
  match get_object_or_404 (fun s => Student.id s =? sd_id sd) (students db) with
  | Raise e => save_attendance_student attendance sd db = (Raise e, db)
  | Return student =>
      match filter (report_of student attendance) (reports db) with
      | [] =>
          save_attendance_student attendance sd db
          = (Return tt,
             set_reports
               (reports db ++ [new_report db student attendance (sd_status sd)])
               db)
      | [_] => save_attendance_student attendance sd db = (Return tt, db)
      | _ :: _ :: _ =>
          save_attendance_student attendance sd db
          = (Raise MultipleObjectsReturned, db)
      end
  end.
Proof.
  unfold save_attendance_student, bind, query.
  destruct (get_object_or_404 _ (students db)) as [student|e]; [|reflexivity].
  unfold get_or_create, objects_get.
  destruct (filter (report_of student attendance) (reports db))
    as [|r [|r' l]]; try reflexivity.
  unfold create, objects_create, save. cbn.
  erewrite instance_save_last by reflexivity. reflexivity.
Qed.

Lemma for_each_preserves {A} (P : DB -> Prop) (body : A -> M unit) :
  (forall x db, P db -> P (snd (body x db))) ->
  forall l db, P db -> P (snd (for_each l body db)).
Proof.
  intros Hbody. induction l as [|x l IH]; intros db HP; simpl; [exact HP|].
  unfold bind. specialize (Hbody x db HP).
  destruct (body x db) as [[[]|e] db1]; simpl in *; auto.
Qed.

Lemma collect_unchanged {A B} (f : A -> M B) :
  (forall x db, snd (f x db) = db) ->
  forall l db, snd (collect l f db) = db.
Proof.
  intros Hf. induction l as [|x l IH]; intros db; simpl; [reflexivity|].
  unfold bind. specialize (Hf x db).
  destruct (f x db) as [[y|e] db1]; simpl in *; subst db1; [|reflexivity].
  specialize (IH db). destruct (collect l f db) as [[ys|e] db2]; simpl in *;
    subst; reflexivity.
Qed.

(** A turn of the loop writes reports, and nothing else. *)
Lemma save_attendance_student_frame attendance sd db :
  exists l, snd (save_attendance_student attendance sd db) = set_reports l db.
Proof.
  pose proof (save_attendance_student_cases attendance sd db) as C.
  assert (Hid : db = set_reports (reports db) db) by (destruct db; reflexivity).
  destruct (get_object_or_404 _ (students db)) as [student|e].
  - destruct (filter _ (reports db)) as [|r [|r' l]]; rewrite C; simpl; eauto.
  - rewrite C. simpl. eauto.
Qed.

Lemma save_attendance_student_students attendance sd db :
  students (snd (save_attendance_student attendance sd db)) = students db.
Proof.
  destruct (save_attendance_student_frame attendance sd db) as [l ->].
  reflexivity.
Qed.

Lemma save_attendance_student_attendances attendance sd db :
  attendances (snd (save_attendance_student attendance sd db))
  = attendances db.
Proof.
  destruct (save_attendance_student_frame attendance sd db) as [l ->].
  reflexivity.
Qed.


(** After a turn that returns, its student has exactly one report. *)
Lemma save_attendance_student_return attendance sd db db1 :
  save_attendance_student attendance sd db = (Return tt, db1) ->
  exists student r,
    get_object_or_404 (fun s => Student.id s =? sd_id sd) (students db)
    = Return student
    /\ filter (report_of student attendance) (reports db1) = [r].
Proof.
  intros Hrun.
  pose proof (save_attendance_student_cases attendance sd db) as C.
  destruct (get_object_or_404 _ (students db)) as [student|e0].
  - destruct (filter _ (reports db)) as [|r [|r' l]] eqn:Hf;
      rewrite C in Hrun; inversion Hrun; subst.
    + exists student, (new_report db student attendance (sd_status sd)).
      split; [reflexivity|]. simpl. rewrite filter_app, Hf. simpl.
      unfold report_of, new_report. simpl. rewrite !Z.eqb_refl. reflexivity.
    + exists student, r. auto.
  - rewrite C in Hrun. discriminate.
Qed.


(** The only report of a student stays the only one through later turns. *)
Lemma save_attendance_student_keeps attendance sd db student r :
  filter (report_of student attendance) (reports db) = [r] ->
  filter (report_of student attendance)
    (reports (snd (save_attendance_student attendance sd db))) = [r].
Proof.
  intros Hf.
  pose proof (save_attendance_student_cases attendance sd db) as C.
  destruct (get_object_or_404 _ (students db)) as [student'|e0].
  - destruct (filter (report_of student' attendance) (reports db))
      as [|r0 [|r' l]] eqn:Hf'; rewrite C; simpl; auto.
    rewrite filter_app, Hf. simpl.
    destruct (report_of student attendance
                (new_report db student' attendance (sd_status sd))) eqn:Hnew;
      [|reflexivity].
    exfalso. unfold report_of, new_report in Hnew. simpl in Hnew.
    apply andb_prop in Hnew. destruct Hnew as [Hsid _].
    apply Z.eqb_eq in Hsid.
    rewrite (filter_ext_eq (report_of student' attendance)
               (report_of student attendance)) in Hf'.
    + rewrite Hf in Hf'. discriminate.
    + intros x. unfold report_of. rewrite Hsid. reflexivity.
  - rewrite C. simpl. exact Hf.
Qed.


Lemma date_eqb_refl (d : date) : date_eqb d d = true.
Proof. unfold date_eqb. rewrite !Z.eqb_refl. reflexivity. Qed.

Lemma save_attendance_loop_frame attendance l db :
  exists rs,
    snd (for_each l (save_attendance_student attendance) db)
    = set_reports rs db.
Proof.
  apply (for_each_preserves (fun d => exists rs, d = set_reports rs db)).
  - intros x d [rs ->].
    destruct (save_attendance_student_frame attendance x (set_reports rs db))
      as [rs' ->].
    exists rs'. reflexivity.
  - exists (reports db). destruct db; reflexivity.
Qed.



(** ** What a computation leaves alone *)

Section Frames.
Context {T : Type} (part : DB -> T).

Lemma preserves_ret {A} (a : A) : preserves part (ret a).
Proof. intros db. reflexivity. Qed.

Lemma preserves_raise {A} (e : Exception) : preserves part (@raise A e).
Proof. intros db. reflexivity. Qed.

Lemma preserves_query {R A} (table : DB -> list R) (f : list R -> Outcome A) :
  preserves part (query table f).
Proof. intros db. reflexivity. Qed.

Lemma preserves_bind {A B} (m : M A) (k : A -> M B) :
  preserves part m -> (forall a, preserves part (k a)) ->
  preserves part (bind m k).
Proof.
  intros Hm Hk db. unfold bind. specialize (Hm db).
  destruct (m db) as [[a|e] db1]; simpl in *; [|exact Hm].
  rewrite Hk. exact Hm.
Qed.

Lemma preserves_try_except {A} (body : M A) (handler : Exception -> M A) :
  preserves part body -> (forall e, preserves part (handler e)) ->
  preserves part (try_except body handler).
Proof.
  intros Hm Hk db. unfold try_except. specialize (Hm db).
  destruct (body db) as [[a|e] db1]; simpl in *; [exact Hm|].
  rewrite Hk. exact Hm.
Qed.

Lemma preserves_for_each {A} (l : list A) (body : A -> M unit) :
  (forall x, preserves part (body x)) -> preserves part (for_each l body).
Proof.
  intros Hbody. induction l as [|x l IH]; simpl.
  - apply preserves_ret.
  - apply preserves_bind; auto.
Qed.

Lemma preserves_collect {A B} (l : list A) (f : A -> M B) :
  (forall x, preserves part (f x)) -> preserves part (collect l f).
Proof.
  intros Hf. induction l as [|x l IH]; simpl.
  - apply preserves_ret.
  - apply preserves_bind; [auto|]. intros y.
    apply preserves_bind; [auto|]. intros ys. apply preserves_ret.
Qed.

Section Writes.
Context {R : Type} `{Model R}.
Variable table : DB -> list R.
Variable set_table : list R -> DB -> DB.
Hypothesis apart : forall l db, part (set_table l db) = part db.

Lemma preserves_create (r : R) : preserves part (create table set_table r).
Proof. intros db. unfold create. simpl. apply apart. Qed.

Lemma preserves_save (r : R) : preserves part (save table set_table r).
Proof. intros db. unfold save. simpl. apply apart. Qed.

Lemma preserves_get_or_create (lookup : R -> bool) (r : R) :
  preserves part (get_or_create table set_table lookup r).
Proof.
  intros db. unfold get_or_create.
  destruct (objects_get lookup (table db)) as [found|[]]; try reflexivity.
  unfold create. simpl. apply apart.
Qed.

Lemma preserves_create_one_to_one (column : R -> Z) (r : R) :
  preserves part (create_one_to_one table set_table column r).
Proof.
  intros db. unfold create_one_to_one.
  destruct (existsb _ (table db)); [reflexivity|]. apply preserves_create.
Qed.
End Writes.
End Frames.

(** Splits a computation along its binds, handlers, loops and branches. *)
Ltac frame :=
  repeat first
    [ apply preserves_ret
    | apply preserves_raise
    | apply preserves_query
    | apply preserves_bind
    | apply preserves_try_except
    | apply preserves_for_each
    | apply preserves_collect
    | apply preserves_create; reflexivity
    | apply preserves_save; reflexivity
    | apply preserves_get_or_create; reflexivity
    | apply preserves_create_one_to_one; reflexivity
    | match goal with
      | |- forall _, _ => intro
      | |- preserves _ (if ?b then _ else _) => destruct b
      | |- preserves _ (match ?x with _ => _ end) => destruct x
      | |- preserves _ (let (_, _) := ?x in _) => destruct x
      end ].

(** The views that only read. *)
Lemma get_students_reads subject_id session_id :
  preserves (fun db => db) (get_students subject_id session_id).
Proof. unfold get_students. frame. Qed.

Lemma get_student_attendance_reads attendance_date_id :
  preserves (fun db => db) (get_student_attendance attendance_date_id).
Proof. unfold get_student_attendance. frame. Qed.

Lemma fetch_student_result_reads subject_id student_id :
  preserves (fun db => db) (fetch_student_result subject_id student_id).
Proof. unfold fetch_student_result. frame. Qed.

(** The views that write, and the tables they leave alone. *)
Lemma update_attendance_attendances student_data date :
  preserves attendances (update_attendance student_data date).
Proof.
  unfold update_attendance, update_attendance_try, update_attendance_student.
  frame.
Qed.

Lemma staff_add_result_attendances request_user method student_id subject_id
  test exam :
  preserves attendances
    (staff_add_result request_user method student_id subject_id test exam).
Proof. unfold staff_add_result, to_float. frame. Qed.

Lemma EditResultView_post_attendances form :
  preserves attendances (EditResultView.post form).
Proof. unfold EditResultView.post. frame. Qed.

Lemma CustomUser_save_attendances user :
  preserves attendances (CustomUser_save user).
Proof.
  intros db. unfold CustomUser_save.
  destruct (existsb _ (users db)); [reflexivity|].
  revert db. change (preserves attendances
    (instance <- create users set_users user ;;
     create_user_profile instance true ;;;
     save_user_profile instance ;;; ret instance)).
  unfold create_user_profile, save_user_profile. frame.
Qed.

Lemma create_user_attendances normalize_email make_password email password
  extra :
  preserves attendances
    (CustomUserManager.create_user normalize_email make_password email
       password extra).
Proof.
  unfold CustomUserManager.create_user, CustomUserManager._create_user.
  apply CustomUser_save_attendances.
Qed.

Lemma create_superuser_attendances normalize_email make_password email
  password extra :
  preserves attendances
    (CustomUserManager.create_superuser normalize_email make_password email
       password extra).
Proof.
  unfold CustomUserManager.create_superuser, CustomUserManager._create_user.
  repeat match goal with
         | |- preserves _ (if ?b then _ else _) => destruct b
         end; try apply preserves_raise; apply CustomUser_save_attendances.
Qed.

(** ** One attendance row per subject, session and date *)

Lemma date_eqb_eq (a b : date) : date_eqb a b = true -> a = b.
Proof.
  destruct a, b. unfold date_eqb. simpl. intros E.
  apply andb_prop in E. destruct E as [E Ed].
  apply andb_prop in E. destruct E as [Ey Em].
  apply Z.eqb_eq in Ey, Em, Ed. congruence.
Qed.

Lemma filter_nil_existsb {R} (p : R -> bool) (rows : list R) :
  filter p rows = [] -> existsb p rows = false.
Proof.
  induction rows as [|x rows IH]; simpl; [reflexivity|].
  destruct (p x); [discriminate|]. exact IH.
Qed.

Lemma distinct_by_snoc {R} (same : R -> R -> bool) (rows : list R) (x : R) :
  distinct_by same (rows ++ [x])
  = distinct_by same rows && negb (existsb (fun r => same r x) rows).
Proof.
  induction rows as [|r rows IH]; simpl; [reflexivity|].
  rewrite IH, existsb_app. simpl. rewrite orb_false_r.
  destruct (existsb (same r) rows), (same r x), (distinct_by same rows),
    (existsb (fun r0 => same r0 x) rows); reflexivity.
Qed.

Lemma same_event_key (a x : Attendance.t) :
  same_event x a
  = event_key (Attendance.session_id a) (Attendance.subject_id a)
      (Attendance.date a) x.
Proof. reflexivity. Qed.

Lemma event_key_same session_id subject_id d (a x : Attendance.t) :
  event_key session_id subject_id d a = true ->
  event_key session_id subject_id d x = same_event a x.
Proof.
  unfold event_key, same_event. intros E.
  apply andb_prop in E. destruct E as [E Ed].
  apply andb_prop in E. destruct E as [Es Eu].
  apply Z.eqb_eq in Es, Eu. apply date_eqb_eq in Ed. subst.
  rewrite (Z.eqb_sym (Attendance.session_id x)),
    (Z.eqb_sym (Attendance.subject_id x)).
  f_equal. destruct (Attendance.date a) as [y m d], (Attendance.date x)
    as [y' m' d'].
  unfold date_eqb. simpl.
  rewrite (Z.eqb_sym y'), (Z.eqb_sym m'), (Z.eqb_sym d'). reflexivity.
Qed.

(** The boolean invariant says what it should: a key finds at most one
    attendance row. *)
Lemma event_unique_count db session_id subject_id d :
  event_unique db = true ->
  (List.length (filter (event_key session_id subject_id d) (attendances db))
   <= 1)%nat.
Proof.
  unfold event_unique. induction (attendances db) as [|a rows IH]; simpl.
  - lia.
  - intros E. apply andb_prop in E. destruct E as [Ea Erows].
    destruct (event_key session_id subject_id d a) eqn:Hk.
    + simpl. rewrite (filter_ext_eq _ (same_event a))
        by (intros x; apply event_key_same; exact Hk).
      apply negb_true_iff in Ea.
      assert (Hnil : filter (same_event a) rows = []).
      { clear -Ea. induction rows as [|x rows IH]; simpl in *; [reflexivity|].
        apply orb_false_iff in Ea. destruct Ea as [-> Ea]. auto. }
      rewrite Hnil. simpl. lia.
    + auto.
Qed.

(** [save_attendance] adds at most one attendance row, and adds it only
    for a key that had none. *)
Lemma save_attendance_attendances student_data date subject_id session_id db :
  let db' := snd (save_attendance student_data date subject_id session_id db) in
  attendances db' = attendances db
  \/ exists a,
       attendances db' = attendances db ++ [a]
       /\ filter (event_key (Attendance.session_id a) (Attendance.subject_id a)
                    (Attendance.date a)) (attendances db) = [].
Proof.
  unfold save_attendance, try_except, bind.
  destruct (save_attendance_try student_data date subject_id session_id db)
    as [o db1] eqn:Hrun.
  assert (Hgoal :
    attendances db1 = attendances db
    \/ exists a,
         attendances db1 = attendances db ++ [a]
         /\ filter (event_key (Attendance.session_id a)
                      (Attendance.subject_id a) (Attendance.date a))
              (attendances db) = []).
  { revert Hrun. unfold save_attendance_try, bind, query.
    destruct (get_object_or_404 _ (sessions db)) as [session|e].
    2:{ intros Hrun. inversion Hrun; subst. auto. }
    destruct (get_object_or_404 _ (subjects db)) as [subject|e].
    2:{ intros Hrun. inversion Hrun; subst. auto. }
    destruct date as [d|].
    2:{ simpl. intros Hrun. inversion Hrun; subst. auto. }
    simpl. unfold get_or_create, objects_get.
    destruct (filter (event_of session subject d) (attendances db))
      as [|a [|a' l]] eqn:Hf.
    - unfold create, objects_create. simpl. intros Hrun.
      match type of Hrun with
      | for_each _ (save_attendance_student ?a) ?dba = _ =>
          destruct (save_attendance_loop_frame a student_data dba) as [rs Hfr];
          rewrite Hrun in Hfr; simpl in Hfr; subst db1;
          right; exists a; split; [reflexivity|exact Hf]
      end.
    - intros Hrun.
      destruct (save_attendance_loop_frame a student_data db) as [rs Hfr].
      rewrite Hrun in Hfr. simpl in Hfr. subst db1. auto.
    - intros Hrun. inversion Hrun; subst. auto. }
  destruct o as [[]|e]; simpl; exact Hgoal.
Qed.

Section HistoryFacts.
Variable normalize_email : string -> string.
Variable make_password : option string -> string.

Lemma perform_attendances op db :
  let db' := perform normalize_email make_password op db in
  attendances db' = attendances db
  \/ exists a,
       attendances db' = attendances db ++ [a]
       /\ filter (event_key (Attendance.session_id a) (Attendance.subject_id a)
                    (Attendance.date a)) (attendances db) = [].
Proof.
  destruct op; simpl.
  - left. rewrite (get_students_reads subject_id session_id db). reflexivity.
  - apply save_attendance_attendances.
  - left. rewrite (get_student_attendance_reads attendance_date_id db).
    reflexivity.
  - left. apply update_attendance_attendances.
  - left. apply staff_add_result_attendances.
  - left. rewrite (fetch_student_result_reads subject_id student_id db).
    reflexivity.
  - left. apply EditResultView_post_attendances.
  - left. apply create_user_attendances.
  - left. apply create_superuser_attendances.
Qed.

Lemma perform_event_unique op db :
  event_unique db = true ->
  event_unique (perform normalize_email make_password op db) = true.
Proof.
  intros Hu. unfold event_unique in *.
  destruct (perform_attendances op db) as [->|(a & -> & Hnil)]; [exact Hu|].
  rewrite distinct_by_snoc, Hu. simpl.
  apply negb_true_iff. apply filter_nil_existsb.
  rewrite (filter_ext_eq _ _ _ (same_event_key a)). exact Hnil.
Qed.
End HistoryFacts.

(** C4.  Over any history of requests that starts with at most one
    attendance row per subject, session and date, there is still at most
    one such row per key afterwards, and the rows that were there are
    still there, unchanged and in place: rows are only added. *)
Theorem attendance_event_unique
  (normalize_email : string -> string) (make_password : option string -> string)
  (ops : list Operation) (db : DB) :
  event_unique db = true ->
  let db' := perform_all normalize_email make_password ops db in
  event_unique db' = true
  /\ (forall session_id subject_id d,
        (List.length (filter (event_key session_id subject_id d) (attendances db'))
         <= 1)%nat)
  /\ exists created, attendances db' = attendances db ++ created.
Proof.
  intros Hu db'.
  assert (H : event_unique db' = true
              /\ exists created, attendances db' = attendances db ++ created).
  { subst db'. revert db Hu. unfold perform_all.
    induction ops as [|op ops IH]; intros db Hu; simpl.
    - split; [exact Hu|]. exists []. rewrite app_nil_r. reflexivity.
    - pose proof (perform_event_unique normalize_email make_password op db Hu)
        as Hu1.
      destruct (IH _ Hu1) as [Hu' [created Hc]]. split; [exact Hu'|].
      rewrite Hc.
      destruct (perform_attendances normalize_email make_password op db)
        as [->|(a & -> & _)].
      + exists created. reflexivity.
      + exists (a :: created). rewrite <- app_assoc. reflexivity. }
  destruct H as [Hu' Hc]. repeat split; auto.
  intros. apply event_unique_count. exact Hu'.
Qed.

(** ** The result upsert *)

Section ResultUpsert.
Variables (db : DB) (request_user student_id subject_id : Z).
Variables (staff : Staff.t) (student : Student.t) (subject : Subject.t).
Hypothesis staff_found :
  get_object_or_404 (fun s => Staff.admin_id s =? request_user) (staffs db)
  = Return staff.
Hypothesis student_found :
  get_object_or_404 (fun s => Student.id s =? student_id) (students db)
  = Return student.
Hypothesis subject_found :
  get_object_or_404 (fun s => Subject.id s =? subject_id) (subjects db)
  = Return subject.

(** [staff_add_result] on a POST with two numbers, by what the lookup of
    the result finds.  With two rows or more [get] raises, and the bare
    [except:] stores one more. *)
Lemma staff_add_result_cases (test exam : float) :
  is_nan test = false -> is_nan exam = false ->
  let answer msg :=
    Return (render "staff_template/staff_add_result.html" [(success, msg)]) in
  let inserted :=
    set_results
      (results db
       ++ [StudentResult.make (next_pk (results db)) (Student.id student)
             (Subject.id subject) test exam]) db in
  staff_add_result request_user POST student_id subject_id
    (Some test) (Some exam) db
  = match filter (result_of student subject) (results db) with
    | [] => (answer "Scores Saved", inserted)
    | [data] =>
        (answer "Scores Updated",
         set_results
           (instance_save
              (StudentResult.make (StudentResult.id data)
                 (StudentResult.student_id data)
                 (StudentResult.subject_id data) test exam)
              (results db)) db)
    | _ :: _ :: _ => (answer "Scores Saved", inserted)
    end.
Proof.
  intros Htest Hexam.
  unfold staff_add_result, bind, query, try_except, to_float.
  rewrite staff_found, student_found, subject_found, Htest, Hexam.
  unfold objects_get.
  destruct (filter (result_of student subject) (results db))
    as [|data [|data' l]]; reflexivity.
Qed.

(** A POST with a NaN for a score stores nothing and renders the
    warning, whether the pair has a result row or not. *)
Lemma staff_add_result_nan (test exam : float) :
  is_nan test = true \/ is_nan exam = true ->
  staff_add_result request_user POST student_id subject_id
    (Some test) (Some exam) db
  = (Return (render "staff_template/staff_add_result.html"
               [(warning, "Error Occured While Processing Form")]), db).
Proof.
  intros Hnan.
  unfold staff_add_result, bind, query, try_except, to_float.
  rewrite staff_found, student_found, subject_found.
  destruct (objects_get _ (results db));
    destruct Hnan as [-> | ->]; try reflexivity;
    destruct (is_nan test); try reflexivity;
    destruct (is_nan exam); reflexivity.
Qed.
End ResultUpsert.

(** In the demo school: a NaN posted as the test score of Ann, with no
    result row and then with one. *)
Example staff_add_result_nan_refused :
  let page :=
    render "staff_template/staff_add_result.html"
      [(warning, "Error Occured While Processing Form")] in
  let stored :=
    snd (staff_add_result 1 POST 1 1 (Some 70%float) (Some 80%float)
           Demo.school) in
  staff_add_result 1 POST 1 1 (Some nan) (Some 80%float) Demo.school
  = (Return page, Demo.school)
  /\ staff_add_result 1 POST 1 1 (Some nan) (Some 80%float) stored
     = (Return page, stored)
  /\ results stored = [StudentResult.make 1 1 1 70%float 80%float].
Proof. repeat split; vm_compute; reflexivity. Qed.


(** ** The update flow of attendance *)

(** One turn of the loop, by what the two lookups find. *)
Lemma update_attendance_student_cases attendance sd db :
  match get_object_or_404 (fun s => Student.admin_id s =? sd_id sd)
          (students db) with
  | Raise e => update_attendance_student attendance sd db = (Raise e, db)
  | Return student =>
      match filter (report_of student attendance) (reports db) with
      | [] => update_attendance_student attendance sd db = (Raise Http404, db)
      | [r] =>
          update_attendance_student attendance sd db
          = (Return tt,
             set_reports
               (instance_save
                  (AttendanceReport.set_status (sd_status sd) r) (reports db))
               db)
      | _ :: _ :: _ =>
          update_attendance_student attendance sd db
          = (Raise MultipleObjectsReturned, db)
      end
  end.
Proof.
  unfold update_attendance_student, bind, query.
  destruct (get_object_or_404 _ (students db)) as [student|e]; [|reflexivity].
  unfold get_object_or_404, objects_get.
  destruct (filter (report_of student attendance) (reports db))
    as [|r [|r' l]]; reflexivity.
Qed.

Lemma update_attendance_student_students attendance sd :
  preserves students (update_attendance_student attendance sd).
Proof. unfold update_attendance_student. frame. Qed.

(** A batch of one pair whose report exists. *)
Lemma update_attendance_single db date attendance sd student r :
  get_object_or_404 (fun a => Attendance.id a =? date) (attendances db)
  = Return attendance ->
  get_object_or_404 (fun s => Student.admin_id s =? sd_id sd) (students db)
  = Return student ->
  filter (report_of student attendance) (reports db) = [r] ->
  update_attendance [sd] date db
  = (Return (HttpResponse (Text "OK")),
     set_reports
       (instance_save (AttendanceReport.set_status (sd_status sd) r)
          (reports db)) db).
Proof.
  intros Ha Hs Hf.
  pose proof (update_attendance_student_cases attendance sd db) as C.
  rewrite Hs, Hf in C.
  unfold update_attendance, update_attendance_try, try_except, bind, query.
  rewrite Ha. simpl. unfold bind. rewrite C. reflexivity.
Qed.

Lemma set_status_set_status b b' r :
  AttendanceReport.set_status b' (AttendanceReport.set_status b r)
  = AttendanceReport.set_status b' r.
Proof. reflexivity. Qed.

Lemma report_of_set_status student attendance b r :
  report_of student attendance (AttendanceReport.set_status b r)
  = report_of student attendance r.
Proof. reflexivity. Qed.

Lemma last_nonempty {A} (x : A) (l : list A) (d d' : A) :
  last (x :: l) d = last (x :: l) d'.
Proof.
  revert x. induction l as [|y l IH]; intros x; [reflexivity|].
  change (last (y :: l) d = last (y :: l) d'). apply IH.
Qed.

(** Calls of the update flow for one student, one posted status each:
    the report ends with the status posted last. *)
Lemma update_attendance_repeated date attendance student id statuses :
  forall db r,
    get_object_or_404 (fun a => Attendance.id a =? date) (attendances db)
    = Return attendance ->
    get_object_or_404 (fun s => Student.admin_id s =? id) (students db)
    = Return student ->
    NoDup (map AttendanceReport.id (reports db)) ->
    filter (report_of student attendance) (reports db) = [r] ->
    filter (report_of student attendance)
      (reports
         (snd (for_each statuses
                 (fun b => update_attendance [mk_student_dict id b] date ;;;
                           ret tt) db)))
    = [AttendanceReport.set_status (last statuses (AttendanceReport.status r))
         r].
Proof.
  induction statuses as [|b statuses IH]; intros db r Ha Hs Hnd Hf.
  - simpl. rewrite Hf. destruct r; reflexivity.
  - cbn [for_each]. unfold bind at 1. unfold bind at 1.
    rewrite (update_attendance_single db date attendance
               (mk_student_dict id b) student r Ha Hs Hf).
    cbn [ret sd_status].
    set (db1 := set_reports _ db).
    assert (Hf1 : filter (report_of student attendance) (reports db1)
                  = [AttendanceReport.set_status b r]).
    { subst db1. cbn [reports set_reports].
      apply (filter_instance_save (report_of student attendance) r); auto.
      rewrite report_of_set_status.
      apply (proj2 (proj1 (filter_In _ r (reports db))
                      ltac:(rewrite Hf; left; reflexivity))). }
    assert (Hnd1 : NoDup (map AttendanceReport.id (reports db1))).
    { subst db1. cbn [reports set_reports].
      change (NoDup (map pk (instance_save (AttendanceReport.set_status b r)
                               (reports db)))).
      rewrite instance_save_keys. exact Hnd. }
    rewrite (IH db1 (AttendanceReport.set_status b r) Ha Hs Hnd1 Hf1).
    rewrite set_status_set_status. cbn [AttendanceReport.status
      AttendanceReport.set_status].
    destruct statuses as [|b0 statuses]; [reflexivity|].
    change (last (b :: b0 :: statuses) (AttendanceReport.status r))
      with (last (b0 :: statuses) (AttendanceReport.status r)).
    rewrite (last_nonempty b0 statuses b (AttendanceReport.status r)).
    reflexivity.
Qed.

Lemma for_each_app {A} (l1 l2 : list A) (body : A -> M unit) db :
  for_each (l1 ++ l2) body db
  = match for_each l1 body db with
    | (Return _, db1) => for_each l2 body db1
    | (Raise e, db1) => (Raise e, db1)
    end.
Proof.
  revert db. induction l1 as [|x l1 IH]; intros db; simpl; [reflexivity|].
  unfold bind. destruct (body x db) as [[[]|e] db1]; [apply IH|reflexivity].
Qed.

(** C3.  The update flow.  Each turn of its loop looks up the report of
    the posted student for the attendance row: without one the turn raises
    [Http404], with one the report is overwritten with the posted status.
    So a batch whose pair has no report raises [Http404] in the [try]
    block and the view answers [None]; a pair whose report exists gets the
    posted status, and after any run of calls the status posted last; and
    no call adds or changes an attendance row. *)
Theorem update_attendance_last_write_wins
  (db : DB) (date : Z) (attendance : Attendance.t) (sd : student_dict)
  (student : Student.t) :
  get_object_or_404 (fun a => Attendance.id a =? date) (attendances db)
  = Return attendance ->
  get_object_or_404 (fun s => Student.admin_id s =? sd_id sd) (students db)
  = Return student ->
  NoDup (map AttendanceReport.id (reports db)) ->
  (forall d,
      match get_object_or_404 (fun s => Student.admin_id s =? sd_id sd)
              (students d) with
      | Return s =>
          match filter (report_of s attendance) (reports d) with
          | [] =>
              update_attendance_student attendance sd d = (Raise Http404, d)
          | [r] =>
              update_attendance_student attendance sd d
              = (Return tt,
                 set_reports
                   (map (fun x =>
                           if AttendanceReport.id x =? AttendanceReport.id r
                           then AttendanceReport.set_status (sd_status sd) r
                           else x)
                      (reports d)) d)
          | _ :: _ :: _ =>
              update_attendance_student attendance sd d
              = (Raise MultipleObjectsReturned, d)
          end
      | Raise e => update_attendance_student attendance sd d = (Raise e, d)
      end)
  /\ (forall before after db1,
        for_each before (update_attendance_student attendance) db
        = (Return tt, db1) ->
        filter (report_of student attendance) (reports db1) = [] ->
        update_attendance_try (before ++ sd :: after) date db
        = (Raise Http404, db1)
        /\ update_attendance (before ++ sd :: after) date db
           = (Return ReturnNone, db1))
  /\ (forall r,
        filter (report_of student attendance) (reports db) = [r] ->
        update_attendance [sd] date db
        = (Return (HttpResponse (Text "OK")),
           set_reports
             (map (fun x =>
                     if AttendanceReport.id x =? AttendanceReport.id r
                     then AttendanceReport.set_status (sd_status sd) r
                     else x)
                (reports db)) db)
        /\ filter (report_of student attendance)
             (reports (snd (update_attendance [sd] date db)))
           = [AttendanceReport.set_status (sd_status sd) r]
        /\ forall statuses,
             filter (report_of student attendance)
               (reports
                  (snd (for_each statuses
                          (fun b =>
                             update_attendance
                               [mk_student_dict (sd_id sd) b] date ;;;
                             ret tt) db)))
             = [AttendanceReport.set_status
                  (last statuses (AttendanceReport.status r)) r])
  /\ (forall student_data,
        attendances (snd (update_attendance student_data date db))
        = attendances db).
Proof.
  intros Ha Hs Hnd. split; [|split; [|split]].
  - intros d.
    pose proof (update_attendance_student_cases attendance sd d) as C.
    destruct (get_object_or_404 _ (students d)) as [s|e]; [|exact C].
    destruct (filter _ (reports d)) as [|r [|r' l]]; exact C.
  - intros before after db1 Hloop Hnone.
    assert (Htry : update_attendance_try (before ++ sd :: after) date db
                   = (Raise Http404, db1)).
    { unfold update_attendance_try, bind, query. rewrite Ha.
      rewrite for_each_app, Hloop. simpl. unfold bind.
      pose proof (update_attendance_student_cases attendance sd db1) as C.
      assert (Hst : students db1 = students db).
      { replace db1 with (snd (for_each before
                                 (update_attendance_student attendance) db))
          by (rewrite Hloop; reflexivity).
        apply (preserves_for_each students).
        apply update_attendance_student_students. }
      rewrite Hst, Hs, Hnone in C. rewrite C. reflexivity. }
    split; [exact Htry|].
    unfold update_attendance, try_except, bind. rewrite Htry. reflexivity.
  - intros r Hf. split; [|split].
    + apply (update_attendance_single db date attendance sd student r Ha Hs Hf).
    + rewrite (update_attendance_single db date attendance sd student r
                 Ha Hs Hf).
      cbn [snd reports set_reports].
      apply (filter_instance_save (report_of student attendance) r); auto.
      rewrite report_of_set_status.
      apply (proj2 (proj1 (filter_In _ r (reports db))
                      ltac:(rewrite Hf; left; reflexivity))).
    + intros statuses.
      apply (update_attendance_repeated date attendance student (sd_id sd)
               statuses db r Ha Hs Hnd Hf).
  - intros student_data. apply update_attendance_attendances.
Qed.

(** ** Reading a result *)

(** C5.  [fetch_student_result] never writes: the database after the call
    is the database before it.  For an existing student and subject it
    answers the stored exam and test scores when the pair has its row, and
    the text [False] when the pair has no row. *)
Theorem fetch_student_result_contract (db : DB) (subject_id student_id : Z) :
  snd (fetch_student_result subject_id student_id db) = db
  /\ forall student subject,
       get_object_or_404 (fun s => Student.id s =? student_id) (students db)
       = Return student ->
       get_object_or_404 (fun s => Subject.id s =? subject_id) (subjects db)
       = Return subject ->
       (forall result,
           filter (result_of student subject) (results db) = [result] ->
           fst (fetch_student_result subject_id student_id db)
           = Return (HttpResponse (json_dumps
                       (JDict [("exam", JFloat (StudentResult.exam result));
                               ("test", JFloat (StudentResult.test result))]))))
       /\ (filter (result_of student subject) (results db) = [] ->
           fst (fetch_student_result subject_id student_id db)
           = Return (HttpResponse (Text "False"))).
Proof.
  split; [apply (fetch_student_result_reads subject_id student_id db)|].
  intros student subject Hs Hu.
  unfold fetch_student_result, try_except, bind, query.
  rewrite Hs, Hu. unfold objects_get.
  split; [intros result Hf|intros Hf]; rewrite Hf; reflexivity.
Qed.

Example fetch_student_result_after_upsert :
  (staff_add_result 1 POST 1 1 (Some 70%float) (Some 80%float) ;;;
   fetch_student_result 1 1) Demo.school
  = (Return (HttpResponse (json_dumps
               (JDict [("exam", JFloat 80%float); ("test", JFloat 70%float)]))),
     set_results [StudentResult.make 1 1 1 70%float 80%float] Demo.school).
Proof. reflexivity. Qed.

Example fetch_student_result_not_found :
  fetch_student_result 1 1 Demo.school
  = (Return (HttpResponse (Text "False")), Demo.school).
Proof. reflexivity. Qed.

(** ** A batch that fails half-way *)

(** The loop of [save_attendance] stops at the first turn that raises, in
    the state the turns before it left. *)
Lemma save_attendance_aborts before sd after date subject_id session_id db
  session subject d attendance created db0 db1 e :
  get_object_or_404 (fun s => Session.id s =? session_id) (sessions db)
  = Return session ->
  get_object_or_404 (fun s => Subject.id s =? subject_id) (subjects db)
  = Return subject ->
  date = Some d ->
  get_or_create attendances set_attendances (event_of session subject d)
    (Attendance.make 0 (Session.id session) (Subject.id subject) d) db
  = (Return (attendance, created), db0) ->
  for_each before (save_attendance_student attendance) db0 = (Return tt, db1) ->
  save_attendance_student attendance sd db1 = (Raise e, db1) ->
  save_attendance (before ++ sd :: after) date subject_id session_id db
  = (Return ReturnNone, db1).
Proof.
  intros Hse Hsu -> Hatt Hloop Hturn.
  unfold save_attendance, try_except, save_attendance_try, bind, query.
  rewrite Hse, Hsu. simpl. rewrite Hatt.
  rewrite for_each_app, Hloop. simpl. unfold bind. rewrite Hturn.
  reflexivity.
Qed.

(** C6.  There is a batch whose second pair fails (no student has key 9):
    the request ends with the answer [None], and the attendance row and
    the report of the first pair, written before the failure, stay in the
    database. *)
Theorem save_attendance_partial_writes :
  exists db student_data date subject_id session_id db',
    save_attendance student_data date subject_id session_id db
    = (Return ReturnNone, db')
    /\ student_data = [mk_student_dict 1 true; mk_student_dict 9 false]
    /\ fst (save_attendance_student (Attendance.make 1 1 1 Demo.day)
              (mk_student_dict 9 false) db') = Raise Http404
    /\ attendances db = [] /\ reports db = []
    /\ attendances db' = [Attendance.make 1 1 1 Demo.day]
    /\ reports db' = [AttendanceReport.make 1 1 1 true].
Proof.
  exists Demo.school, [mk_student_dict 1 true; mk_student_dict 9 false],
    (Some Demo.day), 1, 1.
  eexists. split; [reflexivity|]. repeat split.
Qed.

(** ** Which student a posted identifier names *)


(** ** The two AJAX views on failure *)

(** C10.  When the subject, the session or the attendance row named in the
    request does not exist, [get_students] and [get_student_attendance]
    return the exception they caught, [Http404], and not a response. *)
Theorem ajax_views_return_the_exception (db : DB) :
  (forall subject_id session_id,
      filter (fun s => Subject.id s =? subject_id) (subjects db) = [] ->
      get_students subject_id session_id db
      = (Return (ReturnException Http404), db))
  /\ (forall subject_id session_id subject,
        get_object_or_404 (fun s => Subject.id s =? subject_id) (subjects db)
        = Return subject ->
        filter (fun s => Session.id s =? session_id) (sessions db) = [] ->
        get_students subject_id session_id db
        = (Return (ReturnException Http404), db))
  /\ (forall attendance_date_id,
        filter (fun a => Attendance.id a =? attendance_date_id)
          (attendances db) = [] ->
        get_student_attendance attendance_date_id db
        = (Return (ReturnException Http404), db)).
Proof.
  split; [|split].
  - intros subject_id session_id Hf.
    unfold get_students, try_except, bind, query, get_object_or_404,
      objects_get.
    rewrite Hf. reflexivity.
  - intros subject_id session_id subject Hs Hf.
    unfold get_students, try_except, bind, query. rewrite Hs.
    unfold get_object_or_404, objects_get. rewrite Hf. reflexivity.
  - intros attendance_date_id Hf.
    unfold get_student_attendance, try_except, bind, query,
      get_object_or_404, objects_get.
    rewrite Hf. reflexivity.
Qed.

Example get_students_unknown_subject :
  get_students 7 1 Demo.school = (Return (ReturnException Http404), Demo.school).
Proof. reflexivity. Qed.

Example get_students_unknown_session :
  get_students 1 7 Demo.school = (Return (ReturnException Http404), Demo.school).
Proof. reflexivity. Qed.

Example get_student_attendance_unknown :
  get_student_attendance 7 Demo.school
  = (Return (ReturnException Http404), Demo.school).
Proof. reflexivity. Qed.

Example get_students_known :
  fst (get_students 1 1 Demo.school)
  = Return (JsonResponse (json_dumps (JList
      [JDict [("id", JInt 1); ("name", JStr "Archer Ann")];
       JDict [("id", JInt 2); ("name", JStr "Baker Bob")]]))).
Proof. reflexivity. Qed.

(** ** Profiles of new users *)

(** A table whose column refers to existing users has no row for the key
    the next user will get. *)
Lemma no_row_for_next_user {R} (column : R -> Z) (rows : list R)
  (us : list CustomUser.t) :
  (forall x, In x rows -> In (column x) (map CustomUser.id us)) ->
  filter (fun x => column x =? next_pk us) rows = [].
Proof.
  intros Hfk. induction rows as [|x rows IH]; simpl; [reflexivity|].
  destruct (Z.eqb_spec (column x) (next_pk us)) as [E|_].
  - exfalso. specialize (Hfk x (or_introl eq_refl)).
    apply in_map_iff in Hfk. destruct Hfk as (u & Hu & Hin).
    apply (next_pk_above us u) in Hin. simpl in Hin. lia.
  - apply IH. intros y Hy. apply Hfk. right. exact Hy.
Qed.

(** With a tag other than 1, 2, 3 the first receiver stores nothing. *)
Remark create_user_profile_other_tag (instance : CustomUser.t) (db : DB) :
  CustomUser.user_type instance <> 1 ->
  CustomUser.user_type instance <> 2 ->
  CustomUser.user_type instance <> 3 ->
  create_user_profile instance true db = (Return tt, db).
Proof.
  intros H1 H2 H3. unfold create_user_profile, bind.
  destruct (Z.eqb_spec (CustomUser.user_type instance) 1); [contradiction|].
  destruct (Z.eqb_spec (CustomUser.user_type instance) 2); [contradiction|].
  destruct (Z.eqb_spec (CustomUser.user_type instance) 3); [contradiction|].
  reflexivity.
Qed.

Section NewUser.
Variables (db : DB) (u : CustomUser.t).

Hypothesis email_free :
  existsb (fun x => String.eqb (CustomUser.email x) (CustomUser.email u))
    (users db) = false.
Hypothesis admins_fk :
  forall a, In a (admins db) ->
            In (Admin.admin_id a) (map CustomUser.id (users db)).
Hypothesis staffs_fk :
  forall s, In s (staffs db) ->
            In (Staff.admin_id s) (map CustomUser.id (users db)).
Hypothesis students_fk :
  forall s, In s (students db) ->
            In (Student.admin_id s) (map CustomUser.id (users db)).

(** The user row as stored, and the database with it. *)
Let stored : CustomUser.t := CustomUser.set_id (next_pk (users db)) u.
Let with_user : DB := set_users (users db ++ [stored]) db.

Lemma stored_facts :
  CustomUser.id stored = next_pk (users db)
  /\ CustomUser.user_type stored = CustomUser.user_type u.
Proof. split; reflexivity. Qed.

Lemma CustomUser_save_begins :
  CustomUser_save u db
  = (create_user_profile stored true ;;;
     save_user_profile stored ;;; ret stored) with_user.
Proof.
  unfold CustomUser_save. rewrite email_free. reflexivity.
Qed.

Ltac run_receivers Ht Hnone :=
  rewrite CustomUser_save_begins;
  destruct stored_facts as [Hid Htype];
  unfold create_user_profile, save_user_profile;
  rewrite Htype, Ht; cbn [Z.eqb Pos.eqb];
  unfold bind, ret, create_one_to_one, create, objects_create, query, save,
    objects_get;
  cbn [with_pk Admin_Model Staff_Model Student_Model
       Admin.set_id Staff.set_id Student.set_id
       Admin.admin_id Staff.admin_id Student.admin_id
       Admin.id Staff.id Student.id Staff.course_id Student.course_id
       Student.session_id
       admins staffs students with_user set_users set_admins set_staffs
       set_students fst snd];
  rewrite Hid;
  rewrite (filter_nil_existsb _ _ Hnone);
  cbn [admins staffs students set_users set_admins set_staffs set_students];
  rewrite filter_app, Hnone;
  cbn [filter app Admin.admin_id Staff.admin_id Student.admin_id];
  rewrite Z.eqb_refl;
  erewrite instance_save_last by reflexivity;
  reflexivity.

Lemma CustomUser_save_admin :
  CustomUser.user_type u = 1 ->
  CustomUser_save u db
  = (Return stored,
     set_admins
       (admins db ++ [Admin.make (next_pk (admins db)) (next_pk (users db))])
       with_user).
Proof.
  intros Ht.
  pose proof (no_row_for_next_user Admin.admin_id _ _ admins_fk) as Hnone.
  run_receivers Ht Hnone.
Qed.

Lemma CustomUser_save_staff :
  CustomUser.user_type u = 2 ->
  CustomUser_save u db
  = (Return stored,
     set_staffs
       (staffs db
        ++ [Staff.make (next_pk (staffs db)) None (next_pk (users db))])
       with_user).
Proof.
  intros Ht.
  pose proof (no_row_for_next_user Staff.admin_id _ _ staffs_fk) as Hnone.
  run_receivers Ht Hnone.
Qed.

Lemma CustomUser_save_student :
  CustomUser.user_type u = 3 ->
  CustomUser_save u db
  = (Return stored,
     set_students
       (students db
        ++ [Student.make (next_pk (students db)) (next_pk (users db))
              None None])
       with_user).
Proof.
  intros Ht.
  pose proof (no_row_for_next_user Student.admin_id _ _ students_fk) as Hnone.
  run_receivers Ht Hnone.
Qed.
End NewUser.

(** C7.  A user created by [_create_user] with a free email and one of the
    three role tags, in a database whose profile rows all refer to
    existing users: the user row is stored, the [post_save] receiver adds
    an [Admin] row for tag 1, a [Staff] row for tag 2 and a [Student] row
    for tag 3, nothing else, and the new user owns exactly one profile
    row, in the table of its tag. *)
Theorem new_user_gets_its_profile
  (normalize_email : string -> string) (make_password : option string -> string)
  (db : DB) (email : string) (password : option string) (extra : extra_fields) :
  existsb (fun x => String.eqb (CustomUser.email x) (normalize_email email))
    (users db) = false ->
  (forall a, In a (admins db) ->
             In (Admin.admin_id a) (map CustomUser.id (users db))) ->
  (forall s, In s (staffs db) ->
             In (Staff.admin_id s) (map CustomUser.id (users db))) ->
  (forall s, In s (students db) ->
             In (Student.admin_id s) (map CustomUser.id (users db))) ->
  let role := field_or (ef_user_type extra) 1 in
  role = 1 \/ role = 2 \/ role = 3 ->
  exists user db',
    CustomUserManager._create_user normalize_email make_password email password
      extra db
    = (Return user, db')
    /\ CustomUser.id user = next_pk (users db)
    /\ CustomUser.user_type user = role
    /\ users db' = users db ++ [user]
    /\ admins db'
       = admins db
         ++ (if role =? 1
             then [Admin.make (next_pk (admins db)) (CustomUser.id user)]
             else [])
    /\ staffs db'
       = staffs db
         ++ (if role =? 2
             then [Staff.make (next_pk (staffs db)) None (CustomUser.id user)]
             else [])
    /\ students db'
       = students db
         ++ (if role =? 3
             then [Student.make (next_pk (students db)) (CustomUser.id user)
                     None None]
             else [])
    /\ List.length (filter (fun a => Admin.admin_id a =? CustomUser.id user)
                      (admins db'))
       = (if role =? 1 then 1%nat else 0%nat)
    /\ List.length (filter (fun s => Staff.admin_id s =? CustomUser.id user)
                      (staffs db'))
       = (if role =? 2 then 1%nat else 0%nat)
    /\ List.length (filter (fun s => Student.admin_id s =? CustomUser.id user)
                      (students db'))
       = (if role =? 3 then 1%nat else 0%nat).
Proof.
  intros Hemail Ha Hs Ht role Hrole.
  pose proof (no_row_for_next_user Admin.admin_id _ _ Ha) as Na.
  pose proof (no_row_for_next_user Staff.admin_id _ _ Hs) as Ns.
  pose proof (no_row_for_next_user Student.admin_id _ _ Ht) as Nt.
  unfold CustomUserManager._create_user.
  match goal with
  | |- context [CustomUser_save ?u] => set (built := u)
  end.
  assert (Hfree : existsb (fun x => String.eqb (CustomUser.email x)
                                      (CustomUser.email built)) (users db)
                  = false) by exact Hemail.
  assert (Htype : CustomUser.user_type built = role) by reflexivity.
  exists (CustomUser.set_id (next_pk (users db)) built).
  destruct Hrole as [E|[E|E]].
  - rewrite (CustomUser_save_admin db built Hfree Ha)
      by (rewrite Htype; exact E).
    eexists. split; [reflexivity|].
    rewrite E. cbn [Z.eqb Pos.eqb CustomUser.id CustomUser.set_id
      admins staffs students users set_admins set_users].
    rewrite !app_nil_r, filter_app, Na, Ns, Nt.
    cbn [filter app Admin.admin_id List.length]. rewrite Z.eqb_refl.
    repeat split; try reflexivity. exact E.
  - rewrite (CustomUser_save_staff db built Hfree Hs)
      by (rewrite Htype; exact E).
    eexists. split; [reflexivity|].
    rewrite E. cbn [Z.eqb Pos.eqb CustomUser.id CustomUser.set_id
      admins staffs students users set_staffs set_users].
    rewrite !app_nil_r, filter_app, Na, Ns, Nt.
    cbn [filter app Staff.admin_id List.length]. rewrite Z.eqb_refl.
    repeat split; try reflexivity. exact E.
  - rewrite (CustomUser_save_student db built Hfree Ht)
      by (rewrite Htype; exact E).
    eexists. split; [reflexivity|].
    rewrite E. cbn [Z.eqb Pos.eqb CustomUser.id CustomUser.set_id
      admins staffs students users set_students set_users].
    rewrite !app_nil_r, filter_app, Na, Ns, Nt.
    cbn [filter app Student.admin_id List.length]. rewrite Z.eqb_refl.
    repeat split; try reflexivity. exact E.
Qed.

(** ** Two requests for the same attendance at once *)

Section StatementFacts.
Context {R : Type} `{Model R}.
Variable table : DB -> list R.
Variable set_table : list R -> DB -> DB.

(** The two statements, one right after the other, are [get_or_create]. *)
Lemma get_or_create_statements (lookup : R -> bool) (r : R) (db : DB) :
  get_or_create table set_table lookup r db
  = (selected <- get_or_create_select table lookup ;;
     get_or_create_insert table set_table r selected) db.
Proof.
  unfold get_or_create, get_or_create_select, get_or_create_insert, bind.
  destruct (objects_get lookup (table db)) as [found|[]]; reflexivity.
Qed.

(** The row after a row that took the next key takes the key after it. *)
Lemma next_pk_snoc (r : R) (rows : list R) :
  pk r = next_pk rows -> next_pk (rows ++ [r]) = next_pk rows + 1.
Proof.
  intros Hr.
  assert (Hmax : forall l,
            fold_right (fun x m => Z.max (pk x) m) 0 (l ++ [r])
            = Z.max (fold_right (fun x m => Z.max (pk x) m) 0 l)
                (Z.max (pk r) 0)).
  { induction l as [|x l IH]; simpl.
    - lia.
    - rewrite IH. lia. }
  assert (Hpos : 0 <= fold_right (fun x m => Z.max (pk x) m) 0 rows).
  { clear. induction rows as [|x rows IH]; simpl; lia. }
  unfold next_pk in *. rewrite Hmax. lia.
Qed.
End StatementFacts.

(** A request that runs to the SELECT of the attendance row and goes on
    at once, with no statement of another request in between, is
    [save_attendance]. *)
Lemma save_attendance_statements (student_data : list student_dict)
  (date : option date) (subject_id session_id : Z) (db : DB) :
  save_attendance student_data date subject_id session_id db
  = (let (o, db1) := save_attendance_select date subject_id session_id db in
     save_attendance_rest student_data o db1).
Proof.
  unfold save_attendance, save_attendance_rest, save_attendance_try,
    save_attendance_select, save_attendance_resume, try_except, resumed,
    bind, query.
  destruct (get_object_or_404 _ (sessions db)) as [session|e1];
    [|reflexivity].
  destruct (get_object_or_404 _ (subjects db)) as [subject|e2];
    [|reflexivity].
  destruct date as [d|]; [|reflexivity].
  unfold ret, get_or_create, get_or_create_select.
  destruct (objects_get _ (attendances db)) as [found|[]]; reflexivity.
Qed.

(** A request whose SELECT found no attendance row inserts one when it
    goes on, whatever the table holds by then; its loop writes reports
    only. *)
Lemma save_attendance_rest_inserts (student_data : list student_dict)
  (session : Session.t) (subject : Subject.t) (d : date) (db : DB) :
  exists answer rs,
    save_attendance_rest student_data
      (Return (mk_locals session subject d None)) db
    = (answer,
       set_reports rs
         (set_attendances
            (attendances db
             ++ [Attendance.make (next_pk (attendances db))
                   (Session.id session) (Subject.id subject) d]) db)).
Proof.
  unfold save_attendance_rest, try_except, resumed, save_attendance_resume,
    get_or_create_insert, create, objects_create, bind, ret.
  cbn [local_session local_subject local_date local_selected with_pk
       Attendance_Model].
  unfold Attendance.set_id.
  cbn [Attendance.session_id Attendance.subject_id Attendance.date].
  set (row := Attendance.make _ _ _ _).
  set (db1 := set_attendances _ db).
  destruct (save_attendance_loop_frame row student_data db1) as [rs Hrs].
  destruct (for_each student_data (save_attendance_student row) db1)
    as [[[]|e] db2]; simpl in Hrs; subst db2; eauto.
Qed.

(** Two requests for a date, subject and session that have no attendance
    row, when both SELECTs are answered before either request goes on:
    each request inserts a row, and the table then holds two rows for the
    one date, subject and session. *)
Lemma save_attendance_race_inserts_twice (data_a data_b : list student_dict)
  (d : date) (subject_id session_id : Z) (session : Session.t)
  (subject : Subject.t) (db : DB) :
  get_object_or_404 (fun s => Session.id s =? session_id) (sessions db)
  = Return session ->
  get_object_or_404 (fun s => Subject.id s =? subject_id) (subjects db)
  = Return subject ->
  filter (event_of session subject d) (attendances db) = [] ->
  let row k := Attendance.make k (Session.id session) (Subject.id subject) d in
  let db' :=
    snd (save_attendance_race data_a data_b (Some d) subject_id session_id db)
  in
  attendances db'
  = attendances db
    ++ [row (next_pk (attendances db)); row (next_pk (attendances db) + 1)]
  /\ event_unique db' = false.
Proof.
  intros Hsession Hsubject Hnone row db'.
  assert (Hselect :
            save_attendance_select (Some d) subject_id session_id db
            = (Return (mk_locals session subject d None), db)).
  { unfold save_attendance_select, bind, query, get_or_create_select, ret,
      objects_get.
    rewrite Hsession, Hsubject, Hnone. reflexivity. }
  destruct (save_attendance_rest_inserts data_a session subject d db)
    as (answer_a & rs_a & Ha).
  set (db3 := set_reports rs_a _) in Ha.
  destruct (save_attendance_rest_inserts data_b session subject d db3)
    as (answer_b & rs_b & Hb).
  assert (Hrows : attendances db'
                  = (attendances db ++ [row (next_pk (attendances db))])
                    ++ [row (next_pk (attendances db) + 1)]).
  { subst db'. unfold save_attendance_race. cbv zeta.
    rewrite Hselect. cbv beta iota. rewrite Hselect. cbv beta iota.
    rewrite Ha. cbv beta iota. rewrite Hb. subst db3.
    cbn [snd attendances set_reports set_attendances].
    subst row. cbv beta.
    rewrite (next_pk_snoc
               (Attendance.make (next_pk (attendances db))
                  (Session.id session) (Subject.id subject) d)
               (attendances db)) by reflexivity.
    reflexivity. }
  split.
  - rewrite Hrows, <- app_assoc. reflexivity.
  - unfold event_unique. rewrite Hrows, distinct_by_snoc, existsb_app.
    assert (Hsame : same_event (row (next_pk (attendances db)))
                      (row (next_pk (attendances db) + 1)) = true).
    { unfold same_event, row. cbn [Attendance.session_id
        Attendance.subject_id Attendance.date].
      rewrite !Z.eqb_refl, date_eqb_refl. reflexivity. }
    cbn [existsb]. rewrite Hsame, orb_true_l, orb_true_r.
    apply andb_false_r.
Qed.

(** C8.  Two requests to [save_attendance] for the same date, subject and
    session of the demo school, which has no attendance row yet.  Served
    one after the other, they leave one attendance row.  Served by two
    workers, with both SELECTs of [get_or_create] answered before either
    request goes on, both are answered [OK] and each has inserted a row:
    the table holds two attendance rows for the one date, subject and
    session, and every student has a report under each of them.  The
    docstring of the view names [get_or_create] as what keeps an
    attendance record from being created twice; nothing in [models.py]
    makes the database refuse the second INSERT. *)
Theorem save_attendance_race_creates_two_rows :
  let data := [mk_student_dict 1 true; mk_student_dict 2 true] in
  let request := save_attendance data (Some Demo.day) 1 1 in
  let race := save_attendance_race data data (Some Demo.day) 1 1 Demo.school in
  attendances (snd ((request ;;; request) Demo.school))
  = [Attendance.make 1 1 1 Demo.day]
  /\ fst race
     = (Return (HttpResponse (Text "OK")), Return (HttpResponse (Text "OK")))
  /\ attendances (snd race)
     = [Attendance.make 1 1 1 Demo.day; Attendance.make 2 1 1 Demo.day]
  /\ event_unique (snd race) = false
  /\ reports (snd race)
     = [AttendanceReport.make 1 1 1 true; AttendanceReport.make 2 2 1 true;
        AttendanceReport.make 3 1 2 true; AttendanceReport.make 4 2 2 true].
Proof. repeat split; vm_compute; reflexivity. Qed.

(** ** The theorems at work in the demo school *)



(** Ann (account 2) marked absent, present, absent after the register was
    taken: her report ends absent. *)
Lemma update_attendance_last_write_wins_witness :
  filter (report_of (Student.make 1 2 (Some 1) (Some 1))
            (Attendance.make 1 1 1 Demo.day))
    (reports
       (snd (for_each [false; true; false]
               (fun b => update_attendance [mk_student_dict 2 b] 1 ;;; ret tt)
               Demo.school_attended)))
  = [AttendanceReport.make 1 1 1 false].
Proof.
  assert (Hkeys : NoDup (map AttendanceReport.id (reports Demo.school_attended))).
  { repeat constructor; simpl; intuition discriminate. }
  exact (proj2 (proj2 (proj1 (proj2 (proj2
           (update_attendance_last_write_wins Demo.school_attended 1
              (Attendance.make 1 1 1 Demo.day) (mk_student_dict 2 false)
              (Student.make 1 2 (Some 1) (Some 1)) eq_refl eq_refl Hkeys)))
           (AttendanceReport.make 1 1 1 true) eq_refl))
           [false; true; false]).
Defined.

(** The register taken twice for the same day, once for the day after,
    and updated in between: one attendance row per day. *)
Lemma attendance_event_unique_witness :
  attendances
    (perform_all Demo.plain Demo.hashed
       [SaveAttendance [mk_student_dict 1 true] (Some Demo.day) 1 1;
        UpdateAttendance [mk_student_dict 2 false] 1;
        SaveAttendance [mk_student_dict 2 true] (Some Demo.day) 1 1;
        SaveAttendance [mk_student_dict 1 true] (Some (mkdate 2023 12 21)) 1 1]
       Demo.school)
  = [Attendance.make 1 1 1 Demo.day;
     Attendance.make 2 1 1 (mkdate 2023 12 21)]
  /\ event_unique
       (perform_all Demo.plain Demo.hashed
          [SaveAttendance [mk_student_dict 1 true] (Some Demo.day) 1 1;
           UpdateAttendance [mk_student_dict 2 false] 1;
           SaveAttendance [mk_student_dict 2 true] (Some Demo.day) 1 1;
           SaveAttendance [mk_student_dict 1 true] (Some (mkdate 2023 12 21))
             1 1]
          Demo.school) = true.
Proof.
  split; [reflexivity|].
  exact (proj1 (attendance_event_unique Demo.plain Demo.hashed
                  [SaveAttendance [mk_student_dict 1 true] (Some Demo.day) 1 1;
                   UpdateAttendance [mk_student_dict 2 false] 1;
                   SaveAttendance [mk_student_dict 2 true] (Some Demo.day) 1 1;
                   SaveAttendance [mk_student_dict 1 true]
                     (Some (mkdate 2023 12 21)) 1 1]
                  Demo.school eq_refl)).
Defined.

(** A fourth user, a student, joins the demo school. *)
Lemma new_user_gets_its_profile_witness :
  exists user db',
    CustomUserManager._create_user Demo.plain Demo.hashed "c@school"
      (Some "secret")
      (mk_extra_fields (Some 3) (Some "Cy") (Some "Carter") None None)
      Demo.school
    = (Return user, db')
    /\ CustomUser.id user = 4
    /\ admins db' = []
    /\ staffs db' = staffs Demo.school
    /\ students db' = students Demo.school ++ [Student.make 3 4 None None].
Proof.
  assert (Ha : forall a, In a (admins Demo.school) ->
             In (Admin.admin_id a) (map CustomUser.id (users Demo.school))).
  { intros a []. }
  assert (Hs : forall s, In s (staffs Demo.school) ->
             In (Staff.admin_id s) (map CustomUser.id (users Demo.school))).
  { intros s [<-|[]]. simpl. auto. }
  assert (Ht : forall s, In s (students Demo.school) ->
             In (Student.admin_id s) (map CustomUser.id (users Demo.school))).
  { intros s [<-|[<-|[]]]; simpl; auto. }
  destruct (new_user_gets_its_profile Demo.plain Demo.hashed Demo.school
              "c@school" (Some "secret")
              (mk_extra_fields (Some 3) (Some "Cy") (Some "Carter") None None)
              eq_refl Ha Hs Ht (or_intror (or_intror eq_refl)))
    as (user & db' & Hrun & Hid & _ & _ & Hadm & Hsta & Hstu & _).
  exists user, db'. rewrite Hid in *.
  repeat split; assumption.
Defined.

(** * Further properties of the views and the manager *)

(** ** Tables whose rows stay distinct *)

Lemma existsb_ext_in {R} (p q : R -> bool) (l : list R) :
  (forall x, In x l -> p x = q x) -> existsb p l = existsb q l.
Proof.
  induction l as [|x l IH]; simpl; intros E; [reflexivity|].
  rewrite (E x) by auto. rewrite IH by auto. reflexivity.
Qed.

(** A rewrite of the rows that keeps what [same] looks at keeps the rows
    distinct. *)
Lemma distinct_by_map {R} (same : R -> R -> bool) (f : R -> R)
  (rows : list R) :
  (forall x y, In x rows -> In y rows -> same (f x) (f y) = same x y) ->
  distinct_by same (map f rows) = distinct_by same rows.
Proof.
  induction rows as [|x rows IH]; simpl; intros E; [reflexivity|].
  rewrite IH by auto. f_equal. f_equal.
  assert (Hmap : forall l, (forall y, In y l -> In y rows) ->
            existsb (same (f x)) (map f l) = existsb (same x) l).
  { induction l as [|y l IHl]; simpl; intros Hsub; [reflexivity|].
    rewrite E, IHl; auto. }
  apply Hmap. auto.
Qed.

Section DistinctRows.
Context {R : Type} `{Model R}.

Lemma keys_distinct_NoDup (rows : list R) :
  keys_distinct rows = true <-> NoDup (map pk rows).
Proof.
  unfold keys_distinct. induction rows as [|x rows IH]; simpl.
  - split; [constructor|reflexivity].
  - rewrite andb_true_iff, negb_true_iff, IH. split.
    + intros [Hx Hrows]. constructor; [|exact Hrows].
      intros Hin. apply in_map_iff in Hin. destruct Hin as (y & Ey & Hy).
      assert (Hex : existsb (fun b => pk x =? pk b) rows = true).
      { apply existsb_exists. exists y. split; [exact Hy|].
        apply Z.eqb_eq. congruence. }
      congruence.
    + intros Hnd. inversion Hnd as [|? ? Hnotin Hnd']; subst.
      split; [|exact Hnd'].
      destruct (existsb (fun b => pk x =? pk b) rows) eqn:Hex; [|reflexivity].
      exfalso. apply existsb_exists in Hex. destruct Hex as (y & Hy & Ey).
      apply Z.eqb_eq in Ey. apply Hnotin. rewrite Ey. apply in_map. exact Hy.
Qed.

(** [create] gives the new row a key no row has. *)
Lemma keys_distinct_create (r : R) (rows : list R) :
  pk r = next_pk rows ->
  keys_distinct (rows ++ [r]) = keys_distinct rows.
Proof.
  intros Hpk. unfold keys_distinct. rewrite distinct_by_snoc.
  replace (existsb (fun x => pk x =? pk r) rows) with false;
    [apply andb_true_r|].
  symmetry. apply not_true_is_false. intros Hex.
  apply existsb_exists in Hex. destruct Hex as (y & Hy & Ey).
  apply Z.eqb_eq in Ey. apply next_pk_above in Hy. lia.
Qed.

(** [save] keeps every key where it is. *)
Lemma keys_distinct_save (r : R) (rows : list R) :
  keys_distinct (instance_save r rows) = keys_distinct rows.
Proof.
  unfold keys_distinct, instance_save. apply distinct_by_map.
  intros x y _ _.
  destruct (Z.eqb_spec (pk x) (pk r)) as [Ex|_],
           (Z.eqb_spec (pk y) (pk r)) as [Ey|_]; congruence.
Qed.

(** Where keys are distinct, [save] of a new version of a row of the
    table that agrees with it on two columns keeps the rows distinct on
    these columns. *)
Lemma distinct_on_save (k1 k2 : R -> Z) (r r' : R) (rows : list R) :
  NoDup (map pk rows) -> In r rows ->
  pk r' = pk r -> k1 r' = k1 r -> k2 r' = k2 r ->
  distinct_by (same_on k1 k2) (instance_save r' rows)
  = distinct_by (same_on k1 k2) rows.
Proof.
  intros Hnd Hin Hpk H1 H2. unfold instance_save.
  assert (Hkeep : forall x, In x rows ->
            k1 (if pk x =? pk r' then r' else x) = k1 x
            /\ k2 (if pk x =? pk r' then r' else x) = k2 x).
  { intros x Hx. destruct (Z.eqb_spec (pk x) (pk r')) as [E|_]; [|auto].
    rewrite Hpk in E. rewrite (pk_injective rows x r Hnd Hx Hin E). auto. }
  apply distinct_by_map. intros x y Hx Hy. unfold same_on.
  destruct (Hkeep x Hx) as [-> ->]. destruct (Hkeep y Hy) as [-> ->].
  reflexivity.
Qed.

(** [create] of a row for a pair of column values no row has. *)
Lemma distinct_on_create (k1 k2 : R -> Z) (r : R) (rows : list R) :
  filter (fun x => (k1 x =? k1 r) && (k2 x =? k2 r)) rows = [] ->
  distinct_by (same_on k1 k2) (rows ++ [r])
  = distinct_by (same_on k1 k2) rows.
Proof.
  intros Hnone. rewrite distinct_by_snoc.
  replace (existsb (fun x => same_on k1 k2 x r) rows) with false;
    [apply andb_true_r|].
  symmetry. exact (filter_nil_existsb _ _ Hnone).
Qed.

(** Rows distinct on two columns: a pair of values finds at most one. *)
Lemma distinct_on_count (k1 k2 : R -> Z) (a b : Z) (rows : list R) :
  distinct_by (same_on k1 k2) rows = true ->
  (List.length (filter (fun x => (k1 x =? a)%Z && (k2 x =? b)%Z) rows)
   <= 1)%nat.
Proof.
  induction rows as [|x rows IH]; simpl; [lia|].
  intros E. apply andb_prop in E. destruct E as [Ex Erows].
  destruct ((k1 x =? a) && (k2 x =? b)) eqn:Hx; [|auto].
  apply andb_prop in Hx. destruct Hx as [E1 E2].
  apply Z.eqb_eq in E1, E2. subst a b.
  apply negb_true_iff in Ex.
  assert (Hnil : filter (fun y => (k1 y =? k1 x) && (k2 y =? k2 x)) rows = []).
  { clear -Ex. induction rows as [|y rows IH]; simpl in *; [reflexivity|].
    apply orb_false_iff in Ex. destruct Ex as [Ey Ex].
    unfold same_on in Ey. rewrite (Z.eqb_sym (k1 y)), (Z.eqb_sym (k2 y)), Ey.
    auto. }
  rewrite Hnil. simpl. lia.
Qed.
End DistinctRows.

(** ** Invariants through a computation *)

Section Keeps.
Variable P : DB -> Prop.

Lemma keeps_ret {A} (a : A) : keeps P (ret a).
Proof. intros db HP. exact HP. Qed.

Lemma keeps_raise {A} (e : Exception) : keeps P (@raise A e).
Proof. intros db HP. exact HP. Qed.

Lemma keeps_query {R A} (table : DB -> list R) (f : list R -> Outcome A) :
  keeps P (query table f).
Proof. intros db HP. exact HP. Qed.

Lemma keeps_bind {A B} (m : M A) (k : A -> M B) :
  keeps P m -> (forall a, keeps P (k a)) -> keeps P (bind m k).
Proof.
  intros Hm Hk db HP. unfold bind. specialize (Hm db HP).
  destruct (m db) as [[a|e] db1]; simpl in *; [|exact Hm].
  apply Hk. exact Hm.
Qed.

Lemma keeps_try_except {A} (body : M A) (handler : Exception -> M A) :
  keeps P body -> (forall e, keeps P (handler e)) ->
  keeps P (try_except body handler).
Proof.
  intros Hm Hk db HP. unfold try_except. specialize (Hm db HP).
  destruct (body db) as [[a|e] db1]; simpl in *; [exact Hm|].
  apply Hk. exact Hm.
Qed.

Lemma keeps_for_each {A} (l : list A) (body : A -> M unit) :
  (forall x, keeps P (body x)) -> keeps P (for_each l body).
Proof.
  intros Hbody. induction l as [|x l IH]; simpl.
  - apply keeps_ret.
  - apply keeps_bind; auto.
Qed.

(** An invariant of one part of the database is kept by what leaves that
    part alone. *)
Lemma keeps_apart {T A} (part : DB -> T) (m : M A) :
  (forall db db', part db' = part db -> P db -> P db') ->
  preserves part m -> keeps P m.
Proof. intros Hdep Hm db HP. apply (Hdep db); [apply Hm|exact HP]. Qed.
End Keeps.

(** ** One report per student and attendance *)

Lemma report_integrity_parts db :
  report_integrity db = true ->
  NoDup (map AttendanceReport.id (reports db))
  /\ distinct_by
       (same_on AttendanceReport.student_id AttendanceReport.attendance_id)
       (reports db) = true.
Proof.
  unfold report_integrity. intros E. apply andb_prop in E.
  destruct E as [Ek Ed]. split; [|exact Ed].
  change (NoDup (map pk (reports db))).
  apply keys_distinct_NoDup. exact Ek.
Qed.

Lemma report_integrity_reports db db' :
  reports db' = reports db ->
  report_integrity db = true -> report_integrity db' = true.
Proof. unfold report_integrity. intros ->. auto. Qed.

Lemma save_attendance_student_integrity attendance sd :
  keeps (fun db => report_integrity db = true)
    (save_attendance_student attendance sd).
Proof.
  intros db Hin.
  pose proof (save_attendance_student_cases attendance sd db) as C.
  destruct (get_object_or_404 _ (students db)) as [student|e];
    [|rewrite C; exact Hin].
  destruct (filter (report_of student attendance) (reports db))
    as [|r [|r' l]] eqn:Hf; rewrite C; try exact Hin.
  unfold report_integrity in *. cbn [snd reports set_reports].
  rewrite keys_distinct_create by reflexivity.
  rewrite distinct_on_create; [exact Hin|exact Hf].
Qed.

Lemma update_attendance_student_integrity attendance sd :
  keeps (fun db => report_integrity db = true)
    (update_attendance_student attendance sd).
Proof.
  intros db Hin.
  pose proof (update_attendance_student_cases attendance sd db) as C.
  destruct (get_object_or_404 _ (students db)) as [student|e];
    [|rewrite C; exact Hin].
  destruct (filter (report_of student attendance) (reports db))
    as [|r [|r' l]] eqn:Hf; rewrite C; try exact Hin.
  destruct (report_integrity_parts db Hin) as [Hnd Hd].
  unfold report_integrity in *. cbn [snd reports set_reports].
  rewrite keys_distinct_save.
  rewrite (distinct_on_save _ _ r); auto.
  apply (proj1 (filter_In (report_of student attendance) r (reports db))).
  rewrite Hf. left. reflexivity.
Qed.

Lemma save_attendance_integrity student_data date subject_id session_id :
  keeps (fun db => report_integrity db = true)
    (save_attendance student_data date subject_id session_id).
Proof.
  unfold save_attendance, save_attendance_try.
  apply keeps_try_except; [|intros; apply keeps_ret].
  apply keeps_bind; [|intros; apply keeps_ret].
  apply keeps_bind; [apply keeps_query|intros session].
  apply keeps_bind; [apply keeps_query|intros subject].
  apply keeps_bind; [destruct date; [apply keeps_ret|apply keeps_raise]|].
  intros d. apply keeps_bind.
  - apply (keeps_apart _ reports); [apply report_integrity_reports|].
    apply preserves_get_or_create. reflexivity.
  - intros [attendance created]. apply keeps_for_each.
    apply save_attendance_student_integrity.
Qed.

Lemma update_attendance_integrity student_data date :
  keeps (fun db => report_integrity db = true)
    (update_attendance student_data date).
Proof.
  unfold update_attendance, update_attendance_try.
  apply keeps_try_except; [|intros; apply keeps_ret].
  apply keeps_bind; [|intros; apply keeps_ret].
  apply keeps_bind; [apply keeps_query|intros attendance].
  apply keeps_for_each. apply update_attendance_student_integrity.
Qed.

(** The views and manager calls that never touch the reports. *)
Lemma staff_add_result_reports request_user method student_id subject_id
  test exam :
  preserves reports
    (staff_add_result request_user method student_id subject_id test exam).
Proof. unfold staff_add_result, to_float. frame. Qed.

Lemma EditResultView_post_reports form :
  preserves reports (EditResultView.post form).
Proof. unfold EditResultView.post. frame. Qed.

Lemma CustomUser_save_apart {T} (part : DB -> T) user :
  (forall l db, part (set_users l db) = part db) ->
  (forall l db, part (set_admins l db) = part db) ->
  (forall l db, part (set_staffs l db) = part db) ->
  (forall l db, part (set_students l db) = part db) ->
  preserves part (CustomUser_save user).
Proof.
  intros Hu Ha Hs Ht db. unfold CustomUser_save.
  destruct (existsb _ (users db)); [reflexivity|].
  revert db. change (preserves part
    (instance <- create users set_users user ;;
     create_user_profile instance true ;;;
     save_user_profile instance ;;; ret instance)).
  unfold create_user_profile, save_user_profile.
  repeat first
    [ apply preserves_ret
    | apply preserves_query
    | apply preserves_bind
    | apply preserves_create; assumption
    | apply preserves_save; assumption
    | apply preserves_create_one_to_one; assumption
    | match goal with
      | |- forall _, _ => intro
      | |- preserves _ (if ?b then _ else _) => destruct b
      end ].
Qed.

Section HistoryParts.
Variable normalize_email : string -> string.
Variable make_password : option string -> string.

(** The part of the database a history leaves alone when its user
    creations, attendance views and result views do. *)
Lemma perform_apart {T} (part : DB -> T) op :
  (forall l db, part (set_users l db) = part db) ->
  (forall l db, part (set_admins l db) = part db) ->
  (forall l db, part (set_staffs l db) = part db) ->
  (forall l db, part (set_students l db) = part db) ->
  match op with
  | SaveAttendance _ _ _ _ | UpdateAttendance _ _
  | StaffAddResult _ _ _ _ _ _ | EditResult _ => True
  | _ => forall db, part (perform normalize_email make_password op db)
                    = part db
  end.
Proof.
  intros Hu Ha Hs Ht. destruct op; try exact I; intros db; simpl.
  - rewrite (get_students_reads subject_id session_id db). reflexivity.
  - rewrite (get_student_attendance_reads attendance_date_id db).
    reflexivity.
  - rewrite (fetch_student_result_reads subject_id student_id db).
    reflexivity.
  - unfold CustomUserManager.create_user, CustomUserManager._create_user.
    apply CustomUser_save_apart; assumption.
  - unfold CustomUserManager.create_superuser,
      CustomUserManager._create_user.
    repeat match goal with
           | |- context [if ?b then _ else _] => destruct b
           end; try reflexivity; apply CustomUser_save_apart; assumption.
Qed.

Lemma perform_report_integrity op db :
  report_integrity db = true ->
  report_integrity (perform normalize_email make_password op db) = true.
Proof.
  intros Hin.
  pose proof (perform_apart reports op (fun _ _ => eq_refl) (fun _ _ => eq_refl)
                (fun _ _ => eq_refl) (fun _ _ => eq_refl)) as Hop.
  destruct op; simpl in *;
    try (apply (report_integrity_reports db); [apply Hop|exact Hin]).
  - apply save_attendance_integrity. exact Hin.
  - apply update_attendance_integrity. exact Hin.
  - apply (report_integrity_reports db); [|exact Hin].
    apply staff_add_result_reports.
  - apply (report_integrity_reports db); [|exact Hin].
    apply EditResultView_post_reports.
Qed.
End HistoryParts.

(** X1.  The table of reports starts with distinct keys and at most one
    report per student and attendance row: after any history of requests
    it still has both, so any student and attendance row find at most one
    report. *)
Theorem report_integrity_kept
  (normalize_email : string -> string) (make_password : option string -> string)
  (ops : list Operation) (db : DB) :
  report_integrity db = true ->
  let db' := perform_all normalize_email make_password ops db in
  report_integrity db' = true
  /\ forall student attendance,
       (List.length (filter (report_of student attendance) (reports db'))
        <= 1)%nat.
Proof.
  intros Hin db'.
  assert (H : report_integrity db' = true).
  { subst db'. revert db Hin. unfold perform_all.
    induction ops as [|op ops IH]; intros db Hin; simpl; [exact Hin|].
    apply IH. apply perform_report_integrity. exact Hin. }
  split; [exact H|]. intros student attendance.
  destruct (report_integrity_parts db' H) as [_ Hd].
  apply (distinct_on_count AttendanceReport.student_id
           AttendanceReport.attendance_id (Student.id student)
           (Attendance.id attendance) (reports db') Hd).
Qed.

(** ** One result per student and subject *)

Lemma result_integrity_parts db :
  result_integrity db = true ->
  NoDup (map StudentResult.id (results db))
  /\ distinct_by (same_on StudentResult.student_id StudentResult.subject_id)
       (results db) = true.
Proof.
  unfold result_integrity. intros E. apply andb_prop in E.
  destruct E as [Ek Ed]. split; [|exact Ed].
  change (NoDup (map pk (results db))).
  apply keys_distinct_NoDup. exact Ek.
Qed.

Lemma result_integrity_results db db' :
  results db' = results db ->
  result_integrity db = true -> result_integrity db' = true.
Proof. unfold result_integrity. intros ->. auto. Qed.

(** [staff_add_result] leaves the database as it is unless it is a POST
    by a staff member with an existing student and subject and two
    numbers. *)
Lemma staff_add_result_effect request_user method student_id subject_id
  test exam db :
  snd (staff_add_result request_user method student_id subject_id test exam db)
  = db
  \/ exists staff student subject t e,
       method = POST /\ test = Some t /\ exam = Some e
       /\ is_nan t = false /\ is_nan e = false
       /\ get_object_or_404 (fun s => Staff.admin_id s =? request_user)
            (staffs db) = Return staff
       /\ get_object_or_404 (fun s => Student.id s =? student_id)
            (students db) = Return student
       /\ get_object_or_404 (fun s => Subject.id s =? subject_id)
            (subjects db) = Return subject.
Proof.
  unfold staff_add_result, bind, query, try_except, to_float.
  destruct (get_object_or_404 _ (staffs db)) as [staff|e0] eqn:Hst;
    [|left; reflexivity].
  destruct method; [left; reflexivity|].
  destruct (get_object_or_404 _ (students db)) as [student|e1] eqn:Hs;
    [|left; reflexivity].
  destruct (get_object_or_404 _ (subjects db)) as [subject|e2] eqn:Hu;
    [|left; reflexivity].
  destruct test as [t|], exam as [e|].
  - destruct (is_nan t) eqn:Ht, (is_nan e) eqn:He;
      try (left; destruct (objects_get _ (results db)); reflexivity).
    right. exists staff, student, subject, t, e. auto 12.
  - left. destruct (objects_get _ (results db)), (is_nan t); reflexivity.
  - left. destruct (objects_get _ (results db)), (is_nan e); reflexivity.
  - left. destruct (objects_get _ (results db)); reflexivity.
Qed.

Lemma staff_add_result_integrity request_user method student_id subject_id
  test exam :
  keeps (fun db => result_integrity db = true)
    (staff_add_result request_user method student_id subject_id test exam).
Proof.
  intros db Hin.
  destruct (staff_add_result_effect request_user method student_id subject_id
              test exam db)
    as [->|(staff & student & subject & t & e & -> & -> & -> & Ht & He
            & Hst & Hs & Hu)];
    [exact Hin|].
  rewrite (staff_add_result_cases db request_user student_id subject_id
             staff student subject Hst Hs Hu t e Ht He).
  destruct (result_integrity_parts db Hin) as [Hnd Hd].
  pose proof (distinct_on_count StudentResult.student_id
                StudentResult.subject_id (Student.id student)
                (Subject.id subject) (results db) Hd) as Hone.
  change (List.length (filter (result_of student subject) (results db))
          <= 1)%nat in Hone.
  destruct (filter (result_of student subject) (results db))
    as [|data [|data' l]] eqn:Hf; [| |simpl in Hone; lia].
  - unfold result_integrity in *. cbn [snd results set_results].
    rewrite keys_distinct_create by reflexivity.
    rewrite distinct_on_create; [exact Hin|exact Hf].
  - unfold result_integrity in *. cbn [snd results set_results].
    rewrite keys_distinct_save.
    rewrite (distinct_on_save _ _ data); auto.
    apply (proj1 (filter_In (result_of student subject) data (results db))).
    rewrite Hf. left. reflexivity.
Qed.

(** [EditResultView.post] by what the lookup of the result finds. *)
Lemma EditResultView_post_cases cleaned_data db :
  EditResultView.post (Some cleaned_data) db
  = match filter (result_of (form_student cleaned_data)
                            (form_subject cleaned_data)) (results db) with
    | [result] =>
        (Return (redirect "edit_student_result" [(success, "Result Updated")]),
         set_results
           (instance_save
              (StudentResult.make (StudentResult.id result)
                 (StudentResult.student_id result)
                 (StudentResult.subject_id result)
                 (form_test cleaned_data) (form_exam cleaned_data))
              (results db)) db)
    | _ =>
        (Return (render "staff_template/edit_student_result.html"
                   [(warning, "Result Could Not Be Updated")]), db)
    end.
Proof.
  unfold EditResultView.post, try_except, bind, query, objects_get.
  destruct (filter _ (results db)) as [|result [|result' l]]; reflexivity.
Qed.

Lemma EditResultView_post_integrity form :
  keeps (fun db => result_integrity db = true) (EditResultView.post form).
Proof.
  intros db Hin. destruct form as [cleaned_data|]; [|exact Hin].
  rewrite EditResultView_post_cases.
  destruct (filter _ (results db)) as [|result [|result' l]] eqn:Hf;
    try exact Hin.
  destruct (result_integrity_parts db Hin) as [Hnd Hd].
  unfold result_integrity in *. cbn [snd results set_results].
  rewrite keys_distinct_save.
  rewrite (distinct_on_save _ _ result); auto.
  apply (proj1 (filter_In (result_of (form_student cleaned_data)
                                     (form_subject cleaned_data))
                  result (results db))).
  rewrite Hf. left. reflexivity.
Qed.

Lemma save_attendance_results student_data date subject_id session_id :
  preserves results
    (save_attendance student_data date subject_id session_id).
Proof.
  unfold save_attendance, save_attendance_try, save_attendance_student.
  frame.
Qed.

Lemma update_attendance_results student_data date :
  preserves results (update_attendance student_data date).
Proof.
  unfold update_attendance, update_attendance_try, update_attendance_student.
  frame.
Qed.

(** X2.  The table of results starts with distinct keys and at most one
    result per student and subject: after any history of requests it
    still has both, so any student and subject find at most one result
    (and the bare [except:] of [staff_add_result] never stores a second
    row for a pair). *)
Theorem result_integrity_kept
  (normalize_email : string -> string) (make_password : option string -> string)
  (ops : list Operation) (db : DB) :
  result_integrity db = true ->
  let db' := perform_all normalize_email make_password ops db in
  result_integrity db' = true
  /\ forall student subject,
       (List.length (filter (result_of student subject) (results db'))
        <= 1)%nat.
Proof.
  intros Hin db'.
  assert (H : result_integrity db' = true).
  { subst db'. revert db Hin. unfold perform_all.
    induction ops as [|op ops IH]; intros db Hin; simpl; [exact Hin|].
    apply IH.
    pose proof (perform_apart normalize_email make_password results op
                  (fun _ _ => eq_refl) (fun _ _ => eq_refl)
                  (fun _ _ => eq_refl) (fun _ _ => eq_refl)) as Hop.
    destruct op; simpl in *;
      try (apply (result_integrity_results db); [apply Hop|exact Hin]).
    - apply (result_integrity_results db); [|exact Hin].
      apply save_attendance_results.
    - apply (result_integrity_results db); [|exact Hin].
      apply update_attendance_results.
    - apply staff_add_result_integrity. exact Hin.
    - apply EditResultView_post_integrity. exact Hin. }
  split; [exact H|]. intros student subject.
  destruct (result_integrity_parts db' H) as [_ Hd].
  apply (distinct_on_count StudentResult.student_id StudentResult.subject_id
           (Student.id student) (Subject.id subject) (results db') Hd).
Qed.

(** ** When the save flow answers [None], and when [OK] *)

(** X3.  A request to [save_attendance] whose session or subject cannot
    be looked up, or whose date is missing or not a date, is answered
    [None] and writes nothing: no attendance row, no report. *)
Theorem save_attendance_rejects
  (student_data : list student_dict) (date : option date)
  (subject_id session_id : Z) (db : DB) :
  (exists e, get_object_or_404 (fun s => Session.id s =? session_id)
               (sessions db) = Raise e)
  \/ (exists e, get_object_or_404 (fun s => Subject.id s =? subject_id)
                  (subjects db) = Raise e)
  \/ date = None ->
  save_attendance student_data date subject_id session_id db
  = (Return ReturnNone, db).
Proof.
  intros Hbad.
  unfold save_attendance, save_attendance_try, try_except, bind, query.
  destruct (get_object_or_404 _ (sessions db)) as [session|e1];
    [|reflexivity].
  destruct (get_object_or_404 _ (subjects db)) as [subject|e2];
    [|reflexivity].
  destruct Hbad as [[e He]|[[e He]| ->]]; try discriminate. reflexivity.
Qed.

(** The loop of the save flow, once it has returned: every posted student
    exists and has exactly one report for the attendance row. *)
Lemma save_attendance_loop_return attendance :
  forall l db db',
    for_each l (save_attendance_student attendance) db = (Return tt, db') ->
    forall sd, In sd l ->
      exists student r,
        get_object_or_404 (fun s => Student.id s =? sd_id sd) (students db')
        = Return student
        /\ filter (report_of student attendance) (reports db') = [r].
Proof.
  induction l as [|a l IH]; intros db db' Hrun sd Hin; [destruct Hin|].
  simpl in Hrun. unfold bind in Hrun.
  destruct (save_attendance_student attendance a db) as [[[]|e] db1] eqn:Ha;
    [|discriminate].
  assert (Hst : students db' = students db).
  { replace db' with (snd (for_each l (save_attendance_student attendance)
                             db1)) by (rewrite Hrun; reflexivity).
    rewrite (preserves_for_each students l _
               (save_attendance_student_students attendance) db1).
    replace db1 with (snd (save_attendance_student attendance a db))
      by (rewrite Ha; reflexivity).
    apply save_attendance_student_students. }
  destruct Hin as [<-|Hin].
  - destruct (save_attendance_student_return _ _ _ _ Ha)
      as (student & r & Hs & Hf).
    exists student, r. split; [rewrite Hst; exact Hs|].
    replace db' with (snd (for_each l (save_attendance_student attendance)
                             db1)) by (rewrite Hrun; reflexivity).
    apply (for_each_preserves
             (fun d => filter (report_of student attendance) (reports d)
                       = [r])); [|exact Hf].
    intros x d Hd. apply save_attendance_student_keeps. exact Hd.
  - apply (IH db1 db' Hrun sd Hin).
Qed.

(** X4.  When [save_attendance] answers [OK], its session and subject
    exist, the date is a date, the key has exactly one attendance row, and
    every posted student exists and has exactly one report for that
    row. *)
Theorem save_attendance_ok
  (student_data : list student_dict) (date : option date)
  (subject_id session_id : Z) (db db' : DB) :
  save_attendance student_data date subject_id session_id db
  = (Return (HttpResponse (Text "OK")), db') ->
  exists session subject d attendance,
    date = Some d
    /\ get_object_or_404 (fun s => Session.id s =? session_id) (sessions db')
       = Return session
    /\ get_object_or_404 (fun s => Subject.id s =? subject_id) (subjects db')
       = Return subject
    /\ filter (event_of session subject d) (attendances db') = [attendance]
    /\ forall sd, In sd student_data ->
         exists student r,
           get_object_or_404 (fun s => Student.id s =? sd_id sd)
             (students db') = Return student
           /\ filter (report_of student attendance) (reports db') = [r].
Proof.
  unfold save_attendance, try_except, bind.
  destruct (save_attendance_try student_data date subject_id session_id db)
    as [[[]|e] db1] eqn:Htry; [|discriminate].
  intros Hok. inversion Hok; subst db1. clear Hok.
  revert Htry. unfold save_attendance_try, bind, query.
  destruct (get_object_or_404 _ (sessions db)) as [session|e] eqn:Hse;
    [|discriminate].
  destruct (get_object_or_404 _ (subjects db)) as [subject|e] eqn:Hsu;
    [|discriminate].
  destruct date as [d|]; [|discriminate]. simpl.
  unfold get_or_create, objects_get.
  destruct (filter (event_of session subject d) (attendances db))
    as [|a [|a' l]] eqn:Hf; [| |discriminate].
  - unfold create, objects_create. simpl.
    set (a := Attendance.set_id (next_pk (attendances db))
                (Attendance.make 0 (Session.id session) (Subject.id subject) d)).
    set (dba := set_attendances (attendances db ++ [a]) db).
    intros Hloop.
    destruct (save_attendance_loop_frame a student_data dba) as [rs Hfr].
    rewrite Hloop in Hfr. simpl in Hfr.
    assert (Hses : sessions db' = sessions db) by (rewrite Hfr; reflexivity).
    assert (Hsub : subjects db' = subjects db) by (rewrite Hfr; reflexivity).
    assert (Hatt : attendances db' = attendances db ++ [a])
      by (rewrite Hfr; reflexivity).
    exists session, subject, d, a. split; [reflexivity|].
    rewrite Hses, Hsub, Hatt, Hse, Hsu.
    split; [reflexivity|]. split; [reflexivity|]. split.
    + rewrite filter_app, Hf. simpl.
      replace (event_of session subject d a) with true; [reflexivity|].
      unfold event_of, a. simpl. rewrite !Z.eqb_refl, date_eqb_refl.
      reflexivity.
    + apply (save_attendance_loop_return a _ _ _ Hloop).
  - intros Hloop.
    destruct (save_attendance_loop_frame a student_data db) as [rs Hfr].
    rewrite Hloop in Hfr. simpl in Hfr.
    assert (Hses : sessions db' = sessions db) by (rewrite Hfr; reflexivity).
    assert (Hsub : subjects db' = subjects db) by (rewrite Hfr; reflexivity).
    assert (Hatt : attendances db' = attendances db)
      by (rewrite Hfr; reflexivity).
    exists session, subject, d, a. split; [reflexivity|].
    rewrite Hses, Hsub, Hatt, Hse, Hsu, Hf.
    split; [reflexivity|]. split; [reflexivity|]. split; [reflexivity|].
    apply (save_attendance_loop_return a _ _ _ Hloop).
Qed.

Lemma save_attendance_loop_succeeds attendance :
  forall l db,
    report_integrity db = true ->
    (forall sd, In sd l ->
       exists student,
         get_object_or_404 (fun s => Student.id s =? sd_id sd) (students db)
         = Return student) ->
    fst (for_each l (save_attendance_student attendance) db) = Return tt.
Proof.
  induction l as [|a l IH]; intros db Hin Hall; [reflexivity|].
  simpl. unfold bind.
  pose proof (save_attendance_student_integrity attendance a db Hin) as Hin1.
  pose proof (save_attendance_student_students attendance a db) as Hst.
  assert (Hturn : fst (save_attendance_student attendance a db) = Return tt).
  { pose proof (save_attendance_student_cases attendance a db) as C.
    destruct (Hall a (or_introl eq_refl)) as [student Hs]. rewrite Hs in C.
    destruct (report_integrity_parts db Hin) as [_ Hd].
    pose proof (distinct_on_count AttendanceReport.student_id
                  AttendanceReport.attendance_id (Student.id student)
                  (Attendance.id attendance) (reports db) Hd) as Hone.
    change (List.length (filter (report_of student attendance) (reports db))
            <= 1)%nat in Hone.
    destruct (filter (report_of student attendance) (reports db))
      as [|r [|r' l']]; [| |simpl in Hone; lia]; rewrite C; reflexivity. }
  destruct (save_attendance_student attendance a db) as [[[]|e] db1];
    simpl in *; [|discriminate].
  apply IH; [exact Hin1|].
  intros sd Hsd. rewrite Hst. apply Hall. right. exact Hsd.
Qed.

(** The [try] block of the save flow returns on valid input in a database
    that keeps its invariants. *)
Lemma save_attendance_try_succeeds
  (student_data : list student_dict) (d : date) (subject_id session_id : Z)
  (db : DB) (session : Session.t) (subject : Subject.t) :
  get_object_or_404 (fun s => Session.id s =? session_id) (sessions db)
  = Return session ->
  get_object_or_404 (fun s => Subject.id s =? subject_id) (subjects db)
  = Return subject ->
  event_unique db = true ->
  report_integrity db = true ->
  (forall sd, In sd student_data ->
     exists student,
       get_object_or_404 (fun s => Student.id s =? sd_id sd) (students db)
       = Return student) ->
  fst (save_attendance_try student_data (Some d) subject_id session_id db)
  = Return tt.
Proof.
  intros Hse Hsu Hev Hin Hall.
  unfold save_attendance_try, bind, query.
  rewrite Hse, Hsu. simpl. unfold get_or_create, objects_get.
  pose proof (event_unique_count db (Session.id session) (Subject.id subject)
                d Hev) as Hone.
  change (List.length (filter (event_of session subject d) (attendances db))
          <= 1)%nat in Hone.
  destruct (filter (event_of session subject d) (attendances db))
    as [|a [|a' l]]; [| |simpl in Hone; lia].
  - unfold create, objects_create. simpl.
    apply save_attendance_loop_succeeds; assumption.
  - apply save_attendance_loop_succeeds; assumption.
Qed.

(** X5.  [save_attendance] answers [OK] whenever the session and subject
    exist, the date is a date, every posted student exists, and the
    database has at most one attendance row per key and at most one
    report per student and attendance row, with distinct report keys. *)
Theorem save_attendance_succeeds
  (student_data : list student_dict) (d : date) (subject_id session_id : Z)
  (db : DB) (session : Session.t) (subject : Subject.t) :
  get_object_or_404 (fun s => Session.id s =? session_id) (sessions db)
  = Return session ->
  get_object_or_404 (fun s => Subject.id s =? subject_id) (subjects db)
  = Return subject ->
  event_unique db = true ->
  report_integrity db = true ->
  (forall sd, In sd student_data ->
     exists student,
       get_object_or_404 (fun s => Student.id s =? sd_id sd) (students db)
       = Return student) ->
  fst (save_attendance student_data (Some d) subject_id session_id db)
  = Return (HttpResponse (Text "OK")).
Proof.
  intros Hse Hsu Hev Hin Hall.
  pose proof (save_attendance_try_succeeds student_data d subject_id
                session_id db session subject Hse Hsu Hev Hin Hall) as Htry.
  unfold save_attendance, try_except, bind.
  destruct (save_attendance_try student_data (Some d) subject_id session_id db)
    as [[[]|e] db1]; simpl in *; [reflexivity|discriminate].
Qed.

(** ** What the update flow changes, and when it answers [OK] *)

Lemma report_key_count student attendance (l1 l2 : list AttendanceReport.t) :
  map report_key l1 = map report_key l2 ->
  List.length (filter (report_of student attendance) l1)
  = List.length (filter (report_of student attendance) l2).
Proof.
  revert l2. induction l1 as [|x l1 IH]; intros [|y l2] E; simpl in E;
    try discriminate; [reflexivity|].
  injection E as Eid Est Eat E. simpl.
  assert (Hxy : report_of student attendance x
                = report_of student attendance y).
  { unfold report_of. rewrite Est, Eat. reflexivity. }
  rewrite Hxy. destruct (report_of student attendance y); simpl;
    rewrite (IH l2 E); reflexivity.
Qed.

Lemma report_key_ids (l1 l2 : list AttendanceReport.t) :
  map report_key l1 = map report_key l2 ->
  map AttendanceReport.id l1 = map AttendanceReport.id l2.
Proof.
  intros E.
  assert (Hid : forall l, map AttendanceReport.id l
                          = map (fun k => fst (fst k)) (map report_key l)).
  { intros l. rewrite map_map. reflexivity. }
  rewrite (Hid l1), (Hid l2), E. reflexivity.
Qed.

(** A turn of the update loop rewrites the reports and nothing else, and
    keeps the key, student and attendance row of every report. *)
Lemma update_attendance_student_keys attendance sd db :
  NoDup (map AttendanceReport.id (reports db)) ->
  exists l,
    snd (update_attendance_student attendance sd db) = set_reports l db
    /\ map report_key l = map report_key (reports db).
Proof.
  intros Hnd.
  pose proof (update_attendance_student_cases attendance sd db) as C.
  assert (Hsame : exists l, db = set_reports l db
                            /\ map report_key l = map report_key (reports db)).
  { exists (reports db). split; [destruct db|]; reflexivity. }
  destruct (get_object_or_404 _ (students db)) as [student|e];
    [|rewrite C; exact Hsame].
  destruct (filter (report_of student attendance) (reports db))
    as [|r [|r' l]] eqn:Hf; rewrite C; try exact Hsame.
  eexists. split; [reflexivity|].
  assert (Hr : In r (reports db)).
  { apply (proj1 (filter_In (report_of student attendance) r (reports db))).
    rewrite Hf. left. reflexivity. }
  unfold instance_save. rewrite map_map. apply map_ext_in. intros x Hx.
  destruct (Z.eqb_spec (pk x) (pk (AttendanceReport.set_status (sd_status sd) r)))
    as [E|_]; [|reflexivity].
  rewrite (@pk_injective _ AttendanceReport_Model (reports db) x r
             Hnd Hx Hr E).
  reflexivity.
Qed.

(** X6.  [update_attendance] never adds or removes a report and never
    moves one to another student or attendance row: where report keys are
    distinct, every table but the reports is as before, and the reports
    are as before up to their statuses. *)
Theorem update_attendance_keeps_reports
  (student_data : list student_dict) (date : Z) (db : DB) :
  keys_distinct (reports db) = true ->
  exists l,
    snd (update_attendance student_data date db) = set_reports l db
    /\ map report_key l = map report_key (reports db).
Proof.
  intros Hk.
  assert (Hnd : NoDup (map AttendanceReport.id (reports db))).
  { change (NoDup (map pk (reports db))). apply keys_distinct_NoDup.
    exact Hk. }
  assert (Hsame : exists l, db = set_reports l db
                            /\ map report_key l = map report_key (reports db)).
  { exists (reports db). split; [destruct db|]; reflexivity. }
  unfold update_attendance, try_except, bind.
  assert (Htry : exists l,
            snd (update_attendance_try student_data date db) = set_reports l db
            /\ map report_key l = map report_key (reports db)).
  { unfold update_attendance_try, bind, query.
    destruct (get_object_or_404 _ (attendances db)) as [attendance|e];
      [|exact Hsame].
    apply (for_each_preserves
             (fun d => exists l, d = set_reports l db
                                 /\ map report_key l
                                    = map report_key (reports db)));
      [|exact Hsame].
    intros x d (l & -> & Hl).
    destruct (update_attendance_student_keys attendance x (set_reports l db))
      as (l' & -> & Hl').
    { cbn [reports set_reports]. rewrite (report_key_ids _ _ Hl). exact Hnd. }
    exists l'. split; [reflexivity|]. rewrite Hl'. exact Hl. }
  destruct (update_attendance_try student_data date db) as [[[]|e] db1];
    exact Htry.
Qed.

(** The loop of the update flow returns exactly when every posted
    identifier is the account of one student who has one report. *)
Lemma update_attendance_loop_iff attendance :
  forall l db,
    NoDup (map AttendanceReport.id (reports db)) ->
    fst (for_each l (update_attendance_student attendance) db) = Return tt
    <-> (forall sd, In sd l ->
           exists student,
             get_object_or_404 (fun s => Student.admin_id s =? sd_id sd)
               (students db) = Return student
             /\ List.length (filter (report_of student attendance)
                               (reports db)) = 1%nat).
Proof.
  induction l as [|a l IH]; intros db Hnd.
  - simpl. split; [intros _ sd []|reflexivity].
  - simpl. unfold bind.
    pose proof (update_attendance_student_cases attendance a db) as C.
    destruct (update_attendance_student_keys attendance a db Hnd)
      as (rs & Hfr & Hkeys).
    destruct (get_object_or_404 (fun s => Student.admin_id s =? sd_id a)
                (students db)) as [student|e] eqn:Hs.
    + destruct (filter (report_of student attendance) (reports db))
        as [|r [|r' l']] eqn:Hf; rewrite C in *; simpl.
      * split; [discriminate|]. intros Hall.
        destruct (Hall a (or_introl eq_refl)) as (s & Hs' & Hlen).
        rewrite Hs in Hs'. inversion Hs'; subst s.
        rewrite Hf in Hlen. discriminate.
      * simpl in Hfr.
        assert (Hnd1 : NoDup (map AttendanceReport.id
                                (reports (set_reports rs db)))).
        { cbn [reports set_reports]. rewrite (report_key_ids _ _ Hkeys).
          exact Hnd. }
        rewrite Hfr. rewrite (IH (set_reports rs db) Hnd1).
        cbn [reports students set_reports].
        split; intros Hall sd Hsd.
        -- destruct Hsd as [<-|Hsd].
           ++ exists student. rewrite Hf. auto.
           ++ destruct (Hall sd Hsd) as (s & Hs' & Hlen).
              exists s. split; [exact Hs'|].
              rewrite <- (report_key_count s attendance _ _ Hkeys).
              exact Hlen.
        -- destruct (Hall sd (or_intror Hsd)) as (s & Hs' & Hlen).
           exists s. split; [exact Hs'|].
           rewrite (report_key_count s attendance _ _ Hkeys). exact Hlen.
      * split; [discriminate|]. intros Hall.
        destruct (Hall a (or_introl eq_refl)) as (s & Hs' & Hlen).
        rewrite Hs in Hs'. inversion Hs'; subst s.
        rewrite Hf in Hlen. discriminate.
    + rewrite C. simpl. split; [discriminate|]. intros Hall.
      destruct (Hall a (or_introl eq_refl)) as (s & Hs' & _).
      rewrite Hs in Hs'. discriminate.
Qed.

(** X7.  Where report keys are distinct and the attendance row exists,
    [update_attendance] answers [OK] exactly when every posted identifier
    is the user account of exactly one student and that student has
    exactly one report for the attendance row; in every other case it
    answers [None]. *)
Theorem update_attendance_ok_iff
  (student_data : list student_dict) (date : Z) (db : DB)
  (attendance : Attendance.t) :
  get_object_or_404 (fun a => Attendance.id a =? date) (attendances db)
  = Return attendance ->
  keys_distinct (reports db) = true ->
  (fst (update_attendance student_data date db)
   = Return (HttpResponse (Text "OK"))
   <-> forall sd, In sd student_data ->
         exists student,
           get_object_or_404 (fun s => Student.admin_id s =? sd_id sd)
             (students db) = Return student
           /\ List.length (filter (report_of student attendance)
                             (reports db)) = 1%nat)
  /\ (fst (update_attendance student_data date db)
      = Return (HttpResponse (Text "OK"))
      \/ fst (update_attendance student_data date db) = Return ReturnNone).
Proof.
  intros Ha Hk.
  assert (Hnd : NoDup (map AttendanceReport.id (reports db))).
  { change (NoDup (map pk (reports db))). apply keys_distinct_NoDup.
    exact Hk. }
  pose proof (update_attendance_loop_iff attendance student_data db Hnd)
    as Hloop.
  unfold update_attendance, update_attendance_try, try_except, bind, query.
  rewrite Ha.
  destruct (for_each student_data (update_attendance_student attendance) db)
    as [[[]|e] db1]; simpl in *.
  - split; [|left; reflexivity]. split; [intros _|reflexivity].
    apply Hloop. reflexivity.
  - split; [|right; reflexivity]. split; [discriminate|].
    intros Hall. apply Hloop in Hall. discriminate.
Qed.

(** ** Results: what is refused, what is overwritten, what is read back *)

(** X8.  [staff_add_result] stores nothing when it should not: a user who
    is no staff member gets the exception of the lookup ([Http404]) on any
    method; a GET renders the page without a message; and a POST naming a
    student or subject that cannot be looked up, or carrying a score that
    is not a number, renders the page with the warning, also when a
    result row of the pair exists. *)
Theorem staff_add_result_rejects
  (request_user student_id subject_id : Z) (test exam : option float)
  (db : DB) :
  (forall e method,
      get_object_or_404 (fun s => Staff.admin_id s =? request_user) (staffs db)
      = Raise e ->
      staff_add_result request_user method student_id subject_id test exam db
      = (Raise e, db))
  /\ forall staff,
       get_object_or_404 (fun s => Staff.admin_id s =? request_user)
         (staffs db) = Return staff ->
       staff_add_result request_user GET student_id subject_id test exam db
       = (Return (render "staff_template/staff_add_result.html" []), db)
       /\ ((exists e, get_object_or_404 (fun s => Student.id s =? student_id)
                        (students db) = Raise e)
           \/ (exists e, get_object_or_404
                           (fun s => Subject.id s =? subject_id)
                           (subjects db) = Raise e)
           \/ test = None \/ exam = None ->
           staff_add_result request_user POST student_id subject_id test exam
             db
           = (Return (render "staff_template/staff_add_result.html"
                        [(warning, "Error Occured While Processing Form")]),
              db)).
Proof.
  split.
  - intros e method Hst. unfold staff_add_result, bind, query.
    rewrite Hst. reflexivity.
  - intros staff Hst. split.
    + unfold staff_add_result, bind, query. rewrite Hst. reflexivity.
    + intros Hbad. unfold staff_add_result, bind, query, try_except.
      rewrite Hst.
      destruct (get_object_or_404 _ (students db)) as [student|e1];
        [|reflexivity].
      destruct (get_object_or_404 _ (subjects db)) as [subject|e2];
        [|reflexivity].
      destruct Hbad as [[e He]|[[e He]|[-> | ->]]]; try discriminate.
      * unfold to_float.
        destruct (objects_get _ (results db)), exam as [x|];
          try destruct (is_nan x); reflexivity.
      * unfold to_float.
        destruct (objects_get _ (results db)), test as [x|];
          try destruct (is_nan x); reflexivity.
Qed.



(** ** What the listings offer, and what the writers accept *)

(** A [collect] that returns has run its function on every element. *)
Lemma collect_return {A B} (f : A -> M B) (Q : A -> B -> Prop) :
  (forall x db y db', f x db = (Return y, db') -> Q x y) ->
  forall l db ys db',
    collect l f db = (Return ys, db') -> Forall2 Q l ys.
Proof.
  intros Hf. induction l as [|x l IH]; intros db ys db' Hrun; simpl in Hrun.
  - unfold ret in Hrun. inversion Hrun; subst. constructor.
  - unfold bind in Hrun.
    destruct (f x db) as [[y|e] db1] eqn:Hx; [|discriminate].
    destruct (collect l f db1) as [[ys'|e] db2] eqn:Hl; [|discriminate].
    unfold ret in Hrun. inversion Hrun; subst.
    constructor; [exact (Hf _ _ _ _ Hx)|exact (IH _ _ _ Hl)].
Qed.

Lemma listed_ids_of {A} (g : A -> Z) (l : list A) (ys : list json) :
  Forall2 (fun x y => entry_id y = [g x]) l ys ->
  flat_map entry_id ys = map g l.
Proof.
  induction 1 as [|x y l ys Hxy _ IH]; simpl; [reflexivity|].
  rewrite Hxy, IH. reflexivity.
Qed.

(** The listing of [get_students], read back. *)
Lemma get_students_listing
  (subject_id session_id : Z) (db : DB) (content : Content) :
  fst (get_students subject_id session_id db)
  = Return (JsonResponse content) ->
  exists subject session,
    get_object_or_404 (fun s => Subject.id s =? subject_id) (subjects db)
    = Return subject
    /\ get_object_or_404 (fun s => Session.id s =? session_id) (sessions db)
       = Return session
    /\ listed_ids (JsonResponse content)
       = map Student.id
           (filter (enrolled (Subject.course_id subject) (Session.id session))
              (students db)).
Proof.
  unfold get_students, try_except, bind, query.
  destruct (get_object_or_404 _ (subjects db)) as [subject|e] eqn:Hsu;
    [|discriminate].
  destruct (get_object_or_404 _ (sessions db)) as [session|e] eqn:Hse;
    [|discriminate].
  destruct (objects_get _ (courses db)) as [course|e] eqn:Hco;
    [|discriminate].
  apply objects_get_Return in Hco.
  assert (Hcourse : Course.id course = Subject.course_id subject).
  { assert (Hc : In course (courses db)
                 /\ (Course.id course =? Subject.course_id subject) = true).
    { apply (proj1 (filter_In
                      (fun c => Course.id c =? Subject.course_id subject)
                      course (courses db))).
      rewrite Hco. left. reflexivity. }
    apply Z.eqb_eq. apply Hc. }
  match goal with
  | |- context [collect ?l ?f db] =>
      destruct (collect l f db) as [[ys|e] db1] eqn:Hl; [|discriminate];
      pose proof (collect_return f
                    (fun x y => entry_id y = [Student.id x])) as Hcol
  end.
  simpl. intros Hresp. inversion Hresp; subst content. clear Hresp.
  exists subject, session. split; [reflexivity|]. split; [reflexivity|].
  simpl. rewrite <- Hcourse.
  apply listed_ids_of. apply (Hcol) with (db := db) (db' := db1);
    [|exact Hl].
  intros x d y d'. unfold bind, query, ret.
  destruct (objects_get _ (users d)); [|discriminate].
  intros Hy. inversion Hy; subst. reflexivity.
Qed.

(** X11.  [get_students] writes nothing, and when it answers a listing,
    the subject and the session exist and the listing offers, in the order
    of the table, the keys of the student rows enrolled in the subject's
    course and in the session: all of them and no other. *)
Theorem get_students_lists_the_enrolled
  (subject_id session_id : Z) (db : DB) (content : Content) :
  fst (get_students subject_id session_id db)
  = Return (JsonResponse content) ->
  snd (get_students subject_id session_id db) = db
  /\ exists subject session,
       get_object_or_404 (fun s => Subject.id s =? subject_id) (subjects db)
       = Return subject
       /\ get_object_or_404 (fun s => Session.id s =? session_id)
            (sessions db) = Return session
       /\ listed_ids (JsonResponse content)
          = map Student.id
              (filter (enrolled (Subject.course_id subject)
                         (Session.id session)) (students db)).
Proof.
  intros Hresp. split.
  - apply (get_students_reads subject_id session_id db).
  - apply get_students_listing. exact Hresp.
Qed.

(** In a table distinct on a column, a row is the only one with its
    value. *)
Lemma distinct_by_filter_self {R} (k : R -> Z) (rows : list R) (s : R) :
  distinct_by (fun a b => k a =? k b) rows = true ->
  In s rows ->
  filter (fun x => k x =? k s) rows = [s].
Proof.
  induction rows as [|x rows IH]; simpl; [intros _ []|].
  intros E Hin. apply andb_prop in E. destruct E as [Ex Erows].
  apply negb_true_iff in Ex.
  assert (Hrest : forall y, In y rows -> (k x =? k y) = false).
  { intros y Hy. destruct (k x =? k y) eqn:Exy; [|reflexivity].
    assert (Hex : existsb (fun b => k x =? k b) rows = true).
    { apply existsb_exists. exists y. auto. }
    congruence. }
  destruct Hin as [->|Hin].
  - rewrite Z.eqb_refl. f_equal.
    clear -Hrest. induction rows as [|y rows IH]; simpl; [reflexivity|].
    rewrite Z.eqb_sym, (Hrest y) by (left; reflexivity).
    apply IH. intros z Hz. apply Hrest. right. exact Hz.
  - rewrite (Hrest s Hin). apply IH; assumption.
Qed.

(** X12.  What [get_students] offers, [save_attendance] accepts: when the
    listing was answered for a subject and a session, any batch made of
    listed identifiers, with any statuses and any date, is answered [OK]
    for that subject and session, provided student keys are distinct,
    there is at most one attendance row per key and at most one report
    per student and attendance row. *)
Theorem get_students_then_save_attendance
  (subject_id session_id : Z) (db : DB) (content : Content)
  (student_data : list student_dict) (d : date) :
  fst (get_students subject_id session_id db)
  = Return (JsonResponse content) ->
  keys_distinct (students db) = true ->
  event_unique db = true ->
  report_integrity db = true ->
  (forall sd, In sd student_data ->
              In (sd_id sd) (listed_ids (JsonResponse content))) ->
  fst (save_attendance student_data (Some d) subject_id session_id db)
  = Return (HttpResponse (Text "OK")).
Proof.
  intros Hresp Hk Hev Hin Hall.
  destruct (get_students_listing subject_id session_id db content Hresp)
    as (subject & session & Hsu & Hse & Hids).
  assert (Hfound : forall sd, In sd student_data ->
            exists student,
              get_object_or_404 (fun s => Student.id s =? sd_id sd)
                (students db) = Return student).
  { intros sd Hsd. specialize (Hall sd Hsd). rewrite Hids in Hall.
    apply in_map_iff in Hall. destruct Hall as (s & Hid & Hs).
    apply filter_In in Hs. destruct Hs as [Hs _].
    exists s. apply get_object_or_404_Return. rewrite <- Hid.
    apply (distinct_by_filter_self Student.id (students db) s Hk Hs). }
  pose proof (save_attendance_try_succeeds student_data d subject_id
                session_id db session subject Hse Hsu Hev Hin Hfound)
    as Htry.
  unfold save_attendance, try_except, bind.
  destruct (save_attendance_try student_data (Some d) subject_id session_id db)
    as [[[]|e] db1]; simpl in *; [reflexivity|discriminate].
Qed.

(** A [collect] of a function that only reads, run from [db]. *)
Lemma collect_return_at {A B} (f : A -> M B) (Q : A -> B -> Prop) db :
  (forall x d, snd (f x d) = d) ->
  (forall x y d', f x db = (Return y, d') -> Q x y) ->
  forall l ys db', collect l f db = (Return ys, db') -> Forall2 Q l ys.
Proof.
  intros Hreads Hf. induction l as [|x l IH]; intros ys db' Hrun;
    simpl in Hrun.
  - unfold ret in Hrun. inversion Hrun; subst. constructor.
  - unfold bind in Hrun. pose proof (Hreads x db) as Hx1.
    destruct (f x db) as [[y|e] db1] eqn:Hx; [|discriminate].
    simpl in Hx1. subst db1.
    destruct (collect l f db) as [[ys'|e] db2] eqn:Hl; [|discriminate].
    unfold ret in Hrun. inversion Hrun; subst.
    constructor; [exact (Hf _ _ _ Hx)|exact (IH _ _ eq_refl)].
Qed.

Lemma Forall2_listed {A} (Q : A -> Z -> Prop) (l : list A) (ys : list json) :
  Forall2 (fun x y => exists i, entry_id y = [i] /\ Q x i) l ys ->
  Forall2 Q l (flat_map entry_id ys).
Proof.
  induction 1 as [|x y l ys (i & Hy & HQ) _ IH]; simpl; [constructor|].
  rewrite Hy. simpl. constructor; assumption.
Qed.

(** The listing of [get_student_attendance], read back: one identifier
    per report of the attendance row, and it is the user account of the
    student of that report. *)
Lemma get_student_attendance_listing
  (attendance_date_id : Z) (db : DB) (content : Content) :
  fst (get_student_attendance attendance_date_id db)
  = Return (JsonResponse content) ->
  exists attendance,
    get_object_or_404 (fun a => Attendance.id a =? attendance_date_id)
      (attendances db) = Return attendance
    /\ Forall2
         (fun r i =>
            exists student,
              objects_get
                (fun s => Student.id s =? AttendanceReport.student_id r)
                (students db) = Return student
              /\ Student.admin_id student = i)
         (filter (fun r => AttendanceReport.attendance_id r
                           =? Attendance.id attendance) (reports db))
         (listed_ids (JsonResponse content)).
Proof.
  unfold get_student_attendance, try_except, bind at 1, query at 1.
  destruct (get_object_or_404 _ (attendances db)) as [attendance|e] eqn:Ha;
    [|discriminate].
  unfold bind at 1, query at 1. unfold bind at 1.
  match goal with
  | |- context [collect ?l ?f db] =>
      destruct (collect l f db) as [[ys|e] db1] eqn:Hl; [|discriminate];
      pose proof (collect_return_at f
        (fun r y => exists i, entry_id y = [i]
           /\ exists student,
                objects_get
                  (fun s => Student.id s =? AttendanceReport.student_id r)
                  (students db) = Return student
                /\ Student.admin_id student = i) db) as Hcol
  end.
  simpl. intros Hresp. inversion Hresp; subst content. clear Hresp.
  exists attendance. split; [reflexivity|].
  simpl. apply Forall2_listed. apply (Hcol) with (db' := db1); [| |exact Hl].
  - intros x d. unfold bind, query, ret.
    destruct (objects_get _ (students d)); [|reflexivity].
    destruct (objects_get _ (users d)); reflexivity.
  - intros x y d'. unfold bind, query, ret.
    destruct (objects_get _ (students db)) as [student|e] eqn:Hs;
      [|discriminate].
    destruct (objects_get _ (users db)) as [admin|e] eqn:Hu; [|discriminate].
    intros Hy. injection Hy as Hy _. subst y.
    exists (CustomUser.id admin). split; [reflexivity|].
    exists student. split; [reflexivity|].
    apply objects_get_Return in Hu.
    assert (Hin : In admin (users db)
                  /\ (CustomUser.id admin =? Student.admin_id student) = true).
    { apply (proj1 (filter_In
                      (fun u => CustomUser.id u =? Student.admin_id student)
                      admin (users db))).
      rewrite Hu. left. reflexivity. }
    symmetry. apply Z.eqb_eq. apply Hin.
Qed.

(** X13.  [get_student_attendance] writes nothing, and when it answers a
    listing, the attendance row exists and the listing offers, for each
    report of that row in the order of the table, the key of the user
    account of the report's student (not the key of the student row). *)
Theorem get_student_attendance_lists_accounts
  (attendance_date_id : Z) (db : DB) (content : Content) :
  fst (get_student_attendance attendance_date_id db)
  = Return (JsonResponse content) ->
  snd (get_student_attendance attendance_date_id db) = db
  /\ exists attendance,
       get_object_or_404 (fun a => Attendance.id a =? attendance_date_id)
         (attendances db) = Return attendance
       /\ Forall2
            (fun r i =>
               exists student,
                 objects_get
                   (fun s => Student.id s =? AttendanceReport.student_id r)
                   (students db) = Return student
                 /\ Student.admin_id student = i)
            (filter (fun r => AttendanceReport.attendance_id r
                              =? Attendance.id attendance) (reports db))
            (listed_ids (JsonResponse content)).
Proof.
  intros Hresp. split.
  - apply (get_student_attendance_reads attendance_date_id db).
  - apply get_student_attendance_listing. exact Hresp.
Qed.

Lemma Forall2_In_right {A B} (Q : A -> B -> Prop) (l : list A) (l' : list B) :
  Forall2 Q l l' -> forall y, In y l' -> exists x, In x l /\ Q x y.
Proof.
  induction 1 as [|x y l l' Hxy _ IH]; intros z Hz; [destruct Hz|].
  destruct Hz as [<-|Hz].
  - exists x. split; [left; reflexivity|exact Hxy].
  - destruct (IH z Hz) as (x' & Hx' & HQ). exists x'. split; [right|]; auto.
Qed.

(** X14.  What [get_student_attendance] offers, [update_attendance]
    accepts: when the listing was answered for an attendance row, any
    batch made of listed identifiers, with any statuses, is answered [OK]
    for that row, provided no two student rows share a user account and
    the reports have distinct keys and at most one report per student and
    attendance row. *)
Theorem get_student_attendance_then_update
  (attendance_date_id : Z) (db : DB) (content : Content)
  (student_data : list student_dict) :
  fst (get_student_attendance attendance_date_id db)
  = Return (JsonResponse content) ->
  students_one_to_one db = true ->
  report_integrity db = true ->
  (forall sd, In sd student_data ->
              In (sd_id sd) (listed_ids (JsonResponse content))) ->
  fst (update_attendance student_data attendance_date_id db)
  = Return (HttpResponse (Text "OK")).
Proof.
  intros Hresp Hone Hin Hall.
  destruct (get_student_attendance_listing attendance_date_id db content
              Hresp) as (attendance & Ha & Hlist).
  destruct (report_integrity_parts db Hin) as [Hnd Hd].
  assert (Hfound : forall sd, In sd student_data ->
            exists student,
              get_object_or_404 (fun s => Student.admin_id s =? sd_id sd)
                (students db) = Return student
              /\ List.length (filter (report_of student attendance)
                                (reports db)) = 1%nat).
  { intros sd Hsd.
    destruct (Forall2_In_right _ _ _ Hlist (sd_id sd) (Hall sd Hsd))
      as (r & Hr & student & Hs & Hacc).
    apply filter_In in Hr. destruct Hr as [Hr Hratt].
    apply objects_get_Return in Hs.
    assert (Hst : In student (students db)
                  /\ (Student.id student =? AttendanceReport.student_id r)
                     = true).
    { apply (proj1 (filter_In
                      (fun s => Student.id s =? AttendanceReport.student_id r)
                      student (students db))).
      rewrite Hs. left. reflexivity. }
    destruct Hst as [Hst Hid]. apply Z.eqb_eq in Hid.
    exists student. split.
    - apply get_object_or_404_Return. rewrite <- Hacc.
      apply (distinct_by_filter_self Student.admin_id (students db) student
               Hone Hst).
    - pose proof (distinct_on_count AttendanceReport.student_id
                    AttendanceReport.attendance_id (Student.id student)
                    (Attendance.id attendance) (reports db) Hd) as Hle.
      change (List.length (filter (report_of student attendance) (reports db))
              <= 1)%nat in Hle.
      assert (Hmem : In r (filter (report_of student attendance)
                             (reports db))).
      { apply filter_In. split; [exact Hr|].
        unfold report_of. rewrite Hid, Z.eqb_refl. exact Hratt. }
      destruct (filter (report_of student attendance) (reports db))
        as [|r0 [|r1 l]]; [destruct Hmem|reflexivity|simpl in Hle; lia]. }
  pose proof (proj2 (update_attendance_loop_iff attendance student_data db
                       Hnd) Hfound) as Hloop.
  unfold update_attendance, update_attendance_try, try_except, bind, query.
  rewrite Ha.
  destruct (for_each student_data (update_attendance_student attendance) db)
    as [[[]|e] db1]; simpl in *; [reflexivity|discriminate].
Qed.

(** ** Users: what a save stores *)

Lemma existsb_false_filter {R} (p : R -> bool) (rows : list R) :
  existsb p rows = false -> filter p rows = [].
Proof.
  induction rows as [|x rows IH]; simpl; [reflexivity|].
  destruct (p x); simpl; [discriminate|exact IH].
Qed.

(** Runs the two receivers for a tag whose table has no row for the new
    key ([Hex]) or has one ([Hex] says so, and the [create] raises). *)
Ltac receivers Hex :=
  unfold create_user_profile, save_user_profile;
  cbn [Z.eqb Pos.eqb];
  unfold bind, ret, create_one_to_one, create, objects_create, query, save,
    objects_get;
  cbn [with_pk Admin_Model Staff_Model Student_Model
       Admin.set_id Staff.set_id Student.set_id
       Admin.admin_id Staff.admin_id Student.admin_id
       Admin.id Staff.id Student.id Staff.course_id Student.course_id
       Student.session_id
       admins staffs students set_users set_admins set_staffs
       set_students fst snd];
  rewrite Hex;
  try (cbn [admins staffs students set_users set_admins set_staffs
            set_students];
       rewrite filter_app, (existsb_false_filter _ _ Hex);
       cbn [filter app Admin.admin_id Staff.admin_id Student.admin_id];
       rewrite Z.eqb_refl;
       erewrite instance_save_last by reflexivity);
  reflexivity.

(** [user.save()] for a new user, in full: a taken email stores nothing;
    otherwise the user row is stored, and with it the profile row of its
    tag, unless the tag is none of 1, 2, 3 (no profile, the call returns)
    or a profile row already claims the new key (no profile, the call
    raises). *)
Lemma CustomUser_save_effect (u : CustomUser.t) (db : DB) :
  let stored := CustomUser.set_id (next_pk (users db)) u in
  let db1 := set_users (users db ++ [stored]) db in
  let taken :=
    existsb (fun x => String.eqb (CustomUser.email x) (CustomUser.email u))
      (users db) in
  let tag := CustomUser.user_type u in
  if taken then CustomUser_save u db = (Raise IntegrityError, db)
  else if tag =? 1 then
    if existsb (fun a => Admin.admin_id a =? next_pk (users db)) (admins db)
    then CustomUser_save u db = (Raise IntegrityError, db1)
    else CustomUser_save u db
         = (Return stored,
            set_admins
              (admins db
               ++ [Admin.make (next_pk (admins db)) (next_pk (users db))])
              db1)
  else if tag =? 2 then
    if existsb (fun s => Staff.admin_id s =? next_pk (users db)) (staffs db)
    then CustomUser_save u db = (Raise IntegrityError, db1)
    else CustomUser_save u db
         = (Return stored,
            set_staffs
              (staffs db
               ++ [Staff.make (next_pk (staffs db)) None (next_pk (users db))])
              db1)
  else if tag =? 3 then
    if existsb (fun s => Student.admin_id s =? next_pk (users db))
         (students db)
    then CustomUser_save u db = (Raise IntegrityError, db1)
    else CustomUser_save u db
         = (Return stored,
            set_students
              (students db
               ++ [Student.make (next_pk (students db)) (next_pk (users db))
                     None None])
              db1)
  else CustomUser_save u db = (Return stored, db1).
Proof.
  intros stored db1 taken tag. subst taken.
  destruct (existsb _ (users db)) eqn:Htaken.
  { unfold CustomUser_save. rewrite Htaken. reflexivity. }
  rewrite (CustomUser_save_begins db u Htaken). fold stored. fold db1.
  assert (Htag : CustomUser.user_type stored = tag) by reflexivity.
  assert (Hid : CustomUser.id stored = next_pk (users db)) by reflexivity.
  destruct (Z.eqb_spec tag 1) as [E1|N1].
  { destruct (existsb _ (admins db)) eqn:Hex;
      unfold create_user_profile, save_user_profile;
      rewrite Htag, Hid, E1; subst db1; receivers Hex. }
  destruct (Z.eqb_spec tag 2) as [E2|N2].
  { destruct (existsb _ (staffs db)) eqn:Hex;
      unfold create_user_profile, save_user_profile;
      rewrite Htag, Hid, E2; subst db1; receivers Hex. }
  destruct (Z.eqb_spec tag 3) as [E3|N3].
  { destruct (existsb _ (students db)) eqn:Hex;
      unfold create_user_profile, save_user_profile;
      rewrite Htag, Hid, E3; subst db1; receivers Hex. }
  unfold create_user_profile, save_user_profile. rewrite Htag.
  destruct (Z.eqb_spec tag 1); [contradiction|].
  destruct (Z.eqb_spec tag 2); [contradiction|].
  destruct (Z.eqb_spec tag 3); [contradiction|].
  reflexivity.
Qed.

(** ** Users and profiles stay sound *)

Section ProfileTables.
Context {R : Type} `{Model R}.
Variable column : R -> Z.

Lemma profile_table_ok_more_users (us : list CustomUser.t) (u : CustomUser.t)
  (rows : list R) :
  profile_table_ok column us rows = true ->
  profile_table_ok column (us ++ [u]) rows = true.
Proof.
  unfold profile_table_ok. intros E.
  apply andb_prop in E. destruct E as [E Hfk]. rewrite E. simpl.
  rewrite forallb_forall in *. intros r Hr. specialize (Hfk r Hr).
  rewrite existsb_app, Hfk. reflexivity.
Qed.

Lemma profile_table_ok_new_row (us : list CustomUser.t) (rows : list R)
  (r : R) :
  profile_table_ok column us rows = true ->
  pk r = next_pk rows ->
  existsb (fun x => column x =? column r) rows = false ->
  existsb (fun u => CustomUser.id u =? column r) us = true ->
  profile_table_ok column us (rows ++ [r]) = true.
Proof.
  unfold profile_table_ok. intros E Hpk Hfree Hfk.
  apply andb_prop in E. destruct E as [E Hrows].
  apply andb_prop in E. destruct E as [Hkeys Hone].
  rewrite (keys_distinct_create r rows Hpk), Hkeys.
  rewrite distinct_by_snoc, Hone, Hfree.
  rewrite forallb_app, Hrows. simpl. rewrite Hfk. reflexivity.
Qed.

Lemma profile_table_ok_refers (us : list CustomUser.t) (rows : list R) :
  profile_table_ok column us rows = true ->
  forall r, In r rows -> In (column r) (map CustomUser.id us).
Proof.
  unfold profile_table_ok. intros E r Hr.
  apply andb_prop in E. destruct E as [_ Hfk].
  rewrite forallb_forall in Hfk. specialize (Hfk r Hr).
  apply existsb_exists in Hfk. destruct Hfk as (u & Hu & Eu).
  apply Z.eqb_eq in Eu. rewrite <- Eu. apply in_map. exact Hu.
Qed.
End ProfileTables.

Lemma user_integrity_tables db db' :
  users db' = users db -> admins db' = admins db ->
  staffs db' = staffs db -> students db' = students db ->
  user_integrity db = true -> user_integrity db' = true.
Proof. unfold user_integrity. intros -> -> -> ->. auto. Qed.

Lemma CustomUser_save_integrity (u : CustomUser.t) :
  keeps (fun db => user_integrity db = true) (CustomUser_save u).
Proof.
  intros db Hin. pose proof (CustomUser_save_effect u db) as Heff.
  cbv zeta in Heff.
  destruct (existsb _ (users db)) eqn:Htaken; [rewrite Heff; exact Hin|].
  set (stored := CustomUser.set_id (next_pk (users db)) u) in *.
  unfold user_integrity in Hin.
  apply andb_prop in Hin. destruct Hin as [Hin Hstu].
  apply andb_prop in Hin. destruct Hin as [Hin Hsta].
  apply andb_prop in Hin. destruct Hin as [Hin Hadm].
  apply andb_prop in Hin. destruct Hin as [Hkeys Hmail].
  assert (Hkeys1 : keys_distinct (users db ++ [stored]) = true).
  { rewrite keys_distinct_create; [exact Hkeys|reflexivity]. }
  assert (Hmail1 : distinct_by
            (fun a b => String.eqb (CustomUser.email a) (CustomUser.email b))
            (users db ++ [stored]) = true).
  { rewrite distinct_by_snoc, Hmail. simpl. apply negb_true_iff.
    exact Htaken. }
  pose proof (profile_table_ok_more_users Admin.admin_id _ stored _ Hadm)
    as Hadm1.
  pose proof (profile_table_ok_more_users Staff.admin_id _ stored _ Hsta)
    as Hsta1.
  pose proof (profile_table_ok_more_users Student.admin_id _ stored _ Hstu)
    as Hstu1.
  assert (Hself : existsb (fun x => CustomUser.id x =? next_pk (users db))
                    (users db ++ [stored]) = true).
  { rewrite existsb_app. simpl.
    replace (CustomUser.id stored =? next_pk (users db)) with true;
      [apply orb_true_r|].
    symmetry. apply Z.eqb_eq. reflexivity. }
  assert (Hbase : user_integrity (set_users (users db ++ [stored]) db) = true).
  { unfold user_integrity. cbn [users admins staffs students set_users].
    rewrite Hkeys1, Hmail1, Hadm1, Hsta1, Hstu1. reflexivity. }
  destruct (CustomUser.user_type u =? 1).
  { destruct (existsb _ (admins db)) eqn:Hex; rewrite Heff; [exact Hbase|].
    unfold user_integrity.
    cbn [snd users admins staffs students set_users set_admins].
    rewrite Hkeys1, Hmail1, Hsta1, Hstu1.
    rewrite (profile_table_ok_new_row Admin.admin_id); auto. }
  destruct (CustomUser.user_type u =? 2).
  { destruct (existsb _ (staffs db)) eqn:Hex; rewrite Heff; [exact Hbase|].
    unfold user_integrity.
    cbn [snd users admins staffs students set_users set_staffs].
    rewrite Hkeys1, Hmail1, Hadm1, Hstu1.
    rewrite (profile_table_ok_new_row Staff.admin_id); auto. }
  destruct (CustomUser.user_type u =? 3).
  { destruct (existsb _ (students db)) eqn:Hex; rewrite Heff; [exact Hbase|].
    unfold user_integrity.
    cbn [snd users admins staffs students set_users set_students].
    rewrite Hkeys1, Hmail1, Hadm1, Hsta1.
    rewrite (profile_table_ok_new_row Student.admin_id); auto. }
  rewrite Heff. exact Hbase.
Qed.

Lemma user_integrity_user_tables db db' :
  user_tables db' = user_tables db ->
  user_integrity db = true -> user_integrity db' = true.
Proof.
  unfold user_tables. intros E. injection E as Hu Ha Hs Ht.
  apply user_integrity_tables; assumption.
Qed.

Lemma save_attendance_user_tables student_data date subject_id session_id :
  preserves user_tables
    (save_attendance student_data date subject_id session_id).
Proof.
  unfold save_attendance, save_attendance_try, save_attendance_student.
  frame.
Qed.

Lemma update_attendance_user_tables student_data date :
  preserves user_tables (update_attendance student_data date).
Proof.
  unfold update_attendance, update_attendance_try, update_attendance_student.
  frame.
Qed.

Lemma staff_add_result_user_tables request_user method student_id subject_id
  test exam :
  preserves user_tables
    (staff_add_result request_user method student_id subject_id test exam).
Proof. unfold staff_add_result, to_float. frame. Qed.

Lemma EditResultView_post_user_tables form :
  preserves user_tables (EditResultView.post form).
Proof. unfold EditResultView.post. frame. Qed.

(** X15.  Users and profiles stay sound through any history of requests
    and manager calls: user keys and emails stay distinct, no user account
    gets two rows in a profile table, and every [Admin], [Staff] and
    [Student] row refers to a user that exists. *)
Theorem user_integrity_kept
  (normalize_email : string -> string) (make_password : option string -> string)
  (ops : list Operation) (db : DB) :
  user_integrity db = true ->
  let db' := perform_all normalize_email make_password ops db in
  user_integrity db' = true
  /\ (forall a, In a (admins db') ->
                In (Admin.admin_id a) (map CustomUser.id (users db')))
  /\ (forall s, In s (staffs db') ->
                In (Staff.admin_id s) (map CustomUser.id (users db')))
  /\ (forall s, In s (students db') ->
                In (Student.admin_id s) (map CustomUser.id (users db'))).
Proof.
  intros Hin db'.
  assert (H : user_integrity db' = true).
  { subst db'. revert db Hin. unfold perform_all.
    induction ops as [|op ops IH]; intros db Hin; simpl; [exact Hin|].
    apply IH. destruct op; simpl.
    - rewrite (get_students_reads subject_id session_id db). exact Hin.
    - apply (user_integrity_user_tables db); [|exact Hin].
      apply save_attendance_user_tables.
    - rewrite (get_student_attendance_reads attendance_date_id db).
      exact Hin.
    - apply (user_integrity_user_tables db); [|exact Hin].
      apply update_attendance_user_tables.
    - apply (user_integrity_user_tables db); [|exact Hin].
      apply staff_add_result_user_tables.
    - rewrite (fetch_student_result_reads subject_id student_id db).
      exact Hin.
    - apply (user_integrity_user_tables db); [|exact Hin].
      apply EditResultView_post_user_tables.
    - unfold CustomUserManager.create_user, CustomUserManager._create_user.
      apply CustomUser_save_integrity. exact Hin.
    - unfold CustomUserManager.create_superuser,
        CustomUserManager._create_user.
      repeat match goal with
             | |- context [if ?b then _ else _] => destruct b
             end; try exact Hin; apply CustomUser_save_integrity; exact Hin. }
  split; [exact H|].
  unfold user_integrity in H.
  apply andb_prop in H. destruct H as [H Hstu].
  apply andb_prop in H. destruct H as [H Hsta].
  apply andb_prop in H. destruct H as [_ Hadm].
  split; [|split].
  - apply (profile_table_ok_refers Admin.admin_id _ _ Hadm).
  - apply (profile_table_ok_refers Staff.admin_id _ _ Hsta).
  - apply (profile_table_ok_refers Student.admin_id _ _ Hstu).
Qed.

(** ** The manager: flags, assertions and a taken email *)

(** A save that returns has returned the stored row, and the email was
    free. *)
Lemma CustomUser_save_returns (u user : CustomUser.t) (db : DB) :
  fst (CustomUser_save u db) = Return user ->
  user = CustomUser.set_id (next_pk (users db)) u
  /\ existsb (fun x => String.eqb (CustomUser.email x) (CustomUser.email u))
       (users db) = false.
Proof.
  pose proof (CustomUser_save_effect u db) as Heff. cbv zeta in Heff.
  destruct (existsb _ (users db)); [rewrite Heff; discriminate|].
  intros Hret. split; [|reflexivity]. revert Hret.
  destruct (CustomUser.user_type u =? 1);
    [destruct (existsb _ (admins db)); rewrite Heff; simpl; congruence|].
  destruct (CustomUser.user_type u =? 2);
    [destruct (existsb _ (staffs db)); rewrite Heff; simpl; congruence|].
  destruct (CustomUser.user_type u =? 3);
    [destruct (existsb _ (students db)); rewrite Heff; simpl; congruence|].
  rewrite Heff. simpl. congruence.
Qed.

(** X16.  The two public calls of the manager.  [create_superuser] given
    [is_staff=False] or [is_superuser=False] fails its assertion before
    anything is stored; a user it returns has both flags set, a user
    [create_user] returns has each flag as given, or unset when left out;
    either way the user has the next key, the normalised email and the
    hashed password.  With an email that is taken, both calls raise
    [IntegrityError] and store nothing. *)
Theorem manager_flags_and_refusals
  (normalize_email : string -> string) (make_password : option string -> string)
  (email : string) (password : option string) (extra : extra_fields)
  (db : DB) :
  (ef_is_staff extra = Some false \/ ef_is_superuser extra = Some false ->
   CustomUserManager.create_superuser normalize_email make_password email
     password extra db = (Raise AssertionError, db))
  /\ (forall user,
        fst (CustomUserManager.create_superuser normalize_email make_password
               email password extra db) = Return user ->
        CustomUser.is_staff user = true
        /\ CustomUser.is_superuser user = true
        /\ CustomUser.id user = next_pk (users db)
        /\ CustomUser.email user = normalize_email email
        /\ CustomUser.password user = make_password password)
  /\ (forall user,
        fst (CustomUserManager.create_user normalize_email make_password
               email password extra db) = Return user ->
        CustomUser.is_staff user = field_or (ef_is_staff extra) false
        /\ CustomUser.is_superuser user
           = field_or (ef_is_superuser extra) false
        /\ CustomUser.id user = next_pk (users db)
        /\ CustomUser.email user = normalize_email email
        /\ CustomUser.password user = make_password password)
  /\ (existsb (fun x => String.eqb (CustomUser.email x) (normalize_email email))
        (users db) = true ->
      CustomUserManager.create_user normalize_email make_password email
        password extra db = (Raise IntegrityError, db)
      /\ (ef_is_staff extra <> Some false ->
          ef_is_superuser extra <> Some false ->
          CustomUserManager.create_superuser normalize_email make_password
            email password extra db = (Raise IntegrityError, db))).
Proof.
  split; [|split; [|split]].
  - unfold CustomUserManager.create_superuser. simpl.
    intros [E|E]; rewrite E; simpl; [reflexivity|].
    destruct (ef_is_staff extra) as [[]|]; reflexivity.
  - intros user. unfold CustomUserManager.create_superuser. simpl.
    destruct (ef_is_staff extra) as [[]|]; simpl; try discriminate;
      destruct (ef_is_superuser extra) as [[]|]; simpl; try discriminate;
      unfold CustomUserManager._create_user; intros Hret;
      apply CustomUser_save_returns in Hret; destruct Hret as [-> _];
      repeat split; reflexivity.
  - intros user.
    unfold CustomUserManager.create_user, CustomUserManager._create_user.
    intros Hret. apply CustomUser_save_returns in Hret.
    destruct Hret as [-> _].
    destruct (ef_is_staff extra), (ef_is_superuser extra);
      repeat split; reflexivity.
  - intros Htaken. split.
    + unfold CustomUserManager.create_user, CustomUserManager._create_user,
        CustomUser_save.
      cbn [CustomUser.email]. rewrite Htaken. reflexivity.
    + intros Hs Hp. unfold CustomUserManager.create_superuser. simpl.
      destruct (ef_is_staff extra) as [[]|]; try contradiction; simpl;
        destruct (ef_is_superuser extra) as [[]|]; try contradiction; simpl;
        unfold CustomUserManager._create_user, CustomUser_save;
        cbn [CustomUser.email]; rewrite Htaken; reflexivity.
Qed.

(** ** When the listings are answered *)

(** A [collect] of a function that reads and returns on every element of
    the list returns, in the same state. *)
Lemma collect_succeeds {A B} (f : A -> M B) db :
  forall l,
    (forall x, In x l -> exists y, f x db = (Return y, db)) ->
    exists ys, collect l f db = (Return ys, db).
Proof.
  induction l as [|x l IH]; intros Hall; simpl.
  - exists []. reflexivity.
  - destruct (Hall x (or_introl eq_refl)) as [y Hy].
    destruct IH as [ys Hys]; [intros z Hz; apply Hall; right; exact Hz|].
    exists (y :: ys). unfold bind. rewrite Hy, Hys. reflexivity.
Qed.

(** In a sound database every student's user account is found. *)
Lemma student_account_found db (s : Student.t) :
  user_integrity db = true -> In s (students db) ->
  exists u,
    objects_get (fun u => CustomUser.id u =? Student.admin_id s) (users db)
    = Return u.
Proof.
  unfold user_integrity. intros H Hs.
  apply andb_prop in H. destruct H as [H Hstu].
  apply andb_prop in H. destruct H as [H _].
  apply andb_prop in H. destruct H as [H _].
  apply andb_prop in H. destruct H as [Hkeys _].
  pose proof (profile_table_ok_refers Student.admin_id _ _ Hstu s Hs) as Hin.
  apply in_map_iff in Hin. destruct Hin as (u & Eu & Hu).
  exists u. apply objects_get_Return. rewrite <- Eu.
  apply (distinct_by_filter_self CustomUser.id (users db) u Hkeys Hu).
Qed.

(** X17.  In a database whose users and profiles are sound,
    [get_students] answers a listing, not an exception, whenever the
    subject, its course and the session exist. *)
Theorem get_students_answers
  (subject_id session_id : Z) (db : DB) (subject : Subject.t)
  (session : Session.t) (course : Course.t) :
  get_object_or_404 (fun s => Subject.id s =? subject_id) (subjects db)
  = Return subject ->
  get_object_or_404 (fun s => Session.id s =? session_id) (sessions db)
  = Return session ->
  objects_get (fun c => Course.id c =? Subject.course_id subject) (courses db)
  = Return course ->
  user_integrity db = true ->
  exists entries,
    get_students subject_id session_id db
    = (Return (JsonResponse (json_dumps (JList entries))), db)
    /\ List.length entries
       = List.length
           (filter (enrolled (Subject.course_id subject) (Session.id session))
              (students db)).
Proof.
  intros Hsu Hse Hco Hin.
  assert (Hcourse : Course.id course = Subject.course_id subject).
  { apply objects_get_Return in Hco.
    assert (Hc : In course (courses db)
                 /\ (Course.id course =? Subject.course_id subject) = true).
    { apply (proj1 (filter_In
                      (fun c => Course.id c =? Subject.course_id subject)
                      course (courses db))).
      rewrite Hco. left. reflexivity. }
    apply Z.eqb_eq. apply Hc. }
  unfold get_students, try_except, bind at 1, query at 1. rewrite Hsu.
  unfold bind at 1, query at 1. rewrite Hse.
  unfold bind at 1, query at 1. rewrite Hco.
  unfold bind at 1, query at 1. unfold bind at 1.
  match goal with
  | |- context [collect ?l ?f db] =>
      destruct (collect_succeeds f db l) as [ys Hys];
      [|pose proof (collect_return f (fun _ _ => True)
                      (fun _ _ _ _ _ => I) l db ys db Hys) as Hlen]
  end.
  - intros s Hs. apply filter_In in Hs. destruct Hs as [Hs _].
    destruct (student_account_found db s Hin Hs) as [u Hu].
    eexists. unfold bind, query, ret. rewrite Hu. reflexivity.
  - rewrite Hys. exists ys. split; [reflexivity|].
    apply Forall2_length in Hlen. rewrite <- Hlen, Hcourse. reflexivity.
Qed.

(** X18.  In a database whose users and profiles are sound, whose student
    keys are distinct and whose reports are all of existing students,
    [get_student_attendance] answers a listing, not an exception, whenever
    the attendance row exists, with one entry per report of that row. *)
Theorem get_student_attendance_answers
  (attendance_date_id : Z) (db : DB) (attendance : Attendance.t) :
  get_object_or_404 (fun a => Attendance.id a =? attendance_date_id)
    (attendances db) = Return attendance ->
  user_integrity db = true ->
  keys_distinct (students db) = true ->
  reports_have_students db = true ->
  exists entries,
    get_student_attendance attendance_date_id db
    = (Return (JsonResponse (json_dumps (JList entries))), db)
    /\ List.length entries
       = List.length
           (filter (fun r => AttendanceReport.attendance_id r
                             =? Attendance.id attendance) (reports db)).
Proof.
  intros Ha Hin Hkeys Hrefs.
  unfold get_student_attendance, try_except, bind at 1, query at 1.
  rewrite Ha. unfold bind at 1, query at 1. unfold bind at 1.
  match goal with
  | |- context [collect ?l ?f db] =>
      destruct (collect_succeeds f db l) as [ys Hys];
      [|pose proof (collect_return f (fun _ _ => True)
                      (fun _ _ _ _ _ => I) l db ys db Hys) as Hlen]
  end.
  - intros r Hr. apply filter_In in Hr. destruct Hr as [Hr _].
    unfold reports_have_students in Hrefs.
    rewrite forallb_forall in Hrefs. specialize (Hrefs r Hr).
    apply existsb_exists in Hrefs. destruct Hrefs as (s & Hs & Es).
    apply Z.eqb_eq in Es.
    assert (Hget : objects_get
                     (fun x => Student.id x =? AttendanceReport.student_id r)
                     (students db) = Return s).
    { apply objects_get_Return. rewrite <- Es.
      apply (distinct_by_filter_self Student.id (students db) s Hkeys Hs). }
    destruct (student_account_found db s Hin Hs) as [u Hu].
    eexists. unfold bind, query, ret. rewrite Hget, Hu. reflexivity.
  - rewrite Hys. exists ys. split; [reflexivity|].
    apply Forall2_length in Hlen. rewrite <- Hlen. reflexivity.
Qed.

(** ** The staff home page *)

Lemma collect_pure {A B} (f : A -> M B) (g : A -> B) db :
  (forall x, f x db = (Return (g x), db)) ->
  forall l, collect l f db = (Return (map g l), db).
Proof.
  intros Hf. induction l as [|x l IH]; simpl; [reflexivity|].
  unfold bind. rewrite Hf, IH. reflexivity.
Qed.

Lemma distinct_by_filter {R} (same : R -> R -> bool) (p : R -> bool)
  (rows : list R) :
  distinct_by same rows = true -> distinct_by same (filter p rows) = true.
Proof.
  induction rows as [|x rows IH]; simpl; [reflexivity|].
  intros E. apply andb_prop in E. destruct E as [Ex Erows].
  destruct (p x); simpl; [|auto]. rewrite IH by exact Erows.
  rewrite andb_true_r. apply negb_true_iff. apply negb_true_iff in Ex.
  clear -Ex. induction rows as [|y rows IH]; simpl in *; [reflexivity|].
  apply orb_false_iff in Ex. destruct Ex as [Ey Ex].
  destruct (p y); simpl; [rewrite Ey|]; auto.
Qed.

Lemma filter_or_length {R} (p q : R -> bool) (rows : list R) :
  (forall x, p x = true -> q x = false) ->
  List.length (filter (fun x => p x || q x) rows)
  = (List.length (filter p rows) + List.length (filter q rows))%nat.
Proof.
  intros Hpq. induction rows as [|x rows IH]; simpl; [reflexivity|].
  destruct (p x) eqn:Hp; simpl.
  - rewrite (Hpq x Hp), IH. reflexivity.
  - destruct (q x); simpl; rewrite IH; lia.
Qed.

(** Counting the attendance rows of several subjects at once gives the
    sum of the counts per subject, where the subjects have distinct
    keys. *)
Lemma attendance_count_sum (taught : list Subject.t)
  (rows : list Attendance.t) :
  distinct_by (fun a b => Subject.id a =? Subject.id b) taught = true ->
  List.length
    (filter (fun a => existsb (fun s => Subject.id s =? Attendance.subject_id a)
                        taught) rows)
  = list_sum
      (map (fun subject =>
              List.length
                (filter (fun a => Attendance.subject_id a
                                  =? Subject.id subject) rows))
         taught).
Proof.
  assert (Hsum : forall c l, list_sum (c :: l) = (c + list_sum l)%nat)
    by reflexivity.
  induction taught as [|s taught IH]; cbn [existsb map]; intros Hd.
  - induction rows as [|a rows IHr]; [reflexivity|exact IHr].
  - cbn [distinct_by] in Hd. apply andb_prop in Hd. destruct Hd as [Hs Hd].
    apply negb_true_iff in Hs. rewrite Hsum, <- (IH Hd).
    rewrite <- (filter_or_length
                  (fun a => Attendance.subject_id a =? Subject.id s)
                  (fun a => existsb (fun x => Subject.id x
                                              =? Attendance.subject_id a)
                              taught)).
    + f_equal. apply filter_ext. intros a.
      rewrite (Z.eqb_sym (Subject.id s)). reflexivity.
    + intros a Ea. apply Z.eqb_eq in Ea. rewrite Ea, <- Hs.
      apply existsb_ext_in. intros x _. apply Z.eqb_sym.
Qed.

Lemma staff_home_reads request_user leave_reports :
  preserves (fun db => db) (staff_home request_user leave_reports).
Proof. unfold staff_home. frame. Qed.

(** X19.  [staff_home] writes nothing.  When it returns its context, the
    user is a staff member, the chart has one subject name and one count
    per subject the member teaches, in the same order, the totals of
    subjects and leave reports are the member's, and, where subject keys
    are distinct, the counts of the chart add up to the total of
    attendance rows shown beside it. *)
Theorem staff_home_chart
  (request_user : Z) (leave_reports : list LeaveReportStaff.t) (db : DB)
  (context : home_context) :
  fst (staff_home request_user leave_reports db) = Return context ->
  snd (staff_home request_user leave_reports db) = db
  /\ exists staff,
       get_object_or_404 (fun s => Staff.admin_id s =? request_user)
         (staffs db) = Return staff
       /\ subject_list context
          = map Subject.name
              (filter (fun s => Subject.staff_id s =? Staff.id staff)
                 (subjects db))
       /\ List.length (attendance_list context) = total_subject context
       /\ List.length (subject_list context) = total_subject context
       /\ total_leave context
          = List.length
              (filter (fun l => LeaveReportStaff.staff_id l
                                =? Staff.id staff) leave_reports)
       /\ (keys_distinct (subjects db) = true ->
           list_sum (attendance_list context) = total_attendance context).
Proof.
  intros Hret. split; [apply (staff_home_reads request_user leave_reports db)|].
  revert Hret.
  unfold staff_home, bind at 1, query at 1.
  destruct (get_object_or_404 _ (staffs db)) as [staff|e] eqn:Hst;
    [|discriminate].
  unfold bind at 1.
  assert (Hcourse : exists o,
            (match Staff.course_id staff with
             | Some c =>
                 found <- query courses
                   (objects_get (fun x => Course.id x =? c)) ;;
                 ret (Some found)
             | None => ret None
             end) db = (o, db)).
  { destruct (Staff.course_id staff); [|eexists; reflexivity].
    unfold bind, query, ret. destruct (objects_get _ (courses db));
      eexists; reflexivity. }
  destruct Hcourse as [o Ho]. rewrite Ho.
  destruct o as [course|e]; [|discriminate].
  unfold bind at 1, query at 1. unfold bind at 1, query at 1.
  unfold bind at 1, query at 1. unfold bind at 1.
  set (taught := filter (fun s => Subject.staff_id s =? Staff.id staff)
                   (subjects db)).
  rewrite (collect_pure _
             (fun subject =>
                (Subject.name subject,
                 List.length
                   (filter (fun a => Attendance.subject_id a
                                     =? Subject.id subject)
                      (attendances db)))) db) by reflexivity.
  unfold bind, query, ret.
  destruct (objects_get _ (users db)) as [admin|e]; [|discriminate].
  simpl. intros Hctx. injection Hctx as <-.
  exists staff. split; [reflexivity|].
  cbn [subject_list attendance_list total_subject total_leave
       total_attendance].
  rewrite !map_map. cbn [fst snd]. rewrite !length_map.
  repeat split; try reflexivity.
  intros Hkeys. symmetry.
  rewrite <- (map_map
                (fun subject =>
                   (Subject.name subject,
                    List.length
                      (filter (fun a => Attendance.subject_id a
                                        =? Subject.id subject)
                         (attendances db)))) snd).
  rewrite map_map. cbn [snd].
  apply attendance_count_sum.
  apply (distinct_by_filter _ _ (subjects db)). exact Hkeys.
Qed.

(** ** The further properties at work in the demo school *)

Lemma report_integrity_kept_witness :
  report_integrity
    (perform_all Demo.plain Demo.hashed DemoPages.history Demo.school) = true.
Proof.
  exact (proj1 (report_integrity_kept Demo.plain Demo.hashed
                  DemoPages.history Demo.school eq_refl)).
Defined.

Lemma result_integrity_kept_witness :
  result_integrity
    (perform_all Demo.plain Demo.hashed DemoPages.history Demo.school) = true
  /\ results
       (perform_all Demo.plain Demo.hashed DemoPages.history Demo.school)
     = [StudentResult.make 1 1 1 55%float 65%float].
Proof.
  split; [|reflexivity].
  exact (proj1 (result_integrity_kept Demo.plain Demo.hashed
                  DemoPages.history Demo.school eq_refl)).
Defined.

(** A register posted without a date. *)
Lemma save_attendance_rejects_witness :
  save_attendance [mk_student_dict 1 true] None 1 1 Demo.school
  = (Return ReturnNone, Demo.school).
Proof.
  exact (save_attendance_rejects [mk_student_dict 1 true] None 1 1
           Demo.school (or_intror (or_intror eq_refl))).
Defined.

Lemma save_attendance_ok_witness :
  exists session subject d attendance,
    Some Demo.day = Some d
    /\ get_object_or_404 (fun s => Session.id s =? 1)
         (sessions Demo.school_attended) = Return session
    /\ get_object_or_404 (fun s => Subject.id s =? 1)
         (subjects Demo.school_attended) = Return subject
    /\ filter (event_of session subject d) (attendances Demo.school_attended)
       = [attendance]
    /\ forall sd, In sd [mk_student_dict 1 true; mk_student_dict 2 true] ->
         exists student r,
           get_object_or_404 (fun s => Student.id s =? sd_id sd)
             (students Demo.school_attended) = Return student
           /\ filter (report_of student attendance)
                (reports Demo.school_attended) = [r].
Proof.
  exact (save_attendance_ok [mk_student_dict 1 true; mk_student_dict 2 true]
           (Some Demo.day) 1 1 Demo.school Demo.school_attended eq_refl).
Defined.

Lemma save_attendance_succeeds_witness :
  fst (save_attendance [mk_student_dict 1 true; mk_student_dict 2 false]
         (Some Demo.day) 1 1 Demo.school)
  = Return (HttpResponse (Text "OK")).
Proof.
  apply (save_attendance_succeeds
           [mk_student_dict 1 true; mk_student_dict 2 false] Demo.day 1 1
           Demo.school (Session.make 1 (mkdate 2023 9 1) (mkdate 2024 6 30))
           (Subject.make 1 "Data structures" 1 1));
    try reflexivity.
  intros sd [<-|[<-|[]]]; eexists; reflexivity.
Defined.

Lemma update_attendance_keeps_reports_witness :
  exists l,
    snd (update_attendance [mk_student_dict 2 false; mk_student_dict 7 true] 1
           Demo.school_attended)
    = set_reports l Demo.school_attended
    /\ map report_key l = [(1, 1, 1); (2, 2, 1)].
Proof.
  exact (update_attendance_keeps_reports
           [mk_student_dict 2 false; mk_student_dict 7 true] 1
           Demo.school_attended eq_refl).
Defined.

Lemma update_attendance_ok_iff_witness :
  fst (update_attendance [mk_student_dict 2 false; mk_student_dict 3 true] 1
         Demo.school_attended)
  = Return (HttpResponse (Text "OK")).
Proof.
  apply (proj2 (proj1 (update_attendance_ok_iff
                         [mk_student_dict 2 false; mk_student_dict 3 true] 1
                         Demo.school_attended (Attendance.make 1 1 1 Demo.day)
                         eq_refl eq_refl))).
  intros sd [<-|[<-|[]]]; eexists; split; reflexivity.
Defined.


Lemma get_students_lists_the_enrolled_witness :
  snd (get_students 1 1 Demo.school) = Demo.school
  /\ exists subject session,
       get_object_or_404 (fun s => Subject.id s =? 1) (subjects Demo.school)
       = Return subject
       /\ get_object_or_404 (fun s => Session.id s =? 1)
            (sessions Demo.school) = Return session
       /\ listed_ids (JsonResponse DemoPages.students_listing)
          = map Student.id
              (filter (enrolled (Subject.course_id subject)
                         (Session.id session)) (students Demo.school)).
Proof.
  exact (get_students_lists_the_enrolled 1 1 Demo.school
           DemoPages.students_listing eq_refl).
Defined.

Lemma get_students_then_save_attendance_witness :
  fst (save_attendance [mk_student_dict 2 true; mk_student_dict 1 false]
         (Some Demo.day) 1 1 Demo.school)
  = Return (HttpResponse (Text "OK")).
Proof.
  apply (get_students_then_save_attendance 1 1 Demo.school
           DemoPages.students_listing
           [mk_student_dict 2 true; mk_student_dict 1 false] Demo.day);
    try reflexivity.
  intros sd [<-|[<-|[]]]; simpl; auto.
Defined.

Lemma get_student_attendance_lists_accounts_witness :
  snd (get_student_attendance 1 Demo.school_attended) = Demo.school_attended
  /\ exists attendance,
       get_object_or_404 (fun a => Attendance.id a =? 1)
         (attendances Demo.school_attended) = Return attendance
       /\ Forall2
            (fun r i =>
               exists student,
                 objects_get
                   (fun s => Student.id s =? AttendanceReport.student_id r)
                   (students Demo.school_attended) = Return student
                 /\ Student.admin_id student = i)
            (filter (fun r => AttendanceReport.attendance_id r
                              =? Attendance.id attendance)
               (reports Demo.school_attended))
            (listed_ids (JsonResponse DemoPages.attendance_listing)).
Proof.
  exact (get_student_attendance_lists_accounts 1 Demo.school_attended
           DemoPages.attendance_listing eq_refl).
Defined.

Lemma get_student_attendance_then_update_witness :
  fst (update_attendance [mk_student_dict 3 false; mk_student_dict 2 false] 1
         Demo.school_attended)
  = Return (HttpResponse (Text "OK")).
Proof.
  apply (get_student_attendance_then_update 1 Demo.school_attended
           DemoPages.attendance_listing
           [mk_student_dict 3 false; mk_student_dict 2 false]);
    try reflexivity.
  intros sd [<-|[<-|[]]]; simpl; auto.
Defined.

Lemma user_integrity_kept_witness :
  user_integrity
    (perform_all Demo.plain Demo.hashed DemoPages.history Demo.school) = true
  /\ students
       (perform_all Demo.plain Demo.hashed DemoPages.history Demo.school)
     = students Demo.school ++ [Student.make 3 4 None None].
Proof.
  split; [|reflexivity].
  exact (proj1 (user_integrity_kept Demo.plain Demo.hashed DemoPages.history
                  Demo.school eq_refl)).
Defined.

Lemma get_students_answers_witness :
  exists entries,
    get_students 1 1 Demo.school
    = (Return (JsonResponse (json_dumps (JList entries))), Demo.school)
    /\ List.length entries = 2%nat.
Proof.
  exact (get_students_answers 1 1 Demo.school
           (Subject.make 1 "Data structures" 1 1)
           (Session.make 1 (mkdate 2023 9 1) (mkdate 2024 6 30))
           (Course.make 1 "Computing") eq_refl eq_refl eq_refl eq_refl).
Defined.

Lemma get_student_attendance_answers_witness :
  exists entries,
    get_student_attendance 1 Demo.school_attended
    = (Return (JsonResponse (json_dumps (JList entries))),
       Demo.school_attended)
    /\ List.length entries = 2%nat.
Proof.
  exact (get_student_attendance_answers 1 Demo.school_attended
           (Attendance.make 1 1 1 Demo.day) eq_refl eq_refl eq_refl eq_refl).
Defined.

Lemma staff_home_chart_witness :
  list_sum (attendance_list DemoPages.home) = total_attendance DemoPages.home
  /\ subject_list DemoPages.home = ["Data structures"]
  /\ attendance_list DemoPages.home = [1%nat].
Proof.
  destruct (staff_home_chart 1 DemoPages.leave_reports Demo.school_attended
              DemoPages.home eq_refl)
    as (_ & staff & _ & _ & _ & _ & _ & Hsum).
  split; [exact (Hsum eq_refl)|]. split; reflexivity.
Defined.
